(** * fim-ai-chat: admin API routes, quota accounting and chat-title editing

    A shallow embedding of
    - [src/app/api/admin/users/route.ts]          (module [UsersRoute]),
    - the admin codes route                        (module [CodesRoute]),
    - the admin database-reset route               (module [DatabaseResetRoute]),
    - the Prisma schema                            (module [Schema]),
    - the title editor of [MaterialChatLayout.tsx] (module [ChatLayout]),
    - its model menu, labels and send button       (module [ChatView]),
    followed by the properties proved about them. *)

From Stdlib Require Import ZArith QArith String Ascii List Bool Lia.
From stdpp Require Import base option list gmap strings pretty fin_maps.
Import ListNotations.

Local Open Scope string_scope.
Local Open Scope Z_scope.
Set Warnings "-register-all".

(** ** JavaScript values and strings *)

Module JS.

(** A value as [JSON.parse] produces it, plus [undefined] for a property
    that is absent.  A number is the (finite) value it parses to. *)
Inductive jsval : Type :=
| JUndefined
| JNull
| JBool (b : bool)
| JNum (q : Q)
| JStr (s : string)
| JArray (items : list jsval)
| JObject (fields : list (string * jsval)).

(** [!!v]: ToBoolean. *)
Definition truthy (v : jsval) : bool :=
  match v with
  | JUndefined | JNull => false
  | JBool b => b
  | JNum q => negb (Qeq_bool q 0)
  | JStr s => negb (String.eqb s "")
  | JArray _ | JObject _ => true
  end.

(** [a === b].  Two arrays or objects read from different properties of a
    parsed document are different references, so they are never equal. *)
Definition strict_eq (a b : jsval) : bool :=
  match a, b with
  | JUndefined, JUndefined => true
  | JNull, JNull => true
  | JBool x, JBool y => Bool.eqb x y
  | JNum x, JNum y => Qeq_bool x y
  | JStr x, JStr y => String.eqb x y
  | _, _ => false
  end.

(** [a || b] on values. *)
Definition or_else (a b : jsval) : jsval := if truthy a then a else b.

Fixpoint assoc {A : Type} (k : string) (l : list (string * A)) : option A :=
  match l with
  | [] => None
  | (k', v) :: r => if String.eqb k k' then Some v else assoc k r
  end.

(** [data.k] where [data] is not [null] or [undefined]: own properties of
    an object; the names read by the routes are not properties of
    primitives or arrays. *)
Definition prop (k : string) (data : jsval) : jsval :=
  match data with
  | JObject fs => default JUndefined (assoc k fs)
  | _ => JUndefined
  end.

(** [const { k1, ..., ...rest } = data]: the rest object.  Both routes
    that take one return 400 (no [adminUserId]) before reading it when
    [data] is not an object. *)
Definition rest (taken : list string) (data : jsval) : jsval :=
  match data with
  | JObject fs =>
      JObject (List.filter (fun kv => negb (existsb (String.eqb (fst kv)) taken)) fs)
  | _ => JObject []
  end.

(** A string whose characters the code reads (it trims it, cuts it or
    tests it for emptiness after trimming) is the sequence of its UTF-16
    code units, each below 65536: what [s.length], [s.slice] and [s.trim]
    work on.  Where only equality and emptiness of a string matter (ids,
    names, messages passed along) it is kept as a Rocq string, the bytes of
    its literal. *)
Definition ustring : Type := list N.

(** The code units of a literal written in ASCII. *)
Definition units (s : string) : ustring := N_of_ascii <$> list_ascii_of_string s.

(** What [trim] strips: WhiteSpace (TAB, VT, FF, ZWNBSP and the space
    separators SP, NBSP, U+1680, U+2000 to U+200A, U+202F, U+205F, U+3000)
    and LineTerminator (LF, CR, U+2028, U+2029).  Each is one code unit.
    (U+180E is no space separator since Unicode 6.3, and not stripped.) *)
Definition isWhiteSpace (c : N) : bool :=
  ((9 <=? c) && (c <=? 13) || (c =? 32) || (c =? 160) || (c =? 0x1680)
   || (0x2000 <=? c) && (c <=? 0x200A) || (c =? 0x2028) || (c =? 0x2029)
   || (c =? 0x202F) || (c =? 0x205F) || (c =? 0x3000) || (c =? 0xFEFF))%N.

Fixpoint trimStart (s : ustring) : ustring :=
  match s with
  | [] => []
  | c :: r => if isWhiteSpace c then trimStart r else s
  end.

Fixpoint trimEnd (s : ustring) : ustring :=
  match s with
  | [] => []
  | c :: r =>
      match trimEnd r with
      | [] => if isWhiteSpace c then [] else [c]
      | r' => c :: r'
      end
  end.

(** [s.trim()] *)
Definition trim (s : ustring) : ustring := trimEnd (trimStart s).

(** [s.slice(b, e)] for [0 <= b <= e]: the code units from [b] up to, not
    including, [e]. *)
Definition slice (b e : nat) (s : ustring) : ustring := firstn (e - b) (skipn b s).

(** Truthiness of a string. *)
Definition nonEmpty (s : ustring) : bool :=
  match s with [] => false | _ => true end.

End JS.
Export JS.

(** ** The title editor of the chat layout *)

Module ChatLayout.

(** The props the title editor reads. [onChatTitleChange] is optional; what
    the model keeps of it is whether it was supplied, and the calls made. *)
Record Props : Type := {
  chatTitle : ustring;
  hasOnChatTitleChange : bool;
  messagesLength : nat
}.

(** [useState] cells of the component that the title editor uses, and the
    calls made to [onChatTitleChange] so far (oldest first). *)
Record State : Type := {
  isEditingTitle : bool;
  editableTitle : ustring;
  titleChanges : list ustring
}.

Definition initial (p : Props) : State :=
  {| isEditingTitle := false; editableTitle := chatTitle p; titleChanges := [] |}.

Definition handleTitleEdit (p : Props) (st : State) : State :=
  {| isEditingTitle := true;
     editableTitle := chatTitle p;
     titleChanges := titleChanges st |}.

Definition handleTitleSave (p : Props) (st : State) : State :=
  let trimmedTitle := slice 0 8 (trim (editableTitle st)) in
  {| isEditingTitle := false;
     editableTitle := editableTitle st;
     titleChanges :=
       if hasOnChatTitleChange p && nonEmpty trimmedTitle
       then titleChanges st ++ [trimmedTitle]
       else titleChanges st |}.

Definition handleTitleKeyPress (p : Props) (key : string) (st : State) : State :=
  if String.eqb key "Enter" then handleTitleSave p st else st.

(** Events of the title box.  The box is rendered only when there are
    messages; the text field (change, blur, key press) only while editing,
    the click handler only while not editing. *)
Inductive Event : Type :=
| Click
| Change (value : ustring)
| Blur
| KeyPress (key : string).

Definition step (p : Props) (st : State) (ev : Event) : State :=
  if (messagesLength p =? 0)%nat then st else
  match ev, isEditingTitle st with
  | Click, false => handleTitleEdit p st
  | Change v, true =>
      {| isEditingTitle := true; editableTitle := v; titleChanges := titleChanges st |}
  | Blur, true => handleTitleSave p st
  | KeyPress k, true => handleTitleKeyPress p k st
  | _, _ => st
  end.

(** The events that save: blur, and the Enter key. *)
Definition saves (ev : Event) : bool :=
  match ev with
  | Blur => true
  | KeyPress k => String.eqb k "Enter"
  | _ => false
  end.

End ChatLayout.

(** ** The Prisma schema *)

Module Schema.

Inductive UserRole : Type := ADMIN | USER | GUEST.

(** [DateTime] is epoch milliseconds, [Int] an integer, [Float] a
    rational, [Json] a [jsval]; [T?] is [option T].  Every row is stored
    under its [id], the primary key. *)
Record User : Type := {
  user_email : option string;
  user_username : option string;
  user_password : option string;
  user_avatar : option string;
  user_role : UserRole;
  user_isActive : bool;
  user_canShareAccessCode : bool;
  user_resetToken : option string;
  user_resetTokenExpiry : option Z;
  user_invitedBy : option string;
  user_usedInviteCode : option string;
  user_usedAccessCode : option string;
  user_hostUserId : option string;
  user_createdAt : Z;
  user_updatedAt : Z
}.

Record UserSettings : Type := {
  settings_userId : string;
  settings_defaultModelId : option string;
  settings_theme : string;
  settings_language : string;
  settings_enableMarkdown : bool;
  settings_enableLatex : bool;
  settings_enableCodeHighlight : bool;
  settings_messagePageSize : Z;
  settings_createdAt : Z;
  settings_updatedAt : Z
}.

Record Conversation : Type := {
  conv_userId : string;
  conv_providerId : string;
  conv_modelId : string;
  conv_title : string;
  conv_isArchived : bool;
  conv_isPinned : bool;
  conv_createdAt : Z;
  conv_updatedAt : Z
}.

Record Message : Type := {
  msg_conversationId : string;
  msg_userId : string;
  msg_providerId : string;
  msg_modelId : string;
  msg_role : string;
  msg_content : string;
  msg_rawContent : option string;
  msg_isEdited : bool;
  msg_isDeleted : bool;
  msg_finishReason : option string;
  msg_tokenUsage : option jsval;
  msg_createdAt : Z;
  msg_updatedAt : Z
}.

Record InviteCode : Type := {
  invite_code : string;
  invite_createdBy : string;
  invite_isUsed : bool;
  invite_usedBy : option string;
  invite_usedAt : option Z;
  invite_expiresAt : option Z;
  invite_maxUses : Z;
  invite_currentUses : Z;
  invite_createdAt : Z;
  invite_updatedAt : Z
}.

Record AccessCode : Type := {
  access_code : string;
  access_createdBy : string;
  access_isActive : bool;
  access_expiresAt : option Z;
  access_maxUses : option Z;
  access_currentUses : Z;
  access_allowedModelIds : option string;
  access_createdAt : Z;
  access_updatedAt : Z
}.

Record TokenUsage : Type := {
  usage_userId : string;
  usage_conversationId : option string;
  usage_messageId : option string;
  usage_providerId : string;
  usage_modelId : string;
  usage_promptTokens : Z;
  usage_completionTokens : Z;
  usage_totalTokens : Z;
  usage_isEstimated : bool;
  usage_inputChars : option Z;
  usage_outputChars : option Z;
  usage_cost : option Q;
  usage_createdAt : Z
}.

Record UserPermission : Type := {
  perm_userId : string;
  perm_permissions : jsval;
  perm_limitType : string;
  perm_limitPeriod : string;
  perm_tokenLimit : option Z;
  perm_costLimit : option Q;
  perm_tokenUsed : Z;
  perm_lastResetAt : Z;
  perm_createdAt : Z;
  perm_updatedAt : Z
}.

Record ModelGroupOrder : Type := {
  mgo_userId : string;
  mgo_groupName : string;
  mgo_order : Z;
  mgo_createdAt : Z;
  mgo_updatedAt : Z
}.

(** The tables the admin routes read or write, and those their deletes
    cascade into.  Providers, models and system settings are never
    touched by these routes and are left out. *)
Record Store : Type := {
  users : gmap string User;
  userSettings : gmap string UserSettings;
  conversations : gmap string Conversation;
  messages : gmap string Message;
  inviteCodes : gmap string InviteCode;
  accessCodes : gmap string AccessCode;
  tokenUsage : gmap string TokenUsage;
  userPermissions : gmap string UserPermission;
  modelGroupOrders : gmap string ModelGroupOrder
}.

Definition emptyStore : Store :=
  {| users := ∅; userSettings := ∅; conversations := ∅; messages := ∅;
     inviteCodes := ∅; accessCodes := ∅; tokenUsage := ∅;
     userPermissions := ∅; modelGroupOrders := ∅ |}.

End Schema.
Export Schema.

(** ** The runtime the route handlers run in *)

Module Runtime.

(** What a handler's caller receives: [NextResponse.json(body, { status })]. *)
Inductive Body : Type :=
| BError (error : string)
| BExecError (error details : string) (stdout stderr : option ustring)
| BSuccess (message : string)
| BResetDone (message : string) (resetOutput seedOutput : ustring)
| BResetInfo (confirmationRequired : string)
| BUser (id : string) (username email : option string) (role : UserRole)
        (isActive : bool)
| BInviteCode (id : string) (row : InviteCode)
              (creator : option (string * option string))
| BAccessCode (id : string) (row : AccessCode)
              (creator : option (string * option string))
| BInviteCodes (rows : list (string * InviteCode))
| BAccessCodes (rows : list (string * AccessCode))
| BValue (v : jsval).

Record Response : Type := { body : Body; status : Z }.

(** [NextResponse.json(b)] and [NextResponse.json(b, { status })]. *)
Definition json (b : Body) : Response := {| body := b; status := 200 |}.
Definition json_status (b : Body) (st : Z) : Response := {| body := b; status := st |}.

(** A request: the query string of its URL and, when the body parses,
    the document [request.json()] resolves to. *)
Record Request : Type := {
  searchParams : list (string * string);
  jsonBody : option jsval
}.

(** What can be thrown inside a handler. *)
Inductive Err : Type :=
| SyntaxError                 (* [request.json()] on a malformed body *)
| TypeError                   (* destructuring [null], a method of a non-string *)
| PrismaValidationError       (* an argument of the wrong type, an unknown field *)
| PrismaNotFound              (* P2025: the record to delete or update is absent *)
| PrismaUniqueViolation       (* P2002 *)
| PrismaForeignKeyViolation   (* P2003 *)
| DatabaseUnavailable         (* the round trip itself failed *)
| Rejected                    (* a library helper's promise rejected *)
| ExecError (message : string) (stdout stderr : ustring).

Inductive Table : Type :=
| TUser | TUserSettings | TConversation | TMessage | TInviteCode
| TAccessCode | TTokenUsage | TUserPermission.

(** The database operations a handler requests, as it words them. *)
Inductive Query : Type :=
| FindUnique (t : Table) (id : string)
| FindFirst (t : Table)
| FindMany (t : Table)
| Create (t : Table)
| Update (t : Table) (id : string)
| Delete (t : Table) (id : string)
| DeleteMany (t : Table) (column value : string).

Record World : Type := {
  db : Store;
  tick : nat;                       (* requests made to the outside so far *)
  queries : list Query;             (* database operations, oldest first *)
  shell : list (string * Z)         (* commands started, with their timeout *)
}.

Inductive ExecResult : Type :=
| ExecOk (stdout stderr : ustring)
| ExecFailed (message : string) (stdout stderr : ustring).

(** Everything the handlers import or call that is not their own code.
    Each answer may depend on when it is asked ([tick]). *)
Record Env : Type := {
  (* @/lib/auth; [None]: the promise rejects *)
  checkUserPermission : Store -> jsval -> string -> option bool;
  (* @/lib/db/admin *)
  getAllUsers : bool -> option string -> option bool -> option Z -> option Z ->
                nat -> Store -> option jsval * Store;
  updateUserStatus : jsval -> jsval -> nat -> Store -> option jsval * Store;
  updateUserAccessCodePermission : jsval -> jsval -> nat -> Store -> option jsval * Store;
  updateUserPermissions : jsval -> jsval -> nat -> Store -> option jsval * Store;
  (* @/lib/codes *)
  generateInviteCode : nat -> string;
  (* bcryptjs: hash(password, rounds) *)
  bcryptHash : string -> Z -> nat -> string;
  (* child_process.exec of a command with a timeout, on the database *)
  exec : string -> Z -> nat -> Store -> ExecResult * Store;
  (* built-ins: parseInt ([None] is NaN), new Date(v) ([None] is Invalid Date) *)
  parseInt : string -> option Z;
  newDate : jsval -> option Z;
  (* the database server and the Prisma client *)
  dbFault : nat -> bool;            (* the n-th request fails in transit *)
  clock : nat -> Z;                 (* now() *)
  cuid : nat -> string;             (* @default(cuid()) *)
  equalsInsensitive : string -> string -> bool;
  inviteCode_findMany : option Z -> option Z -> Store -> option (list (string * InviteCode));
  accessCode_findMany : option Z -> option Z -> Store -> option (list (string * AccessCode))
}.

(** A handler body either goes on with a value, returns a response to the
    caller from wherever it is, or throws. *)
Inductive Outcome (A : Type) : Type :=
| Value (a : A)
| Return (r : Response)
| Throw (e : Err).
Arguments Value {A} a.
Arguments Return {A} r.
Arguments Throw {A} e.

Definition M (A : Type) : Type := World -> Outcome A * World.

Definition ret {A} (a : A) : M A := fun w => (Value a, w).

Definition bind {A B} (m : M A) (k : A -> M B) : M B :=
  fun w =>
    match m w with
    | (Value a, w') => k a w'
    | (Return r, w') => (Return r, w')
    | (Throw e, w') => (Throw e, w')
    end.

Definition return_ {A} (r : Response) : M A := fun w => (Return r, w).
Definition throw {A} (e : Err) : M A := fun w => (Throw e, w).

(** [if (c) { return r }] *)
Definition return_if (c : bool) (r : Response) : M unit :=
  if c then return_ r else ret tt.

(** [try { body } catch (e) { handler e }] inside a handler. *)
Definition try_catch {A} (body : M A) (handler : Err -> M A) : M A :=
  fun w =>
    match body w with
    | (Throw e, w') => handler e w'
    | other => other
    end.

(** A whole handler: [try { body } catch (error) { return onError }]. *)
Definition handler (body : M Response) (onError : Response) : World -> Response * World :=
  fun w =>
    match body w with
    | (Value r, w') => (r, w')
    | (Return r, w') => (r, w')
    | (Throw _, w') => (onError, w')
    end.

Definition set_db (s : Store) (w : World) : World :=
  {| db := s; tick := tick w; queries := queries w; shell := shell w |}.

(** Ask the outside once: the answer's index is the current [tick]. *)
Definition next_tick : M nat :=
  fun w => (Value (tick w),
            {| db := db w; tick := S (tick w); queries := queries w; shell := shell w |}).

(** A library helper: [await f(...)]. *)
Definition call {A} (f : nat -> Store -> option A * Store) : M A :=
  fun w =>
    let '(r, s') := f (tick w) (db w) in
    (match r with Some a => Value a | None => Throw Rejected end,
     {| db := s'; tick := S (tick w); queries := queries w; shell := shell w |}).

(** [const data = await request.json()] followed by
    [const { ... } = data]: [null] cannot be destructured. *)
Definition request_json (req : Request) : M jsval :=
  match jsonBody req with
  | None => throw SyntaxError
  | Some JNull => throw TypeError
  | Some d => ret d
  end.

(** [searchParams.get(k)]: the first value, or [null]. *)
Definition get (k : string) (req : Request) : option string :=
  assoc k (searchParams req).

(** A query parameter as a value: [null] when absent. *)
Definition param (o : option string) : jsval :=
  match o with Some s => JStr s | None => JNull end.

(** [p || d] on a query parameter. *)
Definition param_or (o : option string) (d : string) : string :=
  match o with
  | Some s => if String.eqb s "" then d else s
  | None => d
  end.

(** [p || undefined] on a query parameter. *)
Definition param_nonempty (o : option string) : option string :=
  match o with
  | Some s => if String.eqb s "" then None else Some s
  | None => None
  end.

(** [e.message] *)
Definition message_of (e : Err) : string :=
  match e with
  | SyntaxError => "Unexpected token in JSON"
  | TypeError => "Cannot destructure"
  | PrismaValidationError => "Invalid invocation"
  | PrismaNotFound => "Record not found"
  | PrismaUniqueViolation => "Unique constraint failed"
  | PrismaForeignKeyViolation => "Foreign key constraint failed"
  | DatabaseUnavailable => "Can't reach database server"
  | Rejected => "rejected"
  | ExecError m _ _ => m
  end.

End Runtime.
Export Runtime.

Declare Scope handler_scope.
Delimit Scope handler_scope with handler.
Notation "x <- m ;; k" := (bind m (fun x => k))
  (at level 100, m at next level, right associativity) : handler_scope.
Notation "m ;;; k" := (bind m (fun _ => k))
  (at level 100, right associativity) : handler_scope.

Local Open Scope handler_scope.

(** ** The Prisma client on the schema *)

Module Prisma.

Definition with_users (m : gmap string User) (s : Store) : Store :=
  {| users := m; userSettings := userSettings s; conversations := conversations s;
     messages := messages s; inviteCodes := inviteCodes s; accessCodes := accessCodes s;
     tokenUsage := tokenUsage s; userPermissions := userPermissions s;
     modelGroupOrders := modelGroupOrders s |}.

Definition with_userSettings (m : gmap string UserSettings) (s : Store) : Store :=
  {| users := users s; userSettings := m; conversations := conversations s;
     messages := messages s; inviteCodes := inviteCodes s; accessCodes := accessCodes s;
     tokenUsage := tokenUsage s; userPermissions := userPermissions s;
     modelGroupOrders := modelGroupOrders s |}.

Definition with_conversations (m : gmap string Conversation) (s : Store) : Store :=
  {| users := users s; userSettings := userSettings s; conversations := m;
     messages := messages s; inviteCodes := inviteCodes s; accessCodes := accessCodes s;
     tokenUsage := tokenUsage s; userPermissions := userPermissions s;
     modelGroupOrders := modelGroupOrders s |}.

Definition with_messages (m : gmap string Message) (s : Store) : Store :=
  {| users := users s; userSettings := userSettings s; conversations := conversations s;
     messages := m; inviteCodes := inviteCodes s; accessCodes := accessCodes s;
     tokenUsage := tokenUsage s; userPermissions := userPermissions s;
     modelGroupOrders := modelGroupOrders s |}.

Definition with_inviteCodes (m : gmap string InviteCode) (s : Store) : Store :=
  {| users := users s; userSettings := userSettings s; conversations := conversations s;
     messages := messages s; inviteCodes := m; accessCodes := accessCodes s;
     tokenUsage := tokenUsage s; userPermissions := userPermissions s;
     modelGroupOrders := modelGroupOrders s |}.

Definition with_accessCodes (m : gmap string AccessCode) (s : Store) : Store :=
  {| users := users s; userSettings := userSettings s; conversations := conversations s;
     messages := messages s; inviteCodes := inviteCodes s; accessCodes := m;
     tokenUsage := tokenUsage s; userPermissions := userPermissions s;
     modelGroupOrders := modelGroupOrders s |}.

Definition with_tokenUsage (m : gmap string TokenUsage) (s : Store) : Store :=
  {| users := users s; userSettings := userSettings s; conversations := conversations s;
     messages := messages s; inviteCodes := inviteCodes s; accessCodes := accessCodes s;
     tokenUsage := m; userPermissions := userPermissions s;
     modelGroupOrders := modelGroupOrders s |}.

Definition with_userPermissions (m : gmap string UserPermission) (s : Store) : Store :=
  {| users := users s; userSettings := userSettings s; conversations := conversations s;
     messages := messages s; inviteCodes := inviteCodes s; accessCodes := accessCodes s;
     tokenUsage := tokenUsage s; userPermissions := m;
     modelGroupOrders := modelGroupOrders s |}.

Definition with_modelGroupOrders (m : gmap string ModelGroupOrder) (s : Store) : Store :=
  {| users := users s; userSettings := userSettings s; conversations := conversations s;
     messages := messages s; inviteCodes := inviteCodes s; accessCodes := accessCodes s;
     tokenUsage := tokenUsage s; userPermissions := userPermissions s;
     modelGroupOrders := m |}.

(** *** Referential actions of the schema *)

(** Is [cid] a conversation of user [uid]? *)
Definition conversationOf (s : Store) (uid cid : string) : bool :=
  match conversations s !! cid with
  | Some c => bool_decide (conv_userId c = uid)
  | None => false
  end.

Definition detachUsage (s : Store) (uid : string) (u : TokenUsage) : TokenUsage :=
  match usage_conversationId u with
  | Some cid =>
      if conversationOf s uid cid then
        {| usage_userId := usage_userId u; usage_conversationId := None;
           usage_messageId := usage_messageId u; usage_providerId := usage_providerId u;
           usage_modelId := usage_modelId u; usage_promptTokens := usage_promptTokens u;
           usage_completionTokens := usage_completionTokens u;
           usage_totalTokens := usage_totalTokens u; usage_isEstimated := usage_isEstimated u;
           usage_inputChars := usage_inputChars u; usage_outputChars := usage_outputChars u;
           usage_cost := usage_cost u; usage_createdAt := usage_createdAt u |}
      else u
  | None => u
  end.

(** Deleting the conversations of [uid]: [Message.conversation] is
    [onDelete: Cascade], [TokenUsage.conversation] is [onDelete: SetNull]. *)
Definition deleteConversationsOf (uid : string) (s : Store) : Store :=
  with_conversations (filter (λ kv, conv_userId kv.2 ≠ uid) (conversations s))
    (with_messages
       (filter (λ kv, conversationOf s uid (msg_conversationId kv.2) = false) (messages s))
       (with_tokenUsage (detachUsage s uid <$> tokenUsage s) s)).

Definition deleteMessagesOf (uid : string) (s : Store) : Store :=
  with_messages (filter (λ kv, msg_userId kv.2 ≠ uid) (messages s)) s.

Definition deleteTokenUsageOf (uid : string) (s : Store) : Store :=
  with_tokenUsage (filter (λ kv, usage_userId kv.2 ≠ uid) (tokenUsage s)) s.

Definition deletePermissionsOf (uid : string) (s : Store) : Store :=
  with_userPermissions (filter (λ kv, perm_userId kv.2 ≠ uid) (userPermissions s)) s.

Definition deleteInviteCodesBy (uid : string) (s : Store) : Store :=
  with_inviteCodes (filter (λ kv, invite_createdBy kv.2 ≠ uid) (inviteCodes s)) s.

Definition deleteAccessCodesBy (uid : string) (s : Store) : Store :=
  with_accessCodes (filter (λ kv, access_createdBy kv.2 ≠ uid) (accessCodes s)) s.

Definition deleteSettingsOf (uid : string) (s : Store) : Store :=
  with_userSettings (filter (λ kv, settings_userId kv.2 ≠ uid) (userSettings s)) s.

Definition deleteGroupOrdersOf (uid : string) (s : Store) : Store :=
  with_modelGroupOrders (filter (λ kv, mgo_userId kv.2 ≠ uid) (modelGroupOrders s)) s.

(** Deleting the row of user [uid]: every relation to [User] in the schema
    is [onDelete: Cascade]. *)
Definition deleteUserRow (uid : string) (s : Store) : Store :=
  with_users (delete uid (users s))
    (deleteGroupOrdersOf uid
       (deleteSettingsOf uid
          (deleteAccessCodesBy uid
             (deleteInviteCodesBy uid
                (deletePermissionsOf uid
                   (deleteTokenUsageOf uid
                      (deleteMessagesOf uid
                         (deleteConversationsOf uid s)))))))).

(** *** Argument validation by the client *)

Definition as_string (v : jsval) : option string :=
  match v with JStr s => Some s | _ => None end.

(** An [Int] argument: a number is taken without its fraction (truncated
    toward zero: 2.5 is stored as 2, 0.4 as 0), and has to fit the column,
    a 32-bit signed integer; anything but a number is refused. *)
Definition as_int (v : jsval) : option Z :=
  match v with
  | JNum q =>
      let z := Z.quot (Qnum q) (Zpos (Qden q)) in
      if (-2147483648 <=? z) && (z <=? 2147483647) then Some z else None
  | _ => None
  end.

Definition as_role (v : jsval) : option UserRole :=
  match v with
  | JStr s =>
      if String.eqb s "ADMIN" then Some ADMIN
      else if String.eqb s "USER" then Some USER
      else if String.eqb s "GUEST" then Some GUEST
      else None
  | _ => None
  end.

(** A [String?] argument: absent or [null] is NULL. *)
Definition as_string_opt (v : jsval) : option (option string) :=
  match v with
  | JUndefined | JNull => Some None
  | JStr s => Some (Some s)
  | _ => None
  end.

Definition lift_arg {A} (o : option A) : M A :=
  match o with Some a => ret a | None => throw PrismaValidationError end.

(** Is some row's column equal to [v]? *)
Definition taken {R} (col : R -> option string) (v : option string)
    (m : gmap string R) : bool :=
  match v with
  | None => false
  | Some s => bool_decide (map_Exists (λ _ r, col r = Some s) m)
  end.

(** The columns of [UserPermission] a [create] may name. *)
Definition userPermission_columns : list string :=
  ["id"; "userId"; "permissions"; "limitType"; "limitPeriod"; "tokenLimit";
   "costLimit"; "tokenUsed"; "lastResetAt"; "createdAt"; "updatedAt"; "user"].

Section Client.
Context (E : Env).

(** One request to the database: it is logged, it may fail in transit,
    otherwise the statement runs.  A statement that throws changes
    nothing. *)
Definition round_trip {A} (q : Query) (stmt : nat -> Store -> (Err + A) * Store) : M A :=
  fun w =>
    let n := tick w in
    let w1 := {| db := db w; tick := S n; queries := queries w ++ [q]; shell := shell w |} in
    if dbFault E n then (Throw DatabaseUnavailable, w1)
    else
      match stmt n (db w) with
      | (inr a, s') => (Value a, set_db s' w1)
      | (inl e, _) => (Throw e, w1)
      end.

(** [prisma.$transaction(async (tx) => body)]: when the body throws,
    every change it made is rolled back. *)
Definition transaction {A} (body : M A) : M A :=
  fun w =>
    match body w with
    | (Throw e, w') => (Throw e, set_db (db w) w')
    | other => other
    end.

(** [tx.T.deleteMany({ where: { column: value } })] *)
Definition deleteMany (t : Table) (column : string) (value : jsval)
    (del : string -> Store -> Store) : M unit :=
  v <- lift_arg (as_string value) ;;
  round_trip (DeleteMany t column v) (fun _ s => (inr tt, del v s)).

Definition message_deleteMany (userId : jsval) : M unit :=
  deleteMany TMessage "userId" userId deleteMessagesOf.
Definition conversation_deleteMany (userId : jsval) : M unit :=
  deleteMany TConversation "userId" userId deleteConversationsOf.
Definition tokenUsage_deleteMany (userId : jsval) : M unit :=
  deleteMany TTokenUsage "userId" userId deleteTokenUsageOf.
Definition userPermission_deleteMany (userId : jsval) : M unit :=
  deleteMany TUserPermission "userId" userId deletePermissionsOf.
Definition inviteCode_deleteMany (createdBy : jsval) : M unit :=
  deleteMany TInviteCode "createdBy" createdBy deleteInviteCodesBy.
Definition accessCode_deleteMany (createdBy : jsval) : M unit :=
  deleteMany TAccessCode "createdBy" createdBy deleteAccessCodesBy.

(** [prisma.T.findUnique({ where: { id } })] *)
Definition findUnique {R} (t : Table) (table : Store -> gmap string R) (id : jsval)
    : M (option R) :=
  k <- lift_arg (as_string id) ;;
  round_trip (FindUnique t k) (fun _ s => (inr (table s !! k), s)).

Definition user_findUnique := findUnique TUser users.
Definition inviteCode_findUnique := findUnique TInviteCode inviteCodes.
Definition accessCode_findUnique := findUnique TAccessCode accessCodes.

(** [prisma.T.delete({ where: { id } })]: throws when there is no such
    row. *)
Definition delete_row {R} (t : Table) (table : Store -> gmap string R)
    (del : string -> Store -> Store) (id : jsval) : M R :=
  k <- lift_arg (as_string id) ;;
  round_trip (Delete t k)
    (fun _ s =>
       match table s !! k with
       | Some r => (inr r, del k s)
       | None => (inl PrismaNotFound, s)
       end).

Definition user_delete := delete_row TUser users deleteUserRow.
Definition inviteCode_delete :=
  delete_row TInviteCode inviteCodes (fun k s => with_inviteCodes (delete k (inviteCodes s)) s).
Definition accessCode_delete :=
  delete_row TAccessCode accessCodes (fun k s => with_accessCodes (delete k (accessCodes s)) s).

(** [prisma.inviteCode.update({ where: { id }, data: { isUsed } })];
    [updatedAt] is [@updatedAt]. *)
Definition inviteCode_update (id : jsval) (isUsed : bool) : M (string * InviteCode) :=
  k <- lift_arg (as_string id) ;;
  round_trip (Update TInviteCode k)
    (fun n s =>
       match inviteCodes s !! k with
       | Some r =>
           let r' :=
             {| invite_code := invite_code r; invite_createdBy := invite_createdBy r;
                invite_isUsed := isUsed; invite_usedBy := invite_usedBy r;
                invite_usedAt := invite_usedAt r; invite_expiresAt := invite_expiresAt r;
                invite_maxUses := invite_maxUses r;
                invite_currentUses := invite_currentUses r;
                invite_createdAt := invite_createdAt r;
                invite_updatedAt := clock E n |} in
           (inr (k, r'), with_inviteCodes (<[k := r']> (inviteCodes s)) s)
       | None => (inl PrismaNotFound, s)
       end).

(** [prisma.accessCode.update({ where: { id }, data: { isActive } })] *)
Definition accessCode_update (id : jsval) (isActive : bool) : M (string * AccessCode) :=
  k <- lift_arg (as_string id) ;;
  round_trip (Update TAccessCode k)
    (fun n s =>
       match accessCodes s !! k with
       | Some r =>
           let r' :=
             {| access_code := access_code r; access_createdBy := access_createdBy r;
                access_isActive := isActive; access_expiresAt := access_expiresAt r;
                access_maxUses := access_maxUses r;
                access_currentUses := access_currentUses r;
                access_allowedModelIds := access_allowedModelIds r;
                access_createdAt := access_createdAt r;
                access_updatedAt := clock E n |} in
           (inr (k, r'), with_accessCodes (<[k := r']> (accessCodes s)) s)
       | None => (inl PrismaNotFound, s)
       end).

(** [include: { creator: { select: { id: true, username: true } } }] *)
Definition creatorOf (s : Store) (uid : string) : option (string * option string) :=
  (λ u, (uid, user_username u)) <$> users s !! uid.

(** [prisma.inviteCode.create({ data: { code, maxUses, expiresAt,
    createdBy }, include })].  [expiresAt] is [None] for [null], and
    [Some None] for an Invalid Date. *)
Definition inviteCode_create (code : string) (maxUses : jsval)
    (expiresAt : option (option Z)) (createdBy : jsval) : M Body :=
  uses <- lift_arg (as_int maxUses) ;;
  expires <- lift_arg (match expiresAt with
                       | None => Some None
                       | Some None => None
                       | Some (Some t) => Some (Some t)
                       end) ;;
  by_ <- lift_arg (as_string createdBy) ;;
  round_trip (Create TInviteCode)
    (fun n s =>
       let id := cuid E n in
       if bool_decide (is_Some (inviteCodes s !! id))
          || taken (λ r, Some (invite_code r)) (Some code) (inviteCodes s)
       then (inl PrismaUniqueViolation, s)
       else if bool_decide (users s !! by_ = None)
       then (inl PrismaForeignKeyViolation, s)
       else
         let r :=
           {| invite_code := code; invite_createdBy := by_; invite_isUsed := false;
              invite_usedBy := None; invite_usedAt := None; invite_expiresAt := expires;
              invite_maxUses := uses; invite_currentUses := 0;
              invite_createdAt := clock E n; invite_updatedAt := clock E n |} in
         (inr (BInviteCode id r (creatorOf s by_)),
          with_inviteCodes (<[id := r]> (inviteCodes s)) s)).

(** [prisma.accessCode.create({ data: { code, expiresAt, createdBy },
    include })] *)
Definition accessCode_create (code : string) (expiresAt : option (option Z))
    (createdBy : jsval) : M Body :=
  expires <- lift_arg (match expiresAt with
                       | None => Some None
                       | Some None => None
                       | Some (Some t) => Some (Some t)
                       end) ;;
  by_ <- lift_arg (as_string createdBy) ;;
  round_trip (Create TAccessCode)
    (fun n s =>
       let id := cuid E n in
       if bool_decide (is_Some (accessCodes s !! id))
          || taken (λ r, Some (access_code r)) (Some code) (accessCodes s)
       then (inl PrismaUniqueViolation, s)
       else if bool_decide (users s !! by_ = None)
       then (inl PrismaForeignKeyViolation, s)
       else
         let r :=
           {| access_code := code; access_createdBy := by_; access_isActive := true;
              access_expiresAt := expires; access_maxUses := None;
              access_currentUses := 0; access_allowedModelIds := None;
              access_createdAt := clock E n; access_updatedAt := clock E n |} in
         (inr (BAccessCode id r (creatorOf s by_)),
          with_accessCodes (<[id := r]> (accessCodes s)) s)).

(** [prisma.user.findFirst({ where: { OR: [{ username: { equals,
    mode: 'insensitive' } }, ...(email ? [{ email }] : [])] } })];
    the handler reads only whether a row came back. *)
Definition user_matches (name : string) (mail : option string) (u : User) : bool :=
  match user_username u with
  | Some n => equalsInsensitive E n name
  | None => false
  end
  || match mail with
     | Some m => bool_decide (user_email u = Some m)
     | None => false
     end.

Definition user_findFirst (username email : jsval) : M bool :=
  name <- lift_arg (as_string username) ;;
  mail <- (if truthy email then lift_arg (as_string_opt email) else ret None) ;;
  round_trip (FindFirst TUser)
    (fun _ s =>
       (inr (bool_decide (map_Exists (λ _ u, user_matches name mail u = true) (users s))),
        s)).

(** [prisma.user.create({ data: { username, email, password, role,
    isActive: true } })] *)
Definition user_create (username email : jsval) (password : string) (role : jsval)
    : M (string * User) :=
  name <- lift_arg (as_string username) ;;
  mail <- lift_arg (as_string_opt email) ;;
  r <- lift_arg (as_role role) ;;
  round_trip (Create TUser)
    (fun n s =>
       let id := cuid E n in
       if bool_decide (is_Some (users s !! id))
          || taken user_email mail (users s)
          || taken user_username (Some name) (users s)
       then (inl PrismaUniqueViolation, s)
       else
         let u :=
           {| user_email := mail; user_username := Some name;
              user_password := Some password; user_avatar := None; user_role := r;
              user_isActive := true; user_canShareAccessCode := true;
              user_resetToken := None; user_resetTokenExpiry := None;
              user_invitedBy := None; user_usedInviteCode := None;
              user_usedAccessCode := None; user_hostUserId := None;
              user_createdAt := clock E n; user_updatedAt := clock E n |} in
         (inr (id, u), with_users (<[id := u]> (users s)) s)).

(** [prisma.userSettings.create({ data: { userId, theme, language,
    enableMarkdown, enableLatex, enableCodeHighlight, messagePageSize } })] *)
Definition userSettings_create (userId theme language : string)
    (enableMarkdown enableLatex enableCodeHighlight : bool) (messagePageSize : Z)
    : M unit :=
  round_trip (Create TUserSettings)
    (fun n s =>
       let id := cuid E n in
       if bool_decide (is_Some (userSettings s !! id))
          || taken (λ r, Some (settings_userId r)) (Some userId) (userSettings s)
       then (inl PrismaUniqueViolation, s)
       else if bool_decide (users s !! userId = None)
       then (inl PrismaForeignKeyViolation, s)
       else
         let r :=
           {| settings_userId := userId; settings_defaultModelId := None;
              settings_theme := theme; settings_language := language;
              settings_enableMarkdown := enableMarkdown;
              settings_enableLatex := enableLatex;
              settings_enableCodeHighlight := enableCodeHighlight;
              settings_messagePageSize := messagePageSize;
              settings_createdAt := clock E n; settings_updatedAt := clock E n |} in
         (inr tt, with_userSettings (<[id := r]> (userSettings s)) s)).

Definition arg_or {A} (conv : jsval -> option A) (d : A) (v : jsval) : option A :=
  match v with JUndefined => Some d | _ => conv v end.

Definition as_int_opt (v : jsval) : option (option Z) :=
  match v with JUndefined | JNull => Some None | _ => Some <$> as_int v end.

Definition as_float_opt (v : jsval) : option (option Q) :=
  match v with JUndefined | JNull => Some None | JNum q => Some (Some q) | _ => None end.

(** [prisma.userPermission.create({ data })]: a name in [data] that is
    not a column of the model is rejected by the client. *)
Definition userPermission_create (data : list (string * jsval)) : M unit :=
  if negb (forallb (fun kv => existsb (String.eqb (fst kv)) userPermission_columns) data)
  then throw PrismaValidationError
  else
    let field k := default JUndefined (assoc k data) in
    userId <- lift_arg (as_string (field "userId")) ;;
    limitType <- lift_arg (arg_or as_string "none" (field "limitType")) ;;
    limitPeriod <- lift_arg (arg_or as_string "monthly" (field "limitPeriod")) ;;
    tokenLimit <- lift_arg (as_int_opt (field "tokenLimit")) ;;
    costLimit <- lift_arg (as_float_opt (field "costLimit")) ;;
    tokenUsed <- lift_arg (arg_or as_int 0 (field "tokenUsed")) ;;
    explicitId <- lift_arg (as_string_opt (field "id")) ;;
    round_trip (Create TUserPermission)
      (fun n s =>
         let date k := arg_or (newDate E) (clock E n) (field k) in
         match date "lastResetAt", date "createdAt", date "updatedAt" with
         | Some lastResetAt, Some createdAt, Some updatedAt =>
             let id := default (cuid E n) explicitId in
             if bool_decide (is_Some (userPermissions s !! id))
                || taken (λ r, Some (perm_userId r)) (Some userId) (userPermissions s)
             then (inl PrismaUniqueViolation, s)
             else if bool_decide (users s !! userId = None)
             then (inl PrismaForeignKeyViolation, s)
             else
               let r :=
                 {| perm_userId := userId;
                    perm_permissions :=
                      match field "permissions" with JUndefined => JArray [] | v => v end;
                    perm_limitType := limitType; perm_limitPeriod := limitPeriod;
                    perm_tokenLimit := tokenLimit; perm_costLimit := costLimit;
                    perm_tokenUsed := tokenUsed; perm_lastResetAt := lastResetAt;
                    perm_createdAt := createdAt; perm_updatedAt := updatedAt |} in
               (inr tt, with_userPermissions (<[id := r]> (userPermissions s)) s)
         | _, _, _ => (inl PrismaValidationError, s)
         end).

(** [await checkUserPermission(userId, tag)] *)
Definition checkPermission (userId : jsval) (tag : string) : M bool :=
  fun w =>
    match checkUserPermission E (db w) userId tag with
    | Some b => (Value b, w)
    | None => (Throw Rejected, w)
    end.

(** [await bcrypt.hash(password, rounds)]: bcryptjs rejects a password
    that is not a string. *)
Definition bcrypt_hash (password : jsval) (rounds : Z) : M string :=
  match password with
  | JStr p => n <- next_tick ;; ret (bcryptHash E p rounds n)
  | _ => throw Rejected
  end.

(** [await execAsync(cmd, { cwd, timeout })]: resolves to stdout and
    stderr, or rejects with an error that carries them. *)
Definition execAsync (cmd : string) (timeout : Z) : M (ustring * ustring) :=
  fun w =>
    let '(r, s') := exec E cmd timeout (tick w) (db w) in
    let w1 := {| db := s'; tick := S (tick w); queries := queries w;
                 shell := shell w ++ [(cmd, timeout)] |} in
    match r with
    | ExecOk out err => (Value (out, err), w1)
    | ExecFailed m out err => (Throw (ExecError m out err), w1)
    end.

End Client.

End Prisma.
Export Prisma.

(** ** [/api/admin/users] *)

Module UsersRoute.
Section Route.
Context (E : Env).

Definition GET (request : Request) : World -> Response * World :=
  handler
    (let adminUserId := get "adminUserId" request in
     let includeStats :=
       strict_eq (param (get "includeStats" request)) (JStr "true") in
     let role := get "role" request in
     let isActive := get "isActive" request in
     let limit := parseInt E (param_or (get "limit" request) "50") in
     let offset := parseInt E (param_or (get "offset" request) "0") in
     return_if (negb (truthy (param adminUserId)))
       (json_status (BError "adminUserId is required") 400) ;;;
     hasPermission <- checkPermission E (param adminUserId) "admin_panel" ;;
     return_if (negb hasPermission)
       (json_status (BError "Access denied") 403) ;;;
     users <- call (getAllUsers E includeStats (param_nonempty role)
                      ((λ v, String.eqb v "true") <$> isActive) limit offset) ;;
     ret (json (BValue users)))
    (json_status (BError "Failed to fetch users") 500).

Definition POST (request : Request) : World -> Response * World :=
  handler
    (data <- request_json request ;;
     let adminUserId := prop "adminUserId" data in
     let username := prop "username" data in
     let email := prop "email" data in
     let password := prop "password" data in
     let role := match prop "role" data with JUndefined => JStr "USER" | v => v end in
     return_if (negb (truthy adminUserId) || negb (truthy username))
       (json_status (BError "adminUserId and username are required") 400) ;;;
     return_if (negb (truthy password))
       (json_status (BError "Password is required") 400) ;;;
     hasPermission <- checkPermission E adminUserId "admin_panel" ;;
     return_if (negb hasPermission)
       (json_status (BError "Access denied") 403) ;;;
     existingUser <- user_findFirst E username email ;;
     return_if existingUser
       (json_status (BError "用户名或邮箱已存在") 400) ;;;
     hashedPassword <- bcrypt_hash E password 12 ;;
     user <- user_create E username email hashedPassword role ;;
     userSettings_create E (fst user) "light" "zh-CN" true true true 50 ;;;
     (if negb (strict_eq role (JStr "ADMIN"))
      then userPermission_create E
             [("userId", JStr (fst user)); ("allowedModelIds", JNull);
              ("tokenLimit", JNull); ("canShareAccess", JBool true);
              ("isActive", JBool true)]
      else ret tt) ;;;
     ret (json_status
            (BUser (fst user) (user_username (snd user)) (user_email (snd user))
               (user_role (snd user)) (user_isActive (snd user)))
            201))
    (json_status (BError "Failed to create user") 500).

Definition PATCH (request : Request) : World -> Response * World :=
  handler
    (data <- request_json request ;;
     let adminUserId := prop "adminUserId" data in
     let userId := prop "userId" data in
     let action := prop "action" data in
     let updateData := rest ["adminUserId"; "userId"; "action"] data in
     return_if (negb (truthy adminUserId) || negb (truthy userId) || negb (truthy action))
       (json_status (BError "adminUserId, userId, and action are required") 400) ;;;
     hasPermission <- checkPermission E adminUserId "admin_panel" ;;
     return_if (negb hasPermission)
       (json_status (BError "Access denied") 403) ;;;
     result <-
       (if strict_eq action (JStr "updateStatus") then
          return_if (strict_eq adminUserId userId
                     && negb (truthy (prop "isActive" updateData)))
            (json_status (BError "Cannot ban your own account") 400) ;;;
          call (updateUserStatus E userId (prop "isActive" updateData))
        else if strict_eq action (JStr "updateAccessCodePermission") then
          call (updateUserAccessCodePermission E userId
                  (prop "canShareAccessCode" updateData))
        else if strict_eq action (JStr "updatePermissions") then
          call (updateUserPermissions E userId updateData)
        else
          return_ (json_status (BError "Invalid action") 400)) ;;
     ret (json (BValue result)))
    (json_status (BError "Failed to update user") 500).

Definition DELETE (request : Request) : World -> Response * World :=
  handler
    (data <- request_json request ;;
     let adminUserId := prop "adminUserId" data in
     let userId := prop "userId" data in
     return_if (negb (truthy adminUserId) || negb (truthy userId))
       (json_status (BError "adminUserId and userId are required") 400) ;;;
     hasPermission <- checkPermission E adminUserId "admin_panel" ;;
     return_if (negb hasPermission)
       (json_status (BError "Access denied") 403) ;;;
     return_if (strict_eq adminUserId userId)
       (json_status (BError "Cannot delete your own account") 400) ;;;
     userToDelete <- user_findUnique E userId ;;
     return_if (negb (bool_decide (is_Some userToDelete)))
       (json_status (BError "User not found") 404) ;;;
     transaction
       (message_deleteMany E userId ;;;
        conversation_deleteMany E userId ;;;
        tokenUsage_deleteMany E userId ;;;
        userPermission_deleteMany E userId ;;;
        inviteCode_deleteMany E userId ;;;
        accessCode_deleteMany E userId ;;;
        user_delete E userId) ;;;
     ret (json (BSuccess "User deleted successfully")))
    (json_status (BError "Failed to delete user") 500).

End Route.
End UsersRoute.

(** ** [/api/admin/codes] *)

Module CodesRoute.
Section Route.
Context (E : Env).

Definition GET (request : Request) : World -> Response * World :=
  handler
    (let adminUserId := get "adminUserId" request in
     let type := param_or (get "type" request) "invite" in
     let limit := parseInt E (param_or (get "limit" request) "50") in
     let offset := parseInt E (param_or (get "offset" request) "0") in
     return_if (negb (truthy (param adminUserId)))
       (json_status (BError "adminUserId is required") 400) ;;;
     hasPermission <- checkPermission E (param adminUserId) "admin_panel" ;;
     return_if (negb hasPermission)
       (json_status (BError "Access denied") 403) ;;;
     if String.eqb type "invite" then
       inviteCodes <- round_trip E (FindMany TInviteCode)
                        (fun _ s =>
                           (match inviteCode_findMany E limit offset s with
                            | Some rows => inr rows
                            | None => inl PrismaValidationError
                            end, s)) ;;
       ret (json (BInviteCodes inviteCodes))
     else if String.eqb type "access" then
       accessCodes <- round_trip E (FindMany TAccessCode)
                        (fun _ s =>
                           (match accessCode_findMany E limit offset s with
                            | Some rows => inr rows
                            | None => inl PrismaValidationError
                            end, s)) ;;
       ret (json (BAccessCodes accessCodes))
     else
       ret (json_status (BError "Invalid type parameter") 400))
    (json_status (BError "Failed to fetch codes") 500).

(** [expiresAt ? new Date(expiresAt) : null] *)
Definition expiry (expiresAt : jsval) : option (option Z) :=
  if truthy expiresAt then Some (newDate E expiresAt) else None.

Definition POST (request : Request) : World -> Response * World :=
  handler
    (data <- request_json request ;;
     let adminUserId := prop "adminUserId" data in
     let type := prop "type" data in
     let maxUses := prop "maxUses" data in
     let expiresAt := prop "expiresAt" data in
     return_if (negb (truthy adminUserId) || negb (truthy type))
       (json_status (BError "adminUserId and type are required") 400) ;;;
     hasPermission <- checkPermission E adminUserId "admin_panel" ;;
     return_if (negb hasPermission)
       (json_status (BError "Access denied") 403) ;;;
     if strict_eq type (JStr "invite") then
       n <- next_tick ;;
       let code := generateInviteCode E n in
       inviteCode <- inviteCode_create E code (or_else maxUses (JNum 1))
                       (expiry expiresAt) adminUserId ;;
       ret (json inviteCode)
     else if strict_eq type (JStr "access") then
       n <- next_tick ;;
       let code := generateInviteCode E n in
       accessCode <- accessCode_create E code (expiry expiresAt) adminUserId ;;
       ret (json accessCode)
     else
       ret (json_status (BError "Invalid type parameter") 400))
    (json_status (BError "Failed to create code") 500).

Definition DELETE (request : Request) : World -> Response * World :=
  handler
    (data <- request_json request ;;
     let adminUserId := prop "adminUserId" data in
     let codeId := prop "codeId" data in
     let type := prop "type" data in
     return_if (negb (truthy adminUserId) || negb (truthy codeId) || negb (truthy type))
       (json_status (BError "adminUserId, codeId, and type are required") 400) ;;;
     hasPermission <- checkPermission E adminUserId "admin_panel" ;;
     return_if (negb hasPermission)
       (json_status (BError "Access denied") 403) ;;;
     (if strict_eq type (JStr "invite") then
        inviteCode_delete E codeId ;;; ret tt
      else if strict_eq type (JStr "access") then
        accessCode_delete E codeId ;;; ret tt
      else
        return_ (json_status (BError "Invalid type parameter") 400)) ;;;
     ret (json (BSuccess "Code deleted successfully")))
    (json_status (BError "Failed to delete code") 500).

Definition PATCH (request : Request) : World -> Response * World :=
  handler
    (data <- request_json request ;;
     let adminUserId := prop "adminUserId" data in
     let codeId := prop "codeId" data in
     let type := prop "type" data in
     let action := prop "action" data in
     return_if (negb (truthy adminUserId) || negb (truthy codeId)
                || negb (truthy type) || negb (truthy action))
       (json_status (BError "adminUserId, codeId, type, and action are required") 400) ;;;
     hasPermission <- checkPermission E adminUserId "admin_panel" ;;
     return_if (negb hasPermission)
       (json_status (BError "Access denied") 403) ;;;
     result <-
       (if strict_eq type (JStr "invite") then
          if strict_eq action (JStr "toggle") then
            inviteCode <- inviteCode_findUnique E codeId ;;
            match inviteCode with
            | None => return_ (json_status (BError "Invite code not found") 404)
            | Some found =>
                updated <- inviteCode_update E codeId (negb (invite_isUsed found)) ;;
                ret (BInviteCode (fst updated) (snd updated) None)
            end
          else
            return_ (json_status (BError "Invalid action for invite code") 400)
        else if strict_eq type (JStr "access") then
          if strict_eq action (JStr "toggle") then
            accessCode <- accessCode_findUnique E codeId ;;
            match accessCode with
            | None => return_ (json_status (BError "Access code not found") 404)
            | Some found =>
                updated <- accessCode_update E codeId (negb (access_isActive found)) ;;
                ret (BAccessCode (fst updated) (snd updated) None)
            end
          else
            return_ (json_status (BError "Invalid action for access code") 400)
        else
          return_ (json_status (BError "Invalid type parameter") 400)) ;;
     ret (json result))
    (json_status (BError "Failed to update code") 500).

End Route.
End CodesRoute.

(** ** [/api/admin/database-reset] *)

Module DatabaseResetRoute.
Section Route.
Context (E : Env).

(** The message that quotes the confirmation text. *)
Definition invalidConfirmation : string :=
  let quote := String (ascii_of_nat 34) EmptyString in
  "Invalid confirmation text. Please type " +:+ quote +:+ "RESET DATABASE"
    +:+ quote +:+ " exactly.".

Definition POST (request : Request) : World -> Response * World :=
  handler
    (data <- request_json request ;;
     let adminUserId := prop "adminUserId" data in
     let confirmText := prop "confirmText" data in
     return_if (negb (truthy adminUserId))
       (json_status (BError "adminUserId is required") 400) ;;;
     hasPermission <- checkPermission E adminUserId "admin_panel" ;;
     return_if (negb hasPermission)
       (json_status (BError "Access denied") 403) ;;;
     return_if (negb (strict_eq confirmText (JStr "RESET DATABASE")))
       (json_status (BError invalidConfirmation) 400) ;;;
     try_catch
       (reset <- execAsync E "npm run db:reset" 30000 ;;
        let resetOutput := fst reset in
        seed <- execAsync E "npm run db:seed" 30000 ;;
        let seedOutput := fst seed in
        ret (json (BResetDone "Database has been successfully reset and reseeded"
                     (trim resetOutput) (trim seedOutput))))
       (fun execError =>
          ret (json_status
                 (BExecError "Failed to reset database" (message_of execError)
                    (match execError with ExecError _ out _ => Some out | _ => None end)
                    (match execError with ExecError _ _ err => Some err | _ => None end))
                 500)))
    (json_status (BError "Failed to reset database") 500).

Definition GET (request : Request) : World -> Response * World :=
  handler
    (let adminUserId := get "adminUserId" request in
     return_if (negb (truthy (param adminUserId)))
       (json_status (BError "adminUserId is required") 400) ;;;
     hasPermission <- checkPermission E (param adminUserId) "admin_panel" ;;
     return_if (negb hasPermission)
       (json_status (BError "Access denied") 403) ;;;
     ret (json (BResetInfo "RESET DATABASE")))
    (json_status (BError "Failed to get database reset information") 500).

End Route.
End DatabaseResetRoute.

(** ** The admin endpoints together *)

Module AdminApi.

Inductive Endpoint : Type :=
| UsersGET | UsersPOST | UsersPATCH | UsersDELETE
| CodesGET | CodesPOST | CodesPATCH | CodesDELETE
| DatabaseResetGET | DatabaseResetPOST.

Definition serve (E : Env) (ep : Endpoint) : Request -> World -> Response * World :=
  match ep with
  | UsersGET => UsersRoute.GET E
  | UsersPOST => UsersRoute.POST E
  | UsersPATCH => UsersRoute.PATCH E
  | UsersDELETE => UsersRoute.DELETE E
  | CodesGET => CodesRoute.GET E
  | CodesPOST => CodesRoute.POST E
  | CodesPATCH => CodesRoute.PATCH E
  | CodesDELETE => CodesRoute.DELETE E
  | DatabaseResetGET => DatabaseResetRoute.GET E
  | DatabaseResetPOST => DatabaseResetRoute.POST E
  end.

(** Where an endpoint reads its parameters: the query string for GET, the
    JSON document otherwise ([None] when there is no document to read). *)
Definition parameters (ep : Endpoint) (request : Request) : option (string -> jsval) :=
  match ep with
  | UsersGET | CodesGET | DatabaseResetGET => Some (fun k => param (get k request))
  | _ =>
      match jsonBody request with
      | None | Some JNull => None
      | Some data => Some (fun k => prop k data)
      end
  end.

(** The caller of a request: its [adminUserId]. *)
Definition caller (ep : Endpoint) (request : Request) : option jsval :=
  (λ p, p "adminUserId") <$> parameters ep request.

(** The parameters an endpoint insists on before it checks the caller's
    permission. *)
Definition requiredFirst (ep : Endpoint) : list string :=
  match ep with
  | UsersGET | CodesGET | DatabaseResetGET | DatabaseResetPOST => ["adminUserId"]
  | UsersPOST => ["adminUserId"; "username"; "password"]
  | UsersPATCH => ["adminUserId"; "userId"; "action"]
  | UsersDELETE => ["adminUserId"; "userId"]
  | CodesPOST => ["adminUserId"; "type"]
  | CodesDELETE => ["adminUserId"; "codeId"; "type"]
  | CodesPATCH => ["adminUserId"; "codeId"; "type"; "action"]
  end.

Definition wellFormed (ep : Endpoint) (request : Request) : bool :=
  match parameters ep request with
  | Some p => forallb (fun k => truthy (p k)) (requiredFirst ep)
  | None => false
  end.

(** The deletions of the users DELETE, in the order the route makes
    them. *)
Definition deletionPlan (userId : string) : list Query :=
  [DeleteMany TMessage "userId" userId;
   DeleteMany TConversation "userId" userId;
   DeleteMany TTokenUsage "userId" userId;
   DeleteMany TUserPermission "userId" userId;
   DeleteMany TInviteCode "createdBy" userId;
   DeleteMany TAccessCode "createdBy" userId;
   Delete TUser userId].

(** The database after all of them. *)
Definition afterDeletion (userId : string) (s : Store) : Store :=
  deleteUserRow userId
    (deleteAccessCodesBy userId
       (deleteInviteCodesBy userId
          (deletePermissionsOf userId
             (deleteTokenUsageOf userId
                (deleteConversationsOf userId
                   (deleteMessagesOf userId s)))))).

(** No row of the user is left: neither the user row nor a message,
    conversation, token-usage row, permission row, invite code or access
    code of theirs. *)
Definition purged (userId : string) (s : Store) : Prop :=
  users s !! userId = None
  /\ map_Forall (λ _ m, msg_userId m ≠ userId) (messages s)
  /\ map_Forall (λ _ c, conv_userId c ≠ userId) (conversations s)
  /\ map_Forall (λ _ u, usage_userId u ≠ userId) (tokenUsage s)
  /\ map_Forall (λ _ p, perm_userId p ≠ userId) (userPermissions s)
  /\ map_Forall (λ _ c, invite_createdBy c ≠ userId) (inviteCodes s)
  /\ map_Forall (λ _ c, access_createdBy c ≠ userId) (accessCodes s).

End AdminApi.

(** ** Quota accounting *)

Module Quota.

Inductive LimitPeriod : Type := Daily | Monthly | Quarterly | Yearly.

(** The values of the [limitPeriod] column. *)
Definition parsePeriod (s : string) : option LimitPeriod :=
  if String.eqb s "daily" then Some Daily
  else if String.eqb s "monthly" then Some Monthly
  else if String.eqb s "quarterly" then Some Quarterly
  else if String.eqb s "yearly" then Some Yearly
  else None.

(** Calendar arithmetic on instants (epoch milliseconds). *)
Record Calendar : Type := {
  addMonths : Z -> Z -> Z;
  addYears : Z -> Z -> Z
}.

Definition msPerDay : Z := 24 * 60 * 60 * 1000.

(** Modelled from the spec: the routine that records token usage against a
    user's [UserPermission] row is not among the sources (only the
    schema of the row is).  The instant at which the period that began
    at [t] is over: daily = 24h, monthly = 1 calendar month, quarterly = 3
    months, yearly = 1 year. *)
Definition periodEnd (cal : Calendar) (p : LimitPeriod) (t : Z) : Z :=
  match p with
  | Daily => t + msPerDay
  | Monthly => addMonths cal t 1
  | Quarterly => addMonths cal t 3
  | Yearly => addYears cal t 1
  end.

(** Modelled from the spec: the quota reset test, absent from the sources:
    the elapsed time since [lastResetAt] exceeds the duration implied by
    [limitPeriod]. *)
Definition resetDue (cal : Calendar) (perm : UserPermission) (now : Z) : bool :=
  match parsePeriod (perm_limitPeriod perm) with
  | Some p => periodEnd cal p (perm_lastResetAt perm) <? now
  | None => false
  end.

Definition with_usage (used lastResetAt : Z) (perm : UserPermission) : UserPermission :=
  {| perm_userId := perm_userId perm; perm_permissions := perm_permissions perm;
     perm_limitType := perm_limitType perm; perm_limitPeriod := perm_limitPeriod perm;
     perm_tokenLimit := perm_tokenLimit perm; perm_costLimit := perm_costLimit perm;
     perm_tokenUsed := used; perm_lastResetAt := lastResetAt;
     perm_createdAt := perm_createdAt perm; perm_updatedAt := perm_updatedAt perm |}.

(** Modelled from the spec: the quota reset step, absent from the sources:
    when the reset is due the counter zeroes and [lastResetAt] advances
    to now. *)
Definition resetIfDue (cal : Calendar) (perm : UserPermission) (now : Z) : UserPermission :=
  if resetDue cal perm now then with_usage 0 now perm else perm.

(** Modelled from the spec: recording usage, absent from the sources: the
    reset policy runs before the new usage is applied. *)
Definition recordUsage (cal : Calendar) (perm : UserPermission) (now tokens : Z)
    : UserPermission :=
  let perm' := resetIfDue cal perm now in
  with_usage (perm_tokenUsed perm' + tokens) (perm_lastResetAt perm') perm'.

(** *** The proleptic Gregorian calendar in UTC, one [Calendar] *)

Definition days_from_civil (y m d : Z) : Z :=
  let y := if m <=? 2 then y - 1 else y in
  let era := y / 400 in
  let yoe := y - era * 400 in
  let doy := (153 * (if 2 <? m then m - 3 else m + 9) + 2) / 5 + d - 1 in
  let doe := yoe * 365 + yoe / 4 - yoe / 100 + doy in
  era * 146097 + doe - 719468.

Definition civil_from_days (z : Z) : Z * Z * Z :=
  let z := z + 719468 in
  let era := z / 146097 in
  let doe := z - era * 146097 in
  let yoe := (doe - doe / 1460 + doe / 36524 - doe / 146096) / 365 in
  let doy := doe - (365 * yoe + yoe / 4 - yoe / 100) in
  let mp := (5 * doy + 2) / 153 in
  let d := doy - (153 * mp + 2) / 5 + 1 in
  let m := if mp <? 10 then mp + 3 else mp - 9 in
  ((if m <=? 2 then yoe + era * 400 + 1 else yoe + era * 400), m, d).

(** As [Date.prototype.setUTCMonth(getUTCMonth() + n)]: a day past the end
    of the target month runs over into the next. *)
Definition gregorianAddMonths (t n : Z) : Z :=
  let '(y, m, d) := civil_from_days (t / msPerDay) in
  let months := y * 12 + (m - 1) + n in
  days_from_civil (months / 12) (months mod 12 + 1) d * msPerDay + t mod msPerDay.

Definition gregorian : Calendar :=
  {| addMonths := gregorianAddMonths;
     addYears := fun t n => gregorianAddMonths t (12 * n) |}.

End Quota.

(** ** A concrete environment and database to run the handlers on *)

Module Sample.

(** Permission by role: an active administrator holds every tag. *)
Definition roleCheck (s : Store) (userId : jsval) (tag : string) : option bool :=
  match userId with
  | JStr uid =>
      match users s !! uid with
      | Some u =>
          Some (user_isActive u
                && match user_role u with ADMIN => true | _ => false end)
      | None => Some false
      end
  | _ => Some false
  end.

Definition setActive (active : bool) (u : User) : User :=
  {| user_email := user_email u; user_username := user_username u;
     user_password := user_password u; user_avatar := user_avatar u;
     user_role := user_role u; user_isActive := active;
     user_canShareAccessCode := user_canShareAccessCode u;
     user_resetToken := user_resetToken u;
     user_resetTokenExpiry := user_resetTokenExpiry u;
     user_invitedBy := user_invitedBy u; user_usedInviteCode := user_usedInviteCode u;
     user_usedAccessCode := user_usedAccessCode u; user_hostUserId := user_hostUserId u;
     user_createdAt := user_createdAt u; user_updatedAt := user_updatedAt u |}.

Definition statusUpdate (userId isActive : jsval) (n : nat) (s : Store)
    : option jsval * Store :=
  match userId with
  | JStr uid =>
      match users s !! uid with
      | Some u =>
          (Some (JBool (truthy isActive)),
           with_users (<[uid := setActive (truthy isActive) u]> (users s)) s)
      | None => (None, s)
      end
  | _ => (None, s)
  end.

Fixpoint digits (s : string) (acc : Z) : option Z :=
  match s with
  | EmptyString => Some acc
  | String c r =>
      let n := Z.of_nat (nat_of_ascii c) in
      if (48 <=? n) && (n <=? 57) then digits r (10 * acc + (n - 48)) else None
  end.

Definition decimal (s : string) : option Z :=
  match s with EmptyString => None | _ => digits s 0 end.

Definition page {A} (take skip : option Z) (rows : list A) : option (list A) :=
  match take, skip with
  | Some t, Some k => Some (firstn (Z.to_nat t) (skipn (Z.to_nat k) rows))
  | _, _ => None
  end.

(** The environment: [fault] says which database requests fail in
    transit, [run] is what the shell does. *)
Definition env (fault : nat -> bool)
    (run : string -> Z -> nat -> Store -> ExecResult * Store) : Env :=
  {| checkUserPermission := roleCheck;
     getAllUsers := fun _ _ _ _ _ _ s => (Some (JArray []), s);
     updateUserStatus := statusUpdate;
     updateUserAccessCodePermission := fun _ _ _ s => (Some JNull, s);
     updateUserPermissions := fun _ _ _ s => (Some JNull, s);
     generateInviteCode := fun n => "fimai" +:+ pretty n;
     bcryptHash := fun p _ n => "$2b$" +:+ pretty n +:+ "$" +:+ p;
     exec := run;
     parseInt := decimal;
     newDate := fun v => match v with JNum q => Some (Qnum q / Zpos (Qden q)) | _ => None end;
     dbFault := fault;
     clock := fun n => 1700000000000 + Z.of_nat n;
     cuid := fun n => "c" +:+ pretty n;
     equalsInsensitive := String.eqb;
     inviteCode_findMany := fun t k s => page t k (map_to_list (inviteCodes s));
     accessCode_findMany := fun t k s => page t k (map_to_list (accessCodes s)) |}.

Definition noFault : nat -> bool := fun _ => false.
Definition faultAt (k : nat) : nat -> bool := fun n => (n =? k)%nat.

(** A shell in which both commands succeed; the reset empties the
    database. *)
Definition shellOk (cmd : string) (timeout : Z) (n : nat) (s : Store)
    : ExecResult * Store :=
  if String.eqb cmd "npm run db:reset"
  then (ExecOk (units "  database reset  ") [], emptyStore)
  else (ExecOk (units " seeded 3 providers ") [], s).

(** A shell in which the reset command fails. *)
Definition shellResetFails (cmd : string) (timeout : Z) (n : nat) (s : Store)
    : ExecResult * Store :=
  if String.eqb cmd "npm run db:reset"
  then (ExecFailed "Command failed: npm run db:reset" [] (units "P1001"), s)
  else (ExecOk (units "seeded") [], s).

Definition E0 : Env := env noFault shellOk.

Definition mkUser (name : string) (role : UserRole) : User :=
  {| user_email := None; user_username := Some name; user_password := Some "$2b$x";
     user_avatar := None; user_role := role; user_isActive := true;
     user_canShareAccessCode := true; user_resetToken := None;
     user_resetTokenExpiry := None; user_invitedBy := None;
     user_usedInviteCode := None; user_usedAccessCode := None;
     user_hostUserId := None; user_createdAt := 1000; user_updatedAt := 1000 |}.

Definition mkConversation (uid : string) : Conversation :=
  {| conv_userId := uid; conv_providerId := "p1"; conv_modelId := "m1";
     conv_title := "hello"; conv_isArchived := false; conv_isPinned := false;
     conv_createdAt := 1000; conv_updatedAt := 1000 |}.

Definition mkMessage (cid uid : string) : Message :=
  {| msg_conversationId := cid; msg_userId := uid; msg_providerId := "p1";
     msg_modelId := "m1"; msg_role := "user"; msg_content := "hi";
     msg_rawContent := None; msg_isEdited := false; msg_isDeleted := false;
     msg_finishReason := None; msg_tokenUsage := None;
     msg_createdAt := 1000; msg_updatedAt := 1000 |}.

Definition mkUsage (uid : string) (cid : option string) : TokenUsage :=
  {| usage_userId := uid; usage_conversationId := cid; usage_messageId := None;
     usage_providerId := "p1"; usage_modelId := "m1"; usage_promptTokens := 3;
     usage_completionTokens := 4; usage_totalTokens := 7; usage_isEstimated := false;
     usage_inputChars := None; usage_outputChars := None; usage_cost := None;
     usage_createdAt := 1000 |}.

Definition mkPermission (uid period : string) (used lastResetAt : Z) : UserPermission :=
  {| perm_userId := uid; perm_permissions := JArray []; perm_limitType := "token";
     perm_limitPeriod := period; perm_tokenLimit := Some 100000; perm_costLimit := None;
     perm_tokenUsed := used; perm_lastResetAt := lastResetAt;
     perm_createdAt := 1000; perm_updatedAt := 1000 |}.

Definition mkInvite (code uid : string) : InviteCode :=
  {| invite_code := code; invite_createdBy := uid; invite_isUsed := false;
     invite_usedBy := None; invite_usedAt := None; invite_expiresAt := None;
     invite_maxUses := 5; invite_currentUses := 2;
     invite_createdAt := 1000; invite_updatedAt := 1000 |}.

Definition mkAccess (code uid : string) : AccessCode :=
  {| access_code := code; access_createdBy := uid; access_isActive := true;
     access_expiresAt := None; access_maxUses := None; access_currentUses := 1;
     access_allowedModelIds := Some "m1,m2";
     access_createdAt := 1000; access_updatedAt := 1000 |}.

(** An administrator [root], and two users; [bob] owns rows in every
    dependent table. *)
Definition store0 : Store :=
  {| users := <["root" := mkUser "root" ADMIN]>
                (<["bob" := mkUser "bob" USER]> (<["eve" := mkUser "eve" USER]> ∅));
     userSettings := ∅;
     conversations := <["cv1" := mkConversation "bob"]>
                        (<["cv2" := mkConversation "eve"]> ∅);
     messages := <["ms1" := mkMessage "cv1" "bob"]>
                   (<["ms2" := mkMessage "cv2" "eve"]> ∅);
     inviteCodes := <["inv1" := mkInvite "fimai-aaaa" "root"]>
                      (<["inv2" := mkInvite "fimai-bbbb" "bob"]> ∅);
     accessCodes := <["acc1" := mkAccess "fimai-cccc" "bob"]>
                      (<["acc2" := mkAccess "fimai-dddd" "eve"]> ∅);
     tokenUsage := <["tu1" := mkUsage "bob" (Some "cv1")]>
                     (<["tu2" := mkUsage "eve" (Some "cv2")]> ∅);
     userPermissions := <["up1" := mkPermission "bob" "daily" 500 1000]> ∅;
     modelGroupOrders := ∅ |}.

Definition world0 : World :=
  {| db := store0; tick := 0; queries := []; shell := [] |}.

Definition jsonRequest (fields : list (string * jsval)) : Request :=
  {| searchParams := []; jsonBody := Some (JObject fields) |}.

(** Request documents. *)
Definition deleteBobAsEve : list (string * jsval) :=
  [("adminUserId", JStr "eve"); ("userId", JStr "bob")].
Definition createUserNoName : list (string * jsval) :=
  [("adminUserId", JStr "eve"); ("password", JStr "s3cret")].
Definition deleteBob : list (string * jsval) :=
  [("adminUserId", JStr "root"); ("userId", JStr "bob")].
Definition banSelf : list (string * jsval) :=
  [("adminUserId", JStr "root"); ("userId", JStr "root");
   ("action", JStr "updateStatus"); ("isActive", JBool false)].
Definition resetWrongText : list (string * jsval) :=
  [("adminUserId", JStr "root"); ("confirmText", JStr "reset database")].
Definition resetConfirmed : list (string * jsval) :=
  [("adminUserId", JStr "root"); ("confirmText", JStr "RESET DATABASE")].
Definition deleteMissingCode : list (string * jsval) :=
  [("adminUserId", JStr "root"); ("codeId", JStr "nope"); ("type", JStr "invite")].
Definition toggleInvite : list (string * jsval) :=
  [("adminUserId", JStr "root"); ("codeId", JStr "inv1"); ("type", JStr "invite");
   ("action", JStr "toggle")].
Definition inviteZeroUses : list (string * jsval) :=
  [("adminUserId", JStr "root"); ("type", JStr "invite"); ("maxUses", JNum 0)].
Definition inviteFractionUses : list (string * jsval) :=
  [("adminUserId", JStr "root"); ("type", JStr "invite"); ("maxUses", JNum (2 # 5))].
Definition inviteSevenUses : list (string * jsval) :=
  [("adminUserId", JStr "root"); ("type", JStr "invite"); ("maxUses", JNum 7)].

(** States of the title editor and a permission row to run the quota
    model on. *)
Definition blankEdit : ChatLayout.State :=
  {| ChatLayout.isEditingTitle := true; ChatLayout.editableTitle := units "   ";
     ChatLayout.titleChanges := [] |}.

Definition withCallback : ChatLayout.Props :=
  {| ChatLayout.chatTitle := units "Plans"; ChatLayout.hasOnChatTitleChange := true;
     ChatLayout.messagesLength := 2 |}.

Definition longEdit : ChatLayout.State :=
  {| ChatLayout.isEditingTitle := true;
     ChatLayout.editableTitle := units "  Weekend plans  ";
     ChatLayout.titleChanges := [] |}.

(** The ten characters of the title 你好世界你好世界你好, and the same title after
    an ideographic space (U+3000). *)
Definition nihaoTitle : ustring :=
  [0x4F60; 0x597D; 0x4E16; 0x754C; 0x4F60; 0x597D; 0x4E16; 0x754C; 0x4F60; 0x597D]%N.

Definition nihaoEdit : ChatLayout.State :=
  {| ChatLayout.isEditingTitle := true;
     ChatLayout.editableTitle := (0x3000 :: nihaoTitle)%N;
     ChatLayout.titleChanges := [] |}.

Definition monthlyPermission : UserPermission :=
  mkPermission "bob" "monthly" 500 1705276800000.

End Sample.

(** ** What the chat layout renders: model menu, labels, send button *)

Module ChatView.

(** An element of the [models] prop. *)
Record ModelOption : Type := {
  model_id : string;
  model_name : string;
  model_group : option string;
  model_provider : option string
}.

(** What the menu keeps of a model: [{ id, name, provider }]. *)
Record MenuEntry : Type := {
  entry_id : string;
  entry_name : string;
  entry_provider : option string
}.

Definition entryOf (model : ModelOption) : MenuEntry :=
  {| entry_id := model_id model; entry_name := model_name model;
     entry_provider := model_provider model |}.

(** [s || d] for an optional string. *)
Definition orDefault (s : option string) (d : string) : string :=
  match s with
  | Some t => if String.eqb t "" then d else t
  | None => d
  end.

(** [model.group || '其他'] *)
Definition groupNameOf (model : ModelOption) : string :=
  orDefault (model_group model) "其他".

(** The properties every object inherits from [Object.prototype]:
    [modelsByGroup[k]] is truthy for these names although nothing was
    stored under them. *)
Definition objectPrototypeNames : list string :=
  ["constructor"; "__defineGetter__"; "__defineSetter__"; "hasOwnProperty";
   "__lookupGetter__"; "__lookupSetter__"; "isPrototypeOf"; "propertyIsEnumerable";
   "toString"; "valueOf"; "__proto__"; "toLocaleString"].

Definition inherited (k : string) : bool :=
  existsb (String.eqb k) objectPrototypeNames.

(** One round of [models.forEach]: [None] is the TypeError of calling
    [push] on an inherited property, which is not an array. *)
Definition addModel (modelsByGroup : gmap string (list MenuEntry)) (model : ModelOption)
    : option (gmap string (list MenuEntry)) :=
  let groupName := groupNameOf model in
  match modelsByGroup !! groupName with
  | Some group => Some (<[groupName := (group ++ [entryOf model])%list]> modelsByGroup)
  | None =>
      if inherited groupName then None
      else Some (<[groupName := [entryOf model]]> modelsByGroup)
  end.

Fixpoint groupModels (models : list ModelOption)
    (modelsByGroup : gmap string (list MenuEntry))
    : option (gmap string (list MenuEntry)) :=
  match models with
  | [] => Some modelsByGroup
  | model :: later =>
      match addModel modelsByGroup model with
      | Some next => groupModels later next
      | None => None
      end
  end.

(** [getGroupedModels()]; [sortGroupsByUserOrder] comes from
    [@/utils/aiModelUtils].  A name it returns under which the grouping
    stored no array gets no list of models ([None]: [undefined], or for a
    name of [objectPrototypeNames] the inherited property). *)
Definition getGroupedModels
    (sortGroupsByUserOrder : gmap string (list MenuEntry) -> list (string * Z) -> list string)
    (models : list ModelOption) (modelGroups : list (string * Z))
    : option (list (string * option (list MenuEntry))) :=
  match groupModels models ∅ with
  | Some modelsByGroup =>
      Some ((λ groupName, (groupName, modelsByGroup !! groupName))
              <$> sortGroupsByUserOrder modelsByGroup modelGroups)
  | None => None
  end.

(** [handleModelSelect]: the calls to [onModelSelect] and whether the model
    menu is still open afterwards. *)
Definition handleModelSelect (hasOnModelSelect : bool) (modelId : string)
    (menuOpen : bool) : list string * bool :=
  if hasOnModelSelect then ([modelId], false) else ([], menuOpen).

(** [chat.title || '新会话'] in the drawer. *)
Definition historyLabel (title : string) : string := orDefault (Some title) "新会话".

(** [chatTitle || '新对话'] in the app bar. *)
Definition headerTitle (chatTitle : string) : string := orDefault (Some chatTitle) "新对话".

(** [modelName || '选择模型'] on the model button. *)
Definition modelButtonLabel (modelName : option string) : string :=
  orDefault modelName "选择模型".

(** The sender line of a message: [message.role === 'user' ? userName :
    (message.modelInfo?.modelName || modelName || 'AI助手')]; [userName] is
    ['用户'] when the prop is not given. *)
Definition senderLabel (userName modelName : option string) (role : string)
    (modelInfoName : option string) : string :=
  if String.eqb role "user"
  then match userName with Some n => n | None => "用户" end
  else orDefault modelInfoName (orDefault modelName "AI助手").

(** [disabled={isLoading || !input.trim()}] on the send button. *)
Definition sendDisabled (isLoading : bool) (input : ustring) : bool :=
  isLoading || negb (nonEmpty (trim input)).

End ChatView.

Module Integrity.

(** The relations of the schema between the tables of [Store]: every row
    that names a user or a conversation names one that exists. *)
Definition consistent (s : Store) : Prop :=
  map_Forall (λ _ r, is_Some (users s !! settings_userId r)) (userSettings s)
  /\ map_Forall (λ _ r, is_Some (users s !! conv_userId r)) (conversations s)
  /\ map_Forall (λ _ r, is_Some (users s !! msg_userId r)
                        /\ is_Some (conversations s !! msg_conversationId r))
       (messages s)
  /\ map_Forall (λ _ r, is_Some (users s !! invite_createdBy r)) (inviteCodes s)
  /\ map_Forall (λ _ r, is_Some (users s !! access_createdBy r)) (accessCodes s)
  /\ map_Forall (λ _ r, is_Some (users s !! usage_userId r)
                        /\ forall cid, usage_conversationId r = Some cid ->
                                       is_Some (conversations s !! cid))
       (tokenUsage s)
  /\ map_Forall (λ _ r, is_Some (users s !! perm_userId r)) (userPermissions s)
  /\ map_Forall (λ _ r, is_Some (users s !! mgo_userId r)) (modelGroupOrders s).

End Integrity.

Module Effects.

(** The row [prisma.inviteCode.update] writes for a toggle at time [now]. *)
Definition toggledInvite (now : Z) (r : InviteCode) : InviteCode :=
  {| invite_code := invite_code r; invite_createdBy := invite_createdBy r;
     invite_isUsed := negb (invite_isUsed r); invite_usedBy := invite_usedBy r;
     invite_usedAt := invite_usedAt r; invite_expiresAt := invite_expiresAt r;
     invite_maxUses := invite_maxUses r; invite_currentUses := invite_currentUses r;
     invite_createdAt := invite_createdAt r; invite_updatedAt := now |}.

(** The row [prisma.accessCode.update] writes for a toggle at time [now]. *)
Definition toggledAccess (now : Z) (r : AccessCode) : AccessCode :=
  {| access_code := access_code r; access_createdBy := access_createdBy r;
     access_isActive := negb (access_isActive r); access_expiresAt := access_expiresAt r;
     access_maxUses := access_maxUses r; access_currentUses := access_currentUses r;
     access_allowedModelIds := access_allowedModelIds r;
     access_createdAt := access_createdAt r; access_updatedAt := now |}.

(** A code row as it was, but for [updatedAt]. *)
Definition touchedInvite (now : Z) (r : InviteCode) : InviteCode :=
  {| invite_code := invite_code r; invite_createdBy := invite_createdBy r;
     invite_isUsed := invite_isUsed r; invite_usedBy := invite_usedBy r;
     invite_usedAt := invite_usedAt r; invite_expiresAt := invite_expiresAt r;
     invite_maxUses := invite_maxUses r; invite_currentUses := invite_currentUses r;
     invite_createdAt := invite_createdAt r; invite_updatedAt := now |}.

Definition touchedAccess (now : Z) (r : AccessCode) : AccessCode :=
  {| access_code := access_code r; access_createdBy := access_createdBy r;
     access_isActive := access_isActive r; access_expiresAt := access_expiresAt r;
     access_maxUses := access_maxUses r; access_currentUses := access_currentUses r;
     access_allowedModelIds := access_allowedModelIds r;
     access_createdAt := access_createdAt r; access_updatedAt := now |}.

(** The rows the users POST writes: the user, with the hash for a password,
    and the settings with the route's defaults. *)
Definition newUser (name : string) (mail : option string) (hash : string)
    (role : UserRole) (now : Z) : User :=
  {| user_email := mail; user_username := Some name; user_password := Some hash;
     user_avatar := None; user_role := role; user_isActive := true;
     user_canShareAccessCode := true; user_resetToken := None;
     user_resetTokenExpiry := None; user_invitedBy := None;
     user_usedInviteCode := None; user_usedAccessCode := None;
     user_hostUserId := None; user_createdAt := now; user_updatedAt := now |}.

Definition newSettings (userId : string) (now : Z) : UserSettings :=
  {| settings_userId := userId; settings_defaultModelId := None;
     settings_theme := "light"; settings_language := "zh-CN";
     settings_enableMarkdown := true; settings_enableLatex := true;
     settings_enableCodeHighlight := true; settings_messagePageSize := 50;
     settings_createdAt := now; settings_updatedAt := now |}.

(** What has to hold for the users POST to get as far as writing: a name
    and a password, an email that is a string or absent, a role of the
    schema, database requests that go through, no user that matches, and
    fresh ids. *)
Definition creatable (E : Env) (data : jsval) (name pw : string) (mail : option string)
    (role : UserRole) (w : World) : Prop :=
  prop "username" data = JStr name /\ name <> ""
  /\ prop "password" data = JStr pw /\ pw <> ""
  /\ as_string_opt (prop "email" data) = Some mail
  /\ as_role (match prop "role" data with JUndefined => JStr "USER" | v => v end)
     = Some role
  /\ dbFault E (tick w) = false
  /\ dbFault E (S (S (tick w))) = false
  /\ dbFault E (S (S (S (tick w)))) = false
  /\ (forall k u, users (db w) !! k = Some u ->
                  user_matches E name (if truthy (prop "email" data) then mail else None) u
                  = false)
  /\ users (db w) !! cuid E (S (S (tick w))) = None
  /\ taken user_email mail (users (db w)) = false
  /\ taken user_username (Some name) (users (db w)) = false
  /\ userSettings (db w) !! cuid E (S (S (S (tick w)))) = None
  /\ taken (λ r, Some (settings_userId r)) (Some (cuid E (S (S (tick w)))))
       (userSettings (db w)) = false.

(** The database after the users POST wrote the user and the settings. *)
Definition afterCreation (E : Env) (name pw : string) (mail : option string)
    (role : UserRole) (w : World) : Store :=
  let uid := cuid E (S (S (tick w))) in
  with_userSettings
    (<[cuid E (S (S (S (tick w)))) := newSettings uid (clock E (S (S (S (tick w)))))]>
       (userSettings (db w)))
    (with_users
       (<[uid := newUser name mail (bcryptHash E pw 12 (S (tick w))) role
                   (clock E (S (S (tick w))))]> (users (db w)))
       (db w)).

End Effects.

(** ** Further requests, models and environments to run the code on *)

Module Cases.
Import Sample ChatView.

(** An environment whose permission check rejects its promise. *)
Definition checkRejects (E : Env) : Env :=
  {| checkUserPermission := fun _ _ _ => None;
     getAllUsers := getAllUsers E;
     updateUserStatus := updateUserStatus E;
     updateUserAccessCodePermission := updateUserAccessCodePermission E;
     updateUserPermissions := updateUserPermissions E;
     generateInviteCode := generateInviteCode E;
     bcryptHash := bcryptHash E;
     exec := exec E;
     parseInt := parseInt E;
     newDate := newDate E;
     dbFault := dbFault E;
     clock := clock E;
     cuid := cuid E;
     equalsInsensitive := equalsInsensitive E;
     inviteCode_findMany := inviteCode_findMany E;
     accessCode_findMany := accessCode_findMany E |}.

(** A request without a body that parses, and one that only carries a
    query string. *)
Definition noBody : Request := {| searchParams := []; jsonBody := None |}.
Definition asRoot : Request :=
  {| searchParams := [("adminUserId", "root")]; jsonBody := None |}.

Definition asRootBlanks : Request :=
  {| searchParams := [("adminUserId", "root"); ("limit", ""); ("role", ""); ("type", "")];
     jsonBody := None |}.

(** Request documents. *)
Definition toggleWithoutAction : list (string * jsval) :=
  [("adminUserId", JStr "root"); ("codeId", JStr "inv1"); ("type", JStr "invite")].
Definition deleteGiftCode : list (string * jsval) :=
  [("adminUserId", JStr "root"); ("codeId", JStr "inv1"); ("type", JStr "gift")].
Definition promoteBob : list (string * jsval) :=
  [("adminUserId", JStr "root"); ("userId", JStr "bob"); ("action", JStr "promote")].
Definition deleteInvite2 : list (string * jsval) :=
  [("adminUserId", JStr "root"); ("codeId", JStr "inv2"); ("type", JStr "invite")].
Definition accessNineUses : list (string * jsval) :=
  [("adminUserId", JStr "root"); ("type", JStr "access"); ("maxUses", JNum 9)].
Definition createBobAgain : list (string * jsval) :=
  [("adminUserId", JStr "root"); ("username", JStr "bob"); ("password", JStr "pw")].
Definition createAdminAmy : list (string * jsval) :=
  [("adminUserId", JStr "root"); ("username", JStr "amy"); ("password", JStr "pw");
   ("role", JStr "ADMIN")].
Definition createAmy : list (string * jsval) :=
  [("adminUserId", JStr "root"); ("username", JStr "amy"); ("password", JStr "pw")].

(** The [models] prop: two groups, one model without a group and one with
    an empty group name. *)
Definition mkModel (id name : string) (group : option string) : ModelOption :=
  {| model_id := id; model_name := name; model_group := group;
     model_provider := Some "p1" |}.

Definition menuModels : list ModelOption :=
  [mkModel "m1" "gpt-4o" (Some "OpenAI");
   mkModel "m2" "claude" (Some "Anthropic");
   mkModel "m3" "gpt-4o-mini" (Some "OpenAI");
   mkModel "m4" "llama" None;
   mkModel "m5" "qwen" (Some "")].

(** A sorter that returns the group names as the grouping stores them. *)
Definition byName (modelsByGroup : gmap string (list MenuEntry))
    (modelGroups : list (string * Z)) : list string :=
  (map_to_list modelsByGroup).*1.

End Cases.

(** * Properties *)

(** ** JavaScript values *)

Lemma truthy_prop_object (k : string) (data : jsval) :
  truthy (prop k data) = true -> exists fs, data = JObject fs.
Proof.
  destruct data; simpl; try discriminate. eauto.
Qed.

Lemma request_json_object (request : Request) (data : jsval) (k : string) :
  jsonBody request = Some data ->
  truthy (prop k data) = true ->
  request_json request = ret data.
Proof.
  intros Hbody Hk. destruct (truthy_prop_object _ _ Hk) as [fs ->].
  unfold request_json. rewrite Hbody. reflexivity.
Qed.

Lemma assoc_filter_keep {A} (keep : string -> bool) (k : string) (l : list (string * A)) :
  keep k = true ->
  assoc k (List.filter (fun kv => keep (fst kv)) l) = assoc k l.
Proof.
  intros Hk. induction l as [|[k' v] l IH]; simpl; [reflexivity|].
  destruct (String.eqb k k') eqn:Heq.
  - apply String.eqb_eq in Heq. subst k'. rewrite Hk. simpl.
    rewrite String.eqb_refl. reflexivity.
  - destruct (keep k'); simpl; [rewrite Heq|]; exact IH.
Qed.

(** A property that the destructuring did not take is still in the rest. *)
Lemma prop_rest (k : string) (taken : list string) (data : jsval) :
  existsb (String.eqb k) taken = false ->
  prop k (rest taken data) = prop k data.
Proof.
  intros Hk. destruct data; try reflexivity. simpl. f_equal.
  apply (assoc_filter_keep (fun x => negb (existsb (String.eqb x) taken))).
  rewrite Hk. reflexivity.
Qed.

Lemma strict_eq_str (v : jsval) (s : string) :
  strict_eq v (JStr s) = true <-> v = JStr s.
Proof.
  split.
  - destruct v; simpl; try discriminate. intros H. apply String.eqb_eq in H. congruence.
  - intros ->. simpl. apply String.eqb_refl.
Qed.

Lemma length_slice_le (e : nat) (s : ustring) :
  (length (slice 0 e s) <= e)%nat.
Proof.
  unfold slice. rewrite Nat.sub_0_r, drop_0. revert s.
  induction e as [|e IH]; intros [|c s]; simpl; try lia.
  specialize (IH s). lia.
Qed.

Example truthy_examples :
  truthy (JNum 0) = false /\ truthy JNull = false /\ truthy JUndefined = false
  /\ truthy (JStr "") = false /\ truthy (JStr "0") = true /\ truthy (JNum (-3)) = true
  /\ truthy (JArray []) = true.
Proof. repeat split. Qed.

Example or_else_examples :
  or_else (JNum 0) (JNum 1) = JNum 1
  /\ or_else JUndefined (JNum 1) = JNum 1
  /\ or_else (JNum 7) (JNum 1) = JNum 7.
Proof. repeat split. Qed.

Example as_int_examples :
  as_int (JNum 7) = Some 7 /\ as_int (JNum (4 # 2)) = Some 2
  /\ as_int (JNum (5 # 2)) = Some 2 /\ as_int (JNum (2 # 5)) = Some 0
  /\ as_int (JNum (-5 # 2)) = Some (-2) /\ as_int (JStr "7") = None
  /\ as_int (JNum 2147483648) = None.
Proof. repeat split. Qed.

Example trim_examples :
  trim (units "  a b  ") = units "a b" /\ trim (units "   ") = []
  /\ trim (units "no-space") = units "no-space"
  /\ slice 0 8 (units "0123456789") = units "01234567"
  /\ slice 0 8 (units "abc") = units "abc".
Proof. repeat split. Qed.

(** Beyond ASCII: the ideographic space, the em space and the byte order
    mark are trimmed; a title of ten Chinese characters is cut to its first
    eight; the final [à] of [voilà] (U+00E0) is not white space. *)
Example trim_examples_unicode :
  trim (0x3000 :: Sample.nihaoTitle ++ [0x2003; 0xFEFF])%N = Sample.nihaoTitle
  /\ slice 0 8 (trim Sample.nihaoTitle)
     = [0x4F60; 0x597D; 0x4E16; 0x754C; 0x4F60; 0x597D; 0x4E16; 0x754C]%N
  /\ trim [0x76; 0x6F; 0x69; 0x6C; 0xE0]%N = [0x76; 0x6F; 0x69; 0x6C; 0xE0]%N
  /\ nonEmpty (trim [0x3000]%N) = false.
Proof. repeat split. Qed.

(** The cut counts code units, not characters: after seven letters a
    character outside the Basic Multilingual Plane (here U+1F600, the pair
    D83D DE00) is cut in two. *)
Example slice_splits_surrogate_pair :
  slice 0 8 (units "abcdefg" ++ [0xD83D; 0xDE00]%N)%list
  = (units "abcdefg" ++ [0xD83D]%N)%list.
Proof. reflexivity. Qed.

(** Trimming removes the white space at both ends. *)
Lemma trimStart_head (s : ustring) (c : N) (r : ustring) :
  trimStart s = c :: r -> isWhiteSpace c = false.
Proof.
  induction s as [|c' s IH]; simpl; [discriminate|].
  destruct (isWhiteSpace c') eqn:Hc; [exact IH|].
  intros [= <- <-]. exact Hc.
Qed.

Lemma trimEnd_head (s : ustring) (c : N) (r : ustring) :
  trimEnd s = c :: r -> exists r0, s = c :: r0.
Proof.
  destruct s as [|c' s]; simpl; [discriminate|].
  destruct (trimEnd s); [destruct (isWhiteSpace c'); [discriminate|]|];
    intros [= <- <-]; eauto.
Qed.

Lemma trim_head (s : ustring) (c : N) (r : ustring) :
  trim s = c :: r -> isWhiteSpace c = false.
Proof.
  unfold trim. intros H. destruct (trimEnd_head _ _ _ H) as [r0 H0].
  exact (trimStart_head s c r0 H0).
Qed.

(** ** The title editor *)

Section TitleEditor.
Import ChatLayout Sample.

Lemma step_saves (p : Props) (st : State) (ev : Event) :
  messagesLength p <> 0%nat ->
  isEditingTitle st = true ->
  saves ev = true ->
  step p st ev = handleTitleSave p st.
Proof.
  intros Hm He Hs. unfold step.
  destruct (Nat.eqb_spec (messagesLength p) 0) as [?|_]; [contradiction|].
  rewrite He. destruct ev; simpl in Hs; try discriminate; [reflexivity|].
  unfold handleTitleKeyPress. rewrite Hs. reflexivity.
Qed.

(** C9, as amended: a save (blur or Enter) while the title is being
    edited ends the edit; the text kept is the edited text trimmed and cut
    to its first 8 UTF-16 code units (8 characters, unless one of them lies
    outside the Basic Multilingual Plane); when that text is not empty the
    callback [onChatTitleChange] receives exactly it, once, and when it is
    empty the callback is not called at all. *)
Theorem title_save_trims_and_truncates (p : Props) (st : State) (ev : Event) :
  messagesLength p <> 0%nat ->
  hasOnChatTitleChange p = true ->
  isEditingTitle st = true ->
  saves ev = true ->
  let trimmedTitle := slice 0 8 (trim (editableTitle st)) in
  let st' := step p st ev in
  (length trimmedTitle <= 8)%nat
  /\ trimmedTitle = firstn 8 (trim (editableTitle st))
  /\ isEditingTitle st' = false
  /\ (trimmedTitle <> [] -> titleChanges st' = (titleChanges st ++ [trimmedTitle])%list)
  /\ (trimmedTitle = [] -> titleChanges st' = titleChanges st).
Proof.
  intros Hm Hcb He Hs. cbv zeta.
  rewrite (step_saves p st ev Hm He Hs). unfold handleTitleSave; simpl.
  rewrite Hcb. simpl.
  split; [apply length_slice_le|]. split; [reflexivity|]. split; [reflexivity|].
  split; intros Ht.
  - destruct (slice 0 8 (trim (editableTitle st))); [contradiction|reflexivity].
  - rewrite Ht. reflexivity.
Qed.

(** A title of ten Chinese characters typed after an ideographic space:
    Enter hands over its first eight characters. *)
Lemma title_save_trims_and_truncates_witness :
  (length (slice 0 8 (trim (editableTitle nihaoEdit))) <= 8)%nat
  /\ slice 0 8 (trim (editableTitle nihaoEdit))
     = firstn 8 (trim (editableTitle nihaoEdit))
  /\ isEditingTitle (step withCallback nihaoEdit (KeyPress "Enter")) = false
  /\ (slice 0 8 (trim (editableTitle nihaoEdit)) <> [] ->
      titleChanges (step withCallback nihaoEdit (KeyPress "Enter"))
      = (titleChanges nihaoEdit ++ [slice 0 8 (trim (editableTitle nihaoEdit))])%list)
  /\ (slice 0 8 (trim (editableTitle nihaoEdit)) = [] ->
      titleChanges (step withCallback nihaoEdit (KeyPress "Enter"))
      = titleChanges nihaoEdit).
Proof.
  apply (title_save_trims_and_truncates withCallback nihaoEdit (KeyPress "Enter"));
    [discriminate | reflexivity | reflexivity | reflexivity].
Defined.

(** C9 as the spec words it fails on a blank edit: leaving the field
    with only spaces in it saves nothing, the callback does not receive
    the (empty) trimmed text. *)
Lemma title_save_blank_not_persisted :
  saves Blur = true
  /\ hasOnChatTitleChange withCallback = true
  /\ titleChanges (step withCallback blankEdit Blur) = []
  /\ titleChanges (step withCallback blankEdit Blur)
     <> (titleChanges blankEdit ++ [slice 0 8 (trim (editableTitle blankEdit))])%list.
Proof.
  repeat split; try reflexivity. vm_compute. discriminate.
Qed.

Example title_save_example :
  titleChanges (step withCallback longEdit Blur) = [units "Weekend "].
Proof. reflexivity. Qed.

Example title_save_example_unicode :
  titleChanges (step withCallback nihaoEdit Blur)
  = [[0x4F60; 0x597D; 0x4E16; 0x754C; 0x4F60; 0x597D; 0x4E16; 0x754C]%N].
Proof. reflexivity. Qed.

(** A whole edit: click the title, type, press Enter. *)
Example title_edit_session :
  fold_left (step withCallback)
    [Click; Change (units " Trip to Lisbon "); KeyPress "a"; KeyPress "Enter"]
    (initial withCallback)
  = {| isEditingTitle := false; editableTitle := units " Trip to Lisbon ";
       titleChanges := [units "Trip to "] |}.
Proof. reflexivity. Qed.

End TitleEditor.

(** ** Quota accounting *)

Section QuotaFacts.
Import Quota Sample.

(** C6: with [boundary] the end of the period that began at
    [lastResetAt], recording usage at a time past the boundary first
    zeroes the counter and moves [lastResetAt] to now, then applies the
    usage; at any time up to the boundary nothing is reset. *)
Theorem quota_resets_after_period_only (cal : Calendar) (perm : UserPermission)
    (p : LimitPeriod) (now tokens : Z) :
  parsePeriod (perm_limitPeriod perm) = Some p ->
  let boundary := periodEnd cal p (perm_lastResetAt perm) in
  let after := recordUsage cal perm now tokens in
  (boundary < now ->
     perm_tokenUsed (resetIfDue cal perm now) = 0
     /\ perm_lastResetAt (resetIfDue cal perm now) = now
     /\ perm_tokenUsed after = 0 + tokens
     /\ perm_lastResetAt after = now)
  /\ (now <= boundary ->
        resetIfDue cal perm now = perm
        /\ perm_tokenUsed after = perm_tokenUsed perm + tokens
        /\ perm_lastResetAt after = perm_lastResetAt perm).
Proof.
  intros Hp boundary after. subst after.
  unfold recordUsage, resetIfDue, resetDue. rewrite Hp. fold boundary.
  split; intros Hb.
  - apply Z.ltb_lt in Hb. rewrite Hb. simpl. repeat split; reflexivity.
  - apply Z.ltb_ge in Hb. rewrite Hb. simpl. repeat split; reflexivity.
Qed.

Lemma periodEnd_daily (cal : Calendar) (t : Z) :
  periodEnd cal Daily t = t + 86400000.
Proof. reflexivity. Qed.

(** 2024-01-15T00:00:00Z plus one calendar month is 2024-02-15T00:00:00Z,
    plus three months 2024-04-15, plus one year 2025-01-15. *)
Example periodEnd_gregorian :
  periodEnd gregorian Monthly 1705276800000 = 1707955200000
  /\ periodEnd gregorian Quarterly 1705276800000 = 1713139200000
  /\ periodEnd gregorian Yearly 1705276800000 = 1736899200000.
Proof. vm_compute. repeat split; reflexivity. Qed.

Lemma quota_resets_after_period_only_witness :
  (periodEnd gregorian Monthly 1705276800000 < 1707955200001 ->
     perm_tokenUsed (resetIfDue gregorian monthlyPermission 1707955200001) = 0
     /\ perm_lastResetAt (resetIfDue gregorian monthlyPermission 1707955200001)
        = 1707955200001
     /\ perm_tokenUsed (recordUsage gregorian monthlyPermission 1707955200001 42) = 0 + 42
     /\ perm_lastResetAt (recordUsage gregorian monthlyPermission 1707955200001 42)
        = 1707955200001)
  /\ (1707955200001 <= periodEnd gregorian Monthly 1705276800000 ->
        resetIfDue gregorian monthlyPermission 1707955200001 = monthlyPermission
        /\ perm_tokenUsed (recordUsage gregorian monthlyPermission 1707955200001 42)
           = perm_tokenUsed monthlyPermission + 42
        /\ perm_lastResetAt (recordUsage gregorian monthlyPermission 1707955200001 42)
           = perm_lastResetAt monthlyPermission).
Proof.
  apply (quota_resets_after_period_only gregorian monthlyPermission Monthly
           1707955200001 42).
  reflexivity.
Defined.

Example quota_reset_example :
  perm_tokenUsed (recordUsage gregorian monthlyPermission 1707955200001 42) = 42
  /\ perm_tokenUsed (recordUsage gregorian monthlyPermission 1707955200000 42) = 542.
Proof. vm_compute. split; reflexivity. Qed.

End QuotaFacts.

(** ** The admin routes *)

Lemma Qeq_bool_zero (x y : Q) :
  Qeq_bool x y = true -> Qeq_bool x 0 = Qeq_bool y 0.
Proof.
  intros H. apply Qeq_bool_iff in H.
  destruct (Qeq_bool x 0) eqn:Hx, (Qeq_bool y 0) eqn:Hy; try reflexivity.
  - apply Qeq_bool_iff in Hx. apply Qeq_bool_neq in Hy. exfalso. apply Hy.
    rewrite <- H. exact Hx.
  - apply Qeq_bool_iff in Hy. apply Qeq_bool_neq in Hx. exfalso. apply Hx.
    rewrite H. exact Hy.
Qed.

Lemma strict_eq_truthy (a b : jsval) :
  strict_eq a b = true -> truthy a = truthy b.
Proof.
  destruct a, b; simpl; try discriminate; try reflexivity.
  - intros H. apply Bool.eqb_prop in H. exact H.
  - intros H. f_equal. apply Qeq_bool_zero. exact H.
  - intros H. apply String.eqb_eq in H. subst. reflexivity.
Qed.

Lemma strict_eq_str_false (v : jsval) (s : string) :
  v <> JStr s -> strict_eq v (JStr s) = false.
Proof.
  intros H. destruct (strict_eq v (JStr s)) eqn:Heq; [|reflexivity].
  apply strict_eq_str in Heq. contradiction.
Qed.

Lemma bind_ret {A B} (a : A) (k : A -> M B) : bind (ret a) k = k a.
Proof. reflexivity. Qed.

(** Unfolding one step of a handler body. *)
Ltac handler_step :=
  unfold handler, bind, return_if, return_, ret, throw, checkPermission; simpl.

Section RouteFacts.
Context (E : Env).

(** C8: a permitted caller whose [confirmText] is anything but the
    literal "RESET DATABASE" gets HTTP 400; no shell command is run and
    nothing else happens either. *)
Theorem reset_rejects_wrong_confirmation (request : Request) (data : jsval) (w : World) :
  jsonBody request = Some data ->
  truthy (prop "adminUserId" data) = true ->
  checkUserPermission E (db w) (prop "adminUserId" data) "admin_panel" = Some true ->
  prop "confirmText" data <> JStr "RESET DATABASE" ->
  status (fst (DatabaseResetRoute.POST E request w)) = 400
  /\ shell (snd (DatabaseResetRoute.POST E request w)) = shell w
  /\ snd (DatabaseResetRoute.POST E request w) = w.
Proof.
  intros Hbody Hadmin Hperm Hconfirm.
  unfold DatabaseResetRoute.POST.
  rewrite (request_json_object _ _ _ Hbody Hadmin).
  handler_step. rewrite Hadmin. simpl. rewrite Hperm. simpl.
  rewrite (strict_eq_str_false _ _ Hconfirm). simpl. auto.
Qed.

(** C7: a permitted caller who names themself as the user to deactivate
    ([updateStatus] with a false [isActive]) or to delete gets HTTP 400, and
    nothing is changed. *)
Theorem admin_cannot_ban_or_delete_self (request : Request) (data : jsval) (w : World) :
  jsonBody request = Some data ->
  truthy (prop "adminUserId" data) = true ->
  strict_eq (prop "adminUserId" data) (prop "userId" data) = true ->
  checkUserPermission E (db w) (prop "adminUserId" data) "admin_panel" = Some true ->
  (prop "action" data = JStr "updateStatus" ->
   truthy (prop "isActive" data) = false ->
   status (fst (UsersRoute.PATCH E request w)) = 400
   /\ snd (UsersRoute.PATCH E request w) = w)
  /\ (status (fst (UsersRoute.DELETE E request w)) = 400
      /\ snd (UsersRoute.DELETE E request w) = w).
Proof.
  intros Hbody Hadmin Hself Hperm.
  pose proof (strict_eq_truthy _ _ Hself) as Huser. rewrite Hadmin in Huser.
  split.
  - intros Haction Hactive.
    unfold UsersRoute.PATCH.
    rewrite (request_json_object _ _ _ Hbody Hadmin).
    rewrite bind_ret. cbv beta zeta. rewrite !prop_rest by reflexivity.
    handler_step. rewrite Hadmin, <- Huser, Haction. simpl.
    rewrite Hperm. simpl. rewrite Hself, Hactive. simpl. auto.
  - unfold UsersRoute.DELETE.
    rewrite (request_json_object _ _ _ Hbody Hadmin).
    handler_step. rewrite Hadmin, <- Huser. simpl.
    rewrite Hperm. simpl. rewrite Hself. simpl. auto.
Qed.

Lemma caller_of_body (ep : AdminApi.Endpoint) (request : Request) (a : jsval) :
  AdminApi.caller ep request = Some a ->
  match ep with
  | AdminApi.UsersGET | AdminApi.CodesGET | AdminApi.DatabaseResetGET => True
  | _ =>
      exists data,
        request_json request = ret data
        /\ a = prop "adminUserId" data
        /\ AdminApi.parameters ep request = Some (fun k => prop k data)
  end.
Proof.
  unfold AdminApi.caller, AdminApi.parameters, request_json.
  destruct ep; try exact (fun _ => I);
    (destruct (jsonBody request) as [data|]; [|discriminate]);
    destruct data; simpl; try discriminate;
    intros [= <-]; eexists; repeat split; reflexivity.
Qed.

Ltac split_truthy :=
  repeat match goal with
         | |- context [truthy ?v] => destruct (truthy v) eqn:?; simpl
         end.

(** C1, as amended: when the permission check refuses the caller, no
    endpoint changes anything (database, shell, query log), and the answer
    is 403 when the request carries the parameters the endpoint insists on
    before the check, 400 when one of them is missing. *)
Theorem denied_caller_changes_nothing (ep : AdminApi.Endpoint) (request : Request)
    (a : jsval) (w : World) :
  AdminApi.caller ep request = Some a ->
  checkUserPermission E (db w) a "admin_panel" = Some false ->
  snd (AdminApi.serve E ep request w) = w
  /\ status (fst (AdminApi.serve E ep request w))
     = (if AdminApi.wellFormed ep request then 403 else 400).
Proof.
  intros Hcaller Hperm.
  pose proof (caller_of_body ep request a Hcaller) as Hbody.
  unfold AdminApi.wellFormed.
  destruct ep; simpl in Hbody |- *;
    try (destruct Hbody as (data & Hjson & -> & ->));
    try (unfold AdminApi.caller in Hcaller; simpl in Hcaller;
         injection Hcaller as <-).
  all: unfold UsersRoute.GET, UsersRoute.POST, UsersRoute.PATCH, UsersRoute.DELETE,
         CodesRoute.GET, CodesRoute.POST, CodesRoute.PATCH, CodesRoute.DELETE,
         DatabaseResetRoute.GET, DatabaseResetRoute.POST.
  all: try rewrite Hjson; try rewrite bind_ret; cbv beta zeta; handler_step.
  all: split_truthy; try rewrite Hperm; simpl; auto.
Qed.

(** C3: a permitted, confirmed reset runs [npm run db:reset] first and
    [npm run db:seed] second, each with a timeout of 30000 ms.  When the
    first fails the second is not started and the answer is 500 with the
    failure's message, stdout and stderr; when the second fails the answer
    is 500 likewise; only when both succeed is the answer a success, and it
    carries the (trimmed) stdout of both. *)
Theorem reset_runs_reset_then_seed (request : Request) (data : jsval) (w : World) :
  jsonBody request = Some data ->
  truthy (prop "adminUserId" data) = true ->
  checkUserPermission E (db w) (prop "adminUserId" data) "admin_panel" = Some true ->
  prop "confirmText" data = JStr "RESET DATABASE" ->
  let r := DatabaseResetRoute.POST E request w in
  let reset := ("npm run db:reset", 30000) in
  let seed := ("npm run db:seed", 30000) in
  match exec E "npm run db:reset" 30000 (tick w) (db w) with
  | (ExecFailed m out err, _) =>
      fst r = json_status
                (BExecError "Failed to reset database" m (Some out) (Some err)) 500
      /\ shell (snd r) = (shell w ++ [reset])%list
  | (ExecOk resetOutput _, s1) =>
      match exec E "npm run db:seed" 30000 (S (tick w)) s1 with
      | (ExecFailed m out err, _) =>
          fst r = json_status
                    (BExecError "Failed to reset database" m (Some out) (Some err)) 500
          /\ shell (snd r) = (shell w ++ [reset; seed])%list
      | (ExecOk seedOutput _, _) =>
          fst r = json_status
                    (BResetDone "Database has been successfully reset and reseeded"
                       (trim resetOutput) (trim seedOutput)) 200
          /\ shell (snd r) = (shell w ++ [reset; seed])%list
      end
  end.
Proof.
  intros Hbody Hadmin Hperm Hconfirm r reset seed. subst r reset seed.
  unfold DatabaseResetRoute.POST.
  rewrite (request_json_object _ _ _ Hbody Hadmin), bind_ret. cbv beta zeta.
  handler_step. rewrite Hadmin. simpl. rewrite Hperm. simpl.
  rewrite Hconfirm. simpl.
  unfold try_catch, execAsync; simpl.
  destruct (exec E "npm run db:reset" 30000 (tick w) (db w)) as [[o1 e1|m1 o1 e1] s1];
    simpl; [|auto].
  destruct (exec E "npm run db:seed" 30000 (S (tick w)) s1) as [[o2 e2|m2 o2 e2] s2];
    simpl; rewrite <- app_assoc; auto.
Qed.

Lemma as_int_default_one (v : jsval) :
  truthy v = false -> as_int (or_else v (JNum 1)) = Some 1.
Proof.
  intros H. unfold or_else. rewrite H. reflexivity.
Qed.

(** What the client makes of a number given for an [Int] column. *)
Lemma as_int_number (q : Q) (z : Z) :
  as_int (JNum q) = Some z
  <-> z = Z.quot (Qnum q) (Zpos (Qden q)) /\ -2147483648 <= z <= 2147483647.
Proof.
  unfold as_int. cbv zeta.
  destruct (Z.leb_spec (-2147483648) (Z.quot (Qnum q) (Zpos (Qden q))));
    destruct (Z.leb_spec (Z.quot (Qnum q) (Zpos (Qden q))) 2147483647); simpl; split.
  all: try (intros [= <-]; split; [reflexivity|lia]).
  all: try (intros [-> ?]; first [reflexivity|lia]).
  all: try discriminate.
Qed.

(** What is stored for [maxUses || 1]. *)
Lemma as_int_or_one (v : jsval) (uses : Z) :
  as_int (if truthy v then v else JNum 1) = Some uses
  <-> (truthy v = false /\ uses = 1)
      \/ (exists q, v = JNum q /\ truthy v = true
                    /\ uses = Z.quot (Qnum q) (Zpos (Qden q))
                    /\ -2147483648 <= uses <= 2147483647).
Proof.
  destruct (truthy v) eqn:Ht; split.
  - intros H. right. destruct v; try discriminate. exists q.
    apply as_int_number in H. tauto.
  - intros [[? _]|(q & -> & _ & H)]; [discriminate|]. apply as_int_number. exact H.
  - intros [= <-]. left. auto.
  - intros [[_ ->]|(q & _ & ? & _)]; [reflexivity|discriminate].
Qed.

(** C10, as amended: a permitted POST of type 'invite' passes
    [maxUses || 1] to [prisma.inviteCode.create].  Whenever a code comes
    back, its [maxUses] is 1 when the request's is falsy (0, null, absent),
    and otherwise the request's is a number and the code carries that
    number without its fraction: the request's own value when it is an
    integer, its truncation toward zero when it is not.  A code does come
    back when nothing outside the handler fails and the value fits 32 bits;
    a truthy [maxUses] that is not a number creates nothing and is answered
    500. *)
Theorem invite_maxUses_defaults_to_one (request : Request) (data : jsval) (w : World) :
  jsonBody request = Some data ->
  truthy (prop "adminUserId" data) = true ->
  checkUserPermission E (db w) (prop "adminUserId" data) "admin_panel" = Some true ->
  prop "type" data = JStr "invite" ->
  let maxUses := prop "maxUses" data in
  let r := CodesRoute.POST E request w in
  (forall id row creator,
      body (fst r) = BInviteCode id row creator ->
      inviteCodes (db (snd r)) !! id = Some row
      /\ (truthy maxUses = false -> invite_maxUses row = 1)
      /\ (truthy maxUses = true ->
          exists q, maxUses = JNum q
                    /\ invite_maxUses row = Z.quot (Qnum q) (Zpos (Qden q))
                    /\ -2147483648 <= invite_maxUses row <= 2147483647)
      /\ (forall z, maxUses = JNum (inject_Z z) -> z <> 0 -> invite_maxUses row = z))
  /\ (forall by_ uses,
        prop "adminUserId" data = JStr by_ ->
        is_Some (users (db w) !! by_) ->
        (truthy maxUses = false /\ uses = 1)
        \/ (exists q, maxUses = JNum q /\ truthy maxUses = true
                      /\ uses = Z.quot (Qnum q) (Zpos (Qden q))
                      /\ -2147483648 <= uses <= 2147483647) ->
        CodesRoute.expiry E (prop "expiresAt" data) <> Some None ->
        dbFault E (S (tick w)) = false ->
        inviteCodes (db w) !! cuid E (S (tick w)) = None ->
        taken (λ c, Some (invite_code c)) (Some (generateInviteCode E (tick w)))
          (inviteCodes (db w)) = false ->
        exists row creator,
          fst r = json (BInviteCode (cuid E (S (tick w))) row creator)
          /\ invite_maxUses row = uses
          /\ inviteCodes (db (snd r)) !! cuid E (S (tick w)) = Some row)
  /\ (truthy maxUses = true -> (forall q, maxUses <> JNum q) ->
      fst r = json_status (BError "Failed to create code") 500
      /\ db (snd r) = db w).
Proof.
  intros Hbody Hadmin Hperm Htype maxUses r. subst r.
  unfold CodesRoute.POST.
  rewrite (request_json_object _ _ _ Hbody Hadmin), bind_ret. cbv beta zeta.
  fold maxUses.
  handler_step. rewrite Hadmin, Htype. simpl. rewrite Hperm. simpl.
  unfold inviteCode_create, lift_arg, round_trip, next_tick, or_else; handler_step.
  split; [|split].
  - intros id row creator.
    destruct (as_int (if truthy maxUses then maxUses else JNum 1)) as [uses|] eqn:Huses;
      simpl; [|discriminate].
    apply as_int_or_one in Huses.
    destruct (CodesRoute.expiry E (prop "expiresAt" data)) as [[t|]|]; simpl;
      try discriminate.
    all: destruct (as_string (prop "adminUserId" data)) as [by_|]; simpl;
      try discriminate.
    all: destruct (dbFault E (S (tick w))); simpl; try discriminate.
    all: destruct (bool_decide _ || bool_decide _); simpl; try discriminate.
    all: destruct (bool_decide (users (db w) !! by_ = None)); simpl; try discriminate.
    all: intros [= <- <- <-]; simpl; rewrite lookup_insert_eq.
    all: split; [reflexivity|]; split; [|split].
    all: try (intros Hf; destruct Huses as [[_ ->]|(q & _ & Ht & _)];
              [reflexivity|congruence]).
    all: try (intros Ht; destruct Huses as [[Hf _]|(q & Hq & _ & Hu & Hrange)];
              [congruence|exists q; auto]).
    all: intros z Hz Hnz; destruct Huses as [[Hf _]|(q & Hq & _ & -> & _)];
      [ rewrite Hz in Hf; simpl in Hf; apply negb_false_iff, Qeq_bool_iff in Hf;
        unfold Qeq in Hf; simpl in Hf; lia
      | rewrite Hz in Hq; injection Hq as <-; simpl; apply Z.quot_1_r ].
  - intros by_ uses Hby [u Hu] Huses Hexp Hfault Hfresh Hcode.
    apply as_int_or_one in Huses. rewrite Huses, Hby. simpl.
    assert (Hno : bool_decide (users (db w) !! by_ = None) = false).
    { apply bool_decide_eq_false. rewrite Hu. discriminate. }
    assert (Hid : bool_decide (is_Some (inviteCodes (db w) !! cuid E (S (tick w)))) = false).
    { apply bool_decide_eq_false. rewrite Hfresh. intros [? ?]. discriminate. }
    destruct (CodesRoute.expiry E (prop "expiresAt" data)) as [[t|]|]; simpl;
      try contradiction.
    all: rewrite Hfault, Hid, Hcode, Hno; simpl.
    all: eexists _, _; repeat split; simpl; try reflexivity.
    all: apply lookup_insert_eq.
  - intros Ht Hnum. rewrite Ht.
    destruct maxUses as [| | |q| | |] eqn:Hm; try discriminate; simpl; auto.
    exfalso. exact (Hnum q eq_refl).
Qed.

(** C5, as amended: a permitted toggle of an existing code negates
    exactly the targeted flag ([isUsed] of an invite code, [isActive] of an
    access code); the only other field of the row that changes is
    [updatedAt], which the schema marks [@updatedAt] and so takes the time
    of the update; no other row and no other table changes. *)
Theorem toggle_flips_target_and_updatedAt (request : Request) (data : jsval)
    (codeId : string) (w : World) :
  jsonBody request = Some data ->
  truthy (prop "adminUserId" data) = true ->
  checkUserPermission E (db w) (prop "adminUserId" data) "admin_panel" = Some true ->
  prop "codeId" data = JStr codeId ->
  codeId <> "" ->
  prop "action" data = JStr "toggle" ->
  dbFault E (tick w) = false ->
  dbFault E (S (tick w)) = false ->
  let r := CodesRoute.PATCH E request w in
  (prop "type" data = JStr "invite" ->
   forall row, inviteCodes (db w) !! codeId = Some row ->
   exists row',
     fst r = json (BInviteCode codeId row' None)
     /\ db (snd r) = with_inviteCodes (<[codeId := row']> (inviteCodes (db w))) (db w)
     /\ invite_isUsed row' = negb (invite_isUsed row)
     /\ invite_updatedAt row' = clock E (S (tick w))
     /\ invite_code row' = invite_code row
     /\ invite_createdBy row' = invite_createdBy row
     /\ invite_usedBy row' = invite_usedBy row
     /\ invite_usedAt row' = invite_usedAt row
     /\ invite_expiresAt row' = invite_expiresAt row
     /\ invite_maxUses row' = invite_maxUses row
     /\ invite_currentUses row' = invite_currentUses row
     /\ invite_createdAt row' = invite_createdAt row)
  /\ (prop "type" data = JStr "access" ->
      forall row, accessCodes (db w) !! codeId = Some row ->
      exists row',
        fst r = json (BAccessCode codeId row' None)
        /\ db (snd r) = with_accessCodes (<[codeId := row']> (accessCodes (db w))) (db w)
        /\ access_isActive row' = negb (access_isActive row)
        /\ access_updatedAt row' = clock E (S (tick w))
        /\ access_code row' = access_code row
        /\ access_createdBy row' = access_createdBy row
        /\ access_expiresAt row' = access_expiresAt row
        /\ access_maxUses row' = access_maxUses row
        /\ access_currentUses row' = access_currentUses row
        /\ access_allowedModelIds row' = access_allowedModelIds row
        /\ access_createdAt row' = access_createdAt row).
Proof.
  intros Hbody Hadmin Hperm Hcode Hne Haction Hf0 Hf1 r. subst r.
  assert (Hcid : truthy (prop "codeId" data) = true).
  { rewrite Hcode. simpl. destruct (String.eqb_spec codeId ""); [contradiction|reflexivity]. }
  unfold CodesRoute.PATCH.
  rewrite (request_json_object _ _ _ Hbody Hadmin), bind_ret. cbv beta zeta.
  handler_step. rewrite Hadmin, Hcid, Haction, Hcode. simpl.
  split; intros Htype row Hrow; rewrite Htype; simpl; rewrite Hperm; simpl.
  - unfold inviteCode_findUnique, findUnique, inviteCode_update, lift_arg, round_trip;
      handler_step.
    rewrite Hf0, Hrow. simpl. rewrite Hf1, Hrow. simpl.
    eexists. repeat split.
  - unfold accessCode_findUnique, findUnique, accessCode_update, lift_arg, round_trip;
      handler_step.
    rewrite Hf0, Hrow. simpl. rewrite Hf1, Hrow. simpl.
    eexists. repeat split.
Qed.

(** The sibling paths of the codes DELETE, for C4: deleting a user that
    does not exist answers 404, and so does toggling a code that does not
    exist. *)
Lemma users_DELETE_missing_user_404 (request : Request) (data : jsval)
    (userId : string) (w : World) :
  jsonBody request = Some data ->
  truthy (prop "adminUserId" data) = true ->
  checkUserPermission E (db w) (prop "adminUserId" data) "admin_panel" = Some true ->
  prop "userId" data = JStr userId ->
  userId <> "" ->
  prop "adminUserId" data <> JStr userId ->
  dbFault E (tick w) = false ->
  users (db w) !! userId = None ->
  status (fst (UsersRoute.DELETE E request w)) = 404
  /\ db (snd (UsersRoute.DELETE E request w)) = db w.
Proof.
  intros Hbody Hadmin Hperm Huser Hne Hself Hf0 Hmissing.
  assert (Huid : truthy (prop "userId" data) = true).
  { rewrite Huser. simpl. destruct (String.eqb_spec userId ""); [contradiction|reflexivity]. }
  unfold UsersRoute.DELETE.
  rewrite (request_json_object _ _ _ Hbody Hadmin), bind_ret. cbv beta zeta.
  handler_step. rewrite Hadmin, Huid. simpl. rewrite Hperm. simpl.
  rewrite Huser, (strict_eq_str_false _ _ Hself). simpl.
  unfold user_findUnique, findUnique, lift_arg, round_trip; handler_step.
  rewrite Hf0, Hmissing. simpl. auto.
Qed.

Lemma codes_PATCH_missing_code_404 (request : Request) (data : jsval)
    (codeId : string) (w : World) :
  jsonBody request = Some data ->
  truthy (prop "adminUserId" data) = true ->
  checkUserPermission E (db w) (prop "adminUserId" data) "admin_panel" = Some true ->
  prop "codeId" data = JStr codeId ->
  codeId <> "" ->
  prop "action" data = JStr "toggle" ->
  dbFault E (tick w) = false ->
  (prop "type" data = JStr "invite" -> inviteCodes (db w) !! codeId = None ->
   status (fst (CodesRoute.PATCH E request w)) = 404
   /\ db (snd (CodesRoute.PATCH E request w)) = db w)
  /\ (prop "type" data = JStr "access" -> accessCodes (db w) !! codeId = None ->
      status (fst (CodesRoute.PATCH E request w)) = 404
      /\ db (snd (CodesRoute.PATCH E request w)) = db w).
Proof.
  intros Hbody Hadmin Hperm Hcode Hne Haction Hf0.
  assert (Hcid : truthy (prop "codeId" data) = true).
  { rewrite Hcode. simpl. destruct (String.eqb_spec codeId ""); [contradiction|reflexivity]. }
  unfold CodesRoute.PATCH.
  rewrite (request_json_object _ _ _ Hbody Hadmin), bind_ret. cbv beta zeta.
  handler_step. rewrite Hadmin, Hcid, Haction, Hcode. simpl.
  split; intros Htype Hmissing; rewrite Htype; simpl; rewrite Hperm; simpl.
  - unfold inviteCode_findUnique, findUnique, lift_arg, round_trip; handler_step.
    rewrite Hf0, Hmissing. simpl. auto.
  - unfold accessCode_findUnique, findUnique, lift_arg, round_trip; handler_step.
    rewrite Hf0, Hmissing. simpl. auto.
Qed.

(** The codes DELETE does not look the code up first: [delete] throws on a
    code that does not exist, and the handler's [catch] answers 500. *)
Lemma codes_DELETE_missing_code_500 (request : Request) (data : jsval)
    (codeId : string) (w : World) :
  jsonBody request = Some data ->
  truthy (prop "adminUserId" data) = true ->
  checkUserPermission E (db w) (prop "adminUserId" data) "admin_panel" = Some true ->
  prop "codeId" data = JStr codeId ->
  codeId <> "" ->
  (prop "type" data = JStr "invite" -> inviteCodes (db w) !! codeId = None ->
   fst (CodesRoute.DELETE E request w) = json_status (BError "Failed to delete code") 500
   /\ db (snd (CodesRoute.DELETE E request w)) = db w)
  /\ (prop "type" data = JStr "access" -> accessCodes (db w) !! codeId = None ->
      fst (CodesRoute.DELETE E request w) = json_status (BError "Failed to delete code") 500
      /\ db (snd (CodesRoute.DELETE E request w)) = db w).
Proof.
  intros Hbody Hadmin Hperm Hcode Hne.
  assert (Hcid : truthy (prop "codeId" data) = true).
  { rewrite Hcode. simpl. destruct (String.eqb_spec codeId ""); [contradiction|reflexivity]. }
  unfold CodesRoute.DELETE.
  rewrite (request_json_object _ _ _ Hbody Hadmin), bind_ret. cbv beta zeta.
  handler_step. rewrite Hadmin, Hcid, Hcode. simpl.
  split; intros Htype Hmissing; rewrite Htype; simpl; rewrite Hperm; simpl.
  - unfold inviteCode_delete, delete_row, lift_arg, round_trip; handler_step.
    rewrite Hmissing. destruct (dbFault E (tick w)); simpl; auto.
  - unfold accessCode_delete, delete_row, lift_arg, round_trip; handler_step.
    rewrite Hmissing. destruct (dbFault E (tick w)); simpl; auto.
Qed.

Lemma map_Forall_filter_owner {R} (owner : R -> string) (uid : string)
    (m : gmap string R) :
  map_Forall (λ _ r, owner r ≠ uid) (filter (λ kv, owner kv.2 ≠ uid) m).
Proof.
  intros k r Hk. apply map_lookup_filter_Some in Hk. exact (proj2 Hk).
Qed.

Lemma deleteUserRow_purged (uid : string) (s : Store) :
  AdminApi.purged uid (deleteUserRow uid s).
Proof.
  unfold AdminApi.purged, deleteUserRow; simpl.
  split; [apply lookup_delete_eq|].
  repeat split.
  - apply (map_Forall_filter_owner msg_userId).
  - apply (map_Forall_filter_owner conv_userId).
  - apply (map_Forall_filter_owner usage_userId).
  - apply (map_Forall_filter_owner perm_userId).
  - apply (map_Forall_filter_owner invite_createdBy).
  - apply (map_Forall_filter_owner access_createdBy).
Qed.

Lemma deleteMany_run (t : Table) (column uid : string) (del : string -> Store -> Store)
    (w : World) :
  deleteMany E t column (JStr uid) del w
  = if dbFault E (tick w)
    then (Throw DatabaseUnavailable,
          {| db := db w; tick := S (tick w);
             queries := queries w ++ [DeleteMany t column uid]; shell := shell w |})
    else (Value tt,
          {| db := del uid (db w); tick := S (tick w);
             queries := queries w ++ [DeleteMany t column uid]; shell := shell w |}).
Proof.
  unfold deleteMany, lift_arg, round_trip; handler_step.
  destruct (dbFault E (tick w)); reflexivity.
Qed.

Lemma user_delete_run (uid : string) (u : User) (w : World) :
  users (db w) !! uid = Some u ->
  user_delete E (JStr uid) w
  = if dbFault E (tick w)
    then (Throw DatabaseUnavailable,
          {| db := db w; tick := S (tick w);
             queries := queries w ++ [Delete TUser uid]; shell := shell w |})
    else (Value u,
          {| db := deleteUserRow uid (db w); tick := S (tick w);
             queries := queries w ++ [Delete TUser uid]; shell := shell w |}).
Proof.
  intros Hu. unfold user_delete, delete_row, lift_arg, round_trip; handler_step.
  rewrite Hu. destruct (dbFault E (tick w)); reflexivity.
Qed.

(** The deletions before the last leave the user row in place. *)
Lemma users_before_last_delete (uid : string) (s : Store) :
  users (deleteAccessCodesBy uid
           (deleteInviteCodesBy uid
              (deletePermissionsOf uid
                 (deleteTokenUsageOf uid
                    (deleteConversationsOf uid (deleteMessagesOf uid s))))))
  = users s.
Proof. reflexivity. Qed.

(** C2: a permitted DELETE that names an existing user requests, within
    one transaction and in this order, the deletion of the user's messages,
    conversations, token-usage rows, permission row, invite codes, access
    codes and finally of the user row.  When none of the seven requests
    fails the answer is a success and no row of the user is left; when one
    fails the answer is 500, the later ones are not made, and the database
    is exactly as it was. *)
Theorem user_delete_is_all_or_nothing (request : Request) (data : jsval)
    (userId : string) (w : World) :
  jsonBody request = Some data ->
  truthy (prop "adminUserId" data) = true ->
  checkUserPermission E (db w) (prop "adminUserId" data) "admin_panel" = Some true ->
  prop "userId" data = JStr userId ->
  userId <> "" ->
  prop "adminUserId" data <> JStr userId ->
  dbFault E (tick w) = false ->
  is_Some (users (db w) !! userId) ->
  let r := UsersRoute.DELETE E request w in
  if existsb (dbFault E) (seq (S (tick w)) 7)
  then
    fst r = json_status (BError "Failed to delete user") 500
    /\ db (snd r) = db w
    /\ exists k, (k <= 7)%nat
         /\ queries (snd r)
            = (queries w ++ FindUnique TUser userId
                 :: firstn k (AdminApi.deletionPlan userId))%list
  else
    fst r = json (BSuccess "User deleted successfully")
    /\ db (snd r) = AdminApi.afterDeletion userId (db w)
    /\ AdminApi.purged userId (db (snd r))
    /\ queries (snd r)
       = (queries w ++ FindUnique TUser userId :: AdminApi.deletionPlan userId)%list.
Proof.
  intros Hbody Hadmin Hperm Huser Hne Hself Hf0 [u Hu] r. subst r.
  assert (Huid : truthy (JStr userId) = true).
  { simpl. destruct (String.eqb_spec userId ""); [contradiction|reflexivity]. }
  unfold UsersRoute.DELETE.
  rewrite (request_json_object _ _ _ Hbody Hadmin), bind_ret. cbv beta zeta.
  rewrite Huser.
  unfold message_deleteMany, conversation_deleteMany, tokenUsage_deleteMany,
    userPermission_deleteMany, inviteCode_deleteMany, accessCode_deleteMany.
  unfold handler, bind, return_if, return_, ret, throw, checkPermission, transaction.
  rewrite Hadmin, Huid, (strict_eq_str_false _ _ Hself).
  unfold user_findUnique, findUnique, lift_arg, bind, ret, round_trip.
  cbn -[deleteMany user_delete existsb].
  rewrite Hperm. cbn -[deleteMany user_delete existsb].
  rewrite Hf0, Hu. cbn -[deleteMany user_delete existsb].
  rewrite deleteMany_run. cbn [existsb seq tick db queries shell set_db].
  destruct (dbFault E (S (tick w))).
  { cbn. repeat split. exists 1%nat. split; [lia|]. rewrite <- !app_assoc. reflexivity. }
  cbn -[deleteMany user_delete]. rewrite deleteMany_run. cbn [tick db queries shell].
  destruct (dbFault E (S (S (tick w)))).
  { cbn. repeat split. exists 2%nat. split; [lia|]. rewrite <- !app_assoc. reflexivity. }
  cbn -[deleteMany user_delete]. rewrite deleteMany_run. cbn [tick db queries shell].
  destruct (dbFault E (S (S (S (tick w))))).
  { cbn. repeat split. exists 3%nat. split; [lia|]. rewrite <- !app_assoc. reflexivity. }
  cbn -[deleteMany user_delete]. rewrite deleteMany_run. cbn [tick db queries shell].
  destruct (dbFault E (S (S (S (S (tick w)))))).
  { cbn. repeat split. exists 4%nat. split; [lia|]. rewrite <- !app_assoc. reflexivity. }
  cbn -[deleteMany user_delete]. rewrite deleteMany_run. cbn [tick db queries shell].
  destruct (dbFault E (S (S (S (S (S (tick w))))))).
  { cbn. repeat split. exists 5%nat. split; [lia|]. rewrite <- !app_assoc. reflexivity. }
  cbn -[deleteMany user_delete]. rewrite deleteMany_run. cbn [tick db queries shell].
  destruct (dbFault E (S (S (S (S (S (S (tick w)))))))).
  { cbn. repeat split. exists 6%nat. split; [lia|]. rewrite <- !app_assoc. reflexivity. }
  cbn -[deleteMany user_delete].
  rewrite (user_delete_run userId u) by exact Hu.
  cbn [tick db queries shell].
  destruct (dbFault E (S (S (S (S (S (S (S (tick w))))))))).
  { cbn. repeat split. exists 7%nat. split; [lia|]. rewrite <- !app_assoc. reflexivity. }
  cbn [orb fst snd set_db db queries].
  split; [reflexivity|]. split; [reflexivity|].
  split; [apply deleteUserRow_purged|].
  rewrite <- !app_assoc. reflexivity.
Qed.

End RouteFacts.

(** ** The routes on concrete requests *)

Section Runs.
Import Sample AdminApi.

Lemma denied_caller_changes_nothing_witness :
  snd (serve E0 UsersDELETE (jsonRequest deleteBobAsEve) world0) = world0
  /\ status (fst (serve E0 UsersDELETE (jsonRequest deleteBobAsEve) world0))
     = (if wellFormed UsersDELETE (jsonRequest deleteBobAsEve) then 403 else 400).
Proof.
  apply (denied_caller_changes_nothing E0 UsersDELETE (jsonRequest deleteBobAsEve)
           (JStr "eve") world0); reflexivity.
Defined.

(** C1 as the spec words it fails: [eve] is refused by the permission
    check, yet her request to create a user without a [username] is
    answered 400, not 403: the handler validates before it checks. *)
Lemma denied_caller_missing_parameter_gets_400 :
  caller UsersPOST (jsonRequest createUserNoName) = Some (JStr "eve")
  /\ checkUserPermission E0 (db world0) (JStr "eve") "admin_panel" = Some false
  /\ status (fst (serve E0 UsersPOST (jsonRequest createUserNoName) world0)) = 400
  /\ status (fst (serve E0 UsersPOST (jsonRequest createUserNoName) world0)) <> 403.
Proof.
  repeat split; try reflexivity. vm_compute. discriminate.
Qed.

Lemma user_delete_is_all_or_nothing_witness :
  let r := UsersRoute.DELETE E0 (jsonRequest deleteBob) world0 in
  if existsb (dbFault E0) (seq (S (tick world0)) 7)
  then
    fst r = json_status (BError "Failed to delete user") 500
    /\ db (snd r) = db world0
    /\ exists k, (k <= 7)%nat
         /\ queries (snd r)
            = (queries world0 ++ FindUnique TUser "bob"
                 :: firstn k (deletionPlan "bob"))%list
  else
    fst r = json (BSuccess "User deleted successfully")
    /\ db (snd r) = afterDeletion "bob" (db world0)
    /\ purged "bob" (db (snd r))
    /\ queries (snd r)
       = (queries world0 ++ FindUnique TUser "bob" :: deletionPlan "bob")%list.
Proof.
  apply (user_delete_is_all_or_nothing E0 (jsonRequest deleteBob) (JObject deleteBob)
           "bob" world0);
    [reflexivity | reflexivity | reflexivity | reflexivity
    | discriminate | discriminate | reflexivity | eexists; reflexivity].
Defined.

(** A failure of the fourth deletion leaves every table as it was. *)
Example user_delete_rolls_back :
  let r := UsersRoute.DELETE (env (faultAt 4) shellOk) (jsonRequest deleteBob) world0 in
  status (fst r) = 500
  /\ db (snd r) = store0
  /\ queries (snd r)
     = FindUnique TUser "bob" :: firstn 4 (deletionPlan "bob").
Proof. vm_compute. repeat split. Qed.

Lemma reset_runs_reset_then_seed_witness :
  let r := DatabaseResetRoute.POST E0 (jsonRequest resetConfirmed) world0 in
  let reset := ("npm run db:reset", 30000) in
  let seed := ("npm run db:seed", 30000) in
  match exec E0 "npm run db:reset" 30000 (tick world0) (db world0) with
  | (ExecFailed m out err, _) =>
      fst r = json_status
                (BExecError "Failed to reset database" m (Some out) (Some err)) 500
      /\ shell (snd r) = (shell world0 ++ [reset])%list
  | (ExecOk resetOutput _, s1) =>
      match exec E0 "npm run db:seed" 30000 (S (tick world0)) s1 with
      | (ExecFailed m out err, _) =>
          fst r = json_status
                    (BExecError "Failed to reset database" m (Some out) (Some err)) 500
          /\ shell (snd r) = (shell world0 ++ [reset; seed])%list
      | (ExecOk seedOutput _, _) =>
          fst r = json_status
                    (BResetDone "Database has been successfully reset and reseeded"
                       (trim resetOutput) (trim seedOutput)) 200
          /\ shell (snd r) = (shell world0 ++ [reset; seed])%list
      end
  end.
Proof.
  apply (reset_runs_reset_then_seed E0 (jsonRequest resetConfirmed)
           (JObject resetConfirmed) world0); reflexivity.
Defined.

(** When the reset command fails the seed command is not started. *)
Example reset_failure_stops_before_seed :
  let r := DatabaseResetRoute.POST (env noFault shellResetFails)
             (jsonRequest resetConfirmed) world0 in
  fst r = json_status
            (BExecError "Failed to reset database" "Command failed: npm run db:reset"
               (Some []) (Some (units "P1001"))) 500
  /\ shell (snd r) = [("npm run db:reset", 30000)].
Proof. vm_compute. split; reflexivity. Qed.

(** C4, where the code falls short: a permitted DELETE of an invite code
    that does not exist is answered 500, not 404. *)
Theorem codes_DELETE_missing_code_not_404 :
  checkUserPermission E0 (db world0) (JStr "root") "admin_panel" = Some true
  /\ inviteCodes (db world0) !! "nope" = None
  /\ fst (CodesRoute.DELETE E0 (jsonRequest deleteMissingCode) world0)
     = json_status (BError "Failed to delete code") 500.
Proof. vm_compute. repeat split. Qed.

Lemma toggle_flips_target_and_updatedAt_witness :
  exists row',
    fst (CodesRoute.PATCH E0 (jsonRequest toggleInvite) world0)
    = json (BInviteCode "inv1" row' None)
    /\ db (snd (CodesRoute.PATCH E0 (jsonRequest toggleInvite) world0))
       = with_inviteCodes (<["inv1" := row']> (inviteCodes (db world0))) (db world0)
    /\ invite_isUsed row' = negb (invite_isUsed (mkInvite "fimai-aaaa" "root"))
    /\ invite_updatedAt row' = clock E0 (S (tick world0))
    /\ invite_code row' = invite_code (mkInvite "fimai-aaaa" "root")
    /\ invite_createdBy row' = invite_createdBy (mkInvite "fimai-aaaa" "root")
    /\ invite_usedBy row' = invite_usedBy (mkInvite "fimai-aaaa" "root")
    /\ invite_usedAt row' = invite_usedAt (mkInvite "fimai-aaaa" "root")
    /\ invite_expiresAt row' = invite_expiresAt (mkInvite "fimai-aaaa" "root")
    /\ invite_maxUses row' = invite_maxUses (mkInvite "fimai-aaaa" "root")
    /\ invite_currentUses row' = invite_currentUses (mkInvite "fimai-aaaa" "root")
    /\ invite_createdAt row' = invite_createdAt (mkInvite "fimai-aaaa" "root").
Proof.
  apply (proj1 (toggle_flips_target_and_updatedAt E0 (jsonRequest toggleInvite)
                  (JObject toggleInvite) "inv1" world0
                  eq_refl eq_refl eq_refl eq_refl ltac:(discriminate) eq_refl
                  eq_refl eq_refl)
           eq_refl (mkInvite "fimai-aaaa" "root") eq_refl).
Defined.

(** C5 as the spec words it fails: the toggle also moves the row's
    [updatedAt] (from 1000 to the time of the update). *)
Lemma toggle_changes_updatedAt :
  checkUserPermission E0 (db world0) (JStr "root") "admin_panel" = Some true
  /\ status (fst (CodesRoute.PATCH E0 (jsonRequest toggleInvite) world0)) = 200
  /\ invite_updatedAt <$> inviteCodes (db world0) !! "inv1" = Some 1000
  /\ invite_updatedAt
       <$> inviteCodes (db (snd (CodesRoute.PATCH E0 (jsonRequest toggleInvite) world0)))
             !! "inv1"
     = Some 1700000000001
  /\ invite_updatedAt
       <$> inviteCodes (db (snd (CodesRoute.PATCH E0 (jsonRequest toggleInvite) world0)))
             !! "inv1"
     <> invite_updatedAt <$> inviteCodes (db world0) !! "inv1".
Proof.
  vm_compute. repeat split. discriminate.
Qed.

Lemma admin_cannot_ban_or_delete_self_witness :
  (prop "action" (JObject banSelf) = JStr "updateStatus" ->
   truthy (prop "isActive" (JObject banSelf)) = false ->
   status (fst (UsersRoute.PATCH E0 (jsonRequest banSelf) world0)) = 400
   /\ snd (UsersRoute.PATCH E0 (jsonRequest banSelf) world0) = world0)
  /\ (status (fst (UsersRoute.DELETE E0 (jsonRequest banSelf) world0)) = 400
      /\ snd (UsersRoute.DELETE E0 (jsonRequest banSelf) world0) = world0).
Proof.
  apply (admin_cannot_ban_or_delete_self E0 (jsonRequest banSelf) (JObject banSelf)
           world0); reflexivity.
Defined.

Example ban_self_answer :
  fst (UsersRoute.PATCH E0 (jsonRequest banSelf) world0)
  = json_status (BError "Cannot ban your own account") 400.
Proof. reflexivity. Qed.

Lemma reset_rejects_wrong_confirmation_witness :
  status (fst (DatabaseResetRoute.POST E0 (jsonRequest resetWrongText) world0)) = 400
  /\ shell (snd (DatabaseResetRoute.POST E0 (jsonRequest resetWrongText) world0))
     = shell world0
  /\ snd (DatabaseResetRoute.POST E0 (jsonRequest resetWrongText) world0) = world0.
Proof.
  apply (reset_rejects_wrong_confirmation E0 (jsonRequest resetWrongText)
           (JObject resetWrongText) world0);
    [reflexivity | reflexivity | reflexivity | discriminate].
Defined.

Lemma invite_maxUses_defaults_to_one_witness :
  exists row creator,
    fst (CodesRoute.POST E0 (jsonRequest inviteZeroUses) world0)
    = json (BInviteCode (cuid E0 (S (tick world0))) row creator)
    /\ invite_maxUses row = 1
    /\ inviteCodes (db (snd (CodesRoute.POST E0 (jsonRequest inviteZeroUses) world0)))
         !! cuid E0 (S (tick world0)) = Some row.
Proof.
  apply (proj1 (proj2 (invite_maxUses_defaults_to_one E0 (jsonRequest inviteZeroUses)
                         (JObject inviteZeroUses) world0 eq_refl eq_refl eq_refl eq_refl))
           "root" 1);
    [reflexivity | eexists; reflexivity | left; split; reflexivity | discriminate
    | reflexivity | reflexivity | reflexivity].
Defined.

(** C10 as the spec words it fails on a fraction: a request with
    [maxUses] 0.4, which is truthy, creates a code whose [maxUses] is 0,
    neither the request's value nor 1. *)
Lemma invite_maxUses_fraction_is_truncated :
  prop "maxUses" (JObject inviteFractionUses) = JNum (2 # 5)
  /\ truthy (JNum (2 # 5)) = true
  /\ exists row creator,
       fst (CodesRoute.POST E0 (jsonRequest inviteFractionUses) world0)
       = json (BInviteCode (cuid E0 1) row creator)
       /\ inviteCodes (db (snd (CodesRoute.POST E0 (jsonRequest inviteFractionUses)
                                  world0))) !! cuid E0 1 = Some row
       /\ invite_maxUses row = 0
       /\ strict_eq (JNum (inject_Z (invite_maxUses row))) (JNum (2 # 5)) = false
       /\ invite_maxUses row <> 1.
Proof.
  split; [reflexivity|]. split; [reflexivity|].
  eexists _, _. split; [vm_compute; reflexivity|].
  split; [vm_compute; reflexivity|].
  split; [reflexivity|]. split; [reflexivity|]. discriminate.
Qed.

(** An integer comes back as it was sent. *)
Example invite_seven_uses :
  exists id row creator,
    fst (CodesRoute.POST E0 (jsonRequest inviteSevenUses) world0)
    = json (BInviteCode id row creator)
    /\ invite_maxUses row = 7.
Proof. eexists _, _, _. split; [vm_compute; reflexivity|reflexivity]. Qed.

End Runs.

(** ** More on the chat layout *)

Section ChatLayoutFacts.
Import ChatLayout ChatView.

(** A title the editor may hand to [onChatTitleChange]. *)
Lemma saved_title_shape (s : ustring) :
  nonEmpty (slice 0 8 (trim s)) = true ->
  slice 0 8 (trim s) <> []
  /\ (length (slice 0 8 (trim s)) <= 8)%nat
  /\ exists c r, slice 0 8 (trim s) = c :: r /\ isWhiteSpace c = false.
Proof.
  intros Hne. split; [|split; [apply length_slice_le|]].
  - intros Heq. rewrite Heq in Hne. discriminate.
  - destruct (slice 0 8 (trim s)) as [|c r] eqn:Hs; [discriminate|].
    exists c, r. split; [reflexivity|].
    unfold slice in Hs. simpl in Hs.
    destruct (trim s) as [|c' t] eqn:Ht; [discriminate|].
    injection Hs as <- _. exact (trim_head s c' t Ht).
Qed.

Lemma step_titleChanges (p : Props) (st : State) (ev : Event) :
  titleChanges (step p st ev) = titleChanges st
  \/ (saves ev = true /\ isEditingTitle st = true /\ hasOnChatTitleChange p = true
      /\ nonEmpty (slice 0 8 (trim (editableTitle st))) = true
      /\ titleChanges (step p st ev)
         = (titleChanges st ++ [slice 0 8 (trim (editableTitle st))])%list).
Proof.
  unfold step. destruct (messagesLength p =? 0)%nat; [left; reflexivity|].
  destruct ev, (isEditingTitle st) eqn:He; try (left; reflexivity).
  - unfold handleTitleSave; simpl.
    destruct (hasOnChatTitleChange p), (nonEmpty _) eqn:Hn; simpl; auto.
    right. auto.
  - unfold handleTitleKeyPress. simpl.
    destruct (String.eqb key "Enter") eqn:Hk; [|left; reflexivity].
    unfold handleTitleSave; simpl.
    destruct (hasOnChatTitleChange p), (nonEmpty _) eqn:Hn; simpl; auto.
    right. auto.
Qed.

(** X1: whatever the user does in the title box, every title handed to
    [onChatTitleChange] is non-empty, at most 8 UTF-16 code units long and
    does not begin with white space (any of the characters [trim] strips);
    without the callback nothing is handed over. *)
Theorem saved_titles_always_well_formed (p : Props) (events : list Event) :
  let st := fold_left (step p) events (initial p) in
  Forall (fun t => t <> []
                   /\ (length t <= 8)%nat
                   /\ exists c r, t = c :: r /\ isWhiteSpace c = false)
         (titleChanges st)
  /\ (hasOnChatTitleChange p = false -> titleChanges st = []).
Proof.
  cbv zeta.
  assert (Hgen : forall st0,
             Forall (fun t => t <> [] /\ (length t <= 8)%nat
                              /\ exists c r, t = c :: r /\ isWhiteSpace c = false)
                    (titleChanges st0)
             /\ (hasOnChatTitleChange p = false -> titleChanges st0 = []) ->
             Forall (fun t => t <> [] /\ (length t <= 8)%nat
                              /\ exists c r, t = c :: r /\ isWhiteSpace c = false)
                    (titleChanges (fold_left (step p) events st0))
             /\ (hasOnChatTitleChange p = false ->
                 titleChanges (fold_left (step p) events st0) = [])).
  { induction events as [|ev events IH]; intros st0 Hst0; [exact Hst0|].
    simpl. apply IH.
    destruct (step_titleChanges p st0 ev) as [Heq|(_ & _ & Hcb & Hne & Heq)];
      rewrite Heq.
    - exact Hst0.
    - split.
      + apply Forall_app. split; [exact (proj1 Hst0)|].
        constructor; [|constructor]. apply saved_title_shape. exact Hne.
      + intros Hno. rewrite Hno in Hcb. discriminate. }
  apply Hgen. simpl. split; [constructor|reflexivity].
Qed.

End ChatLayoutFacts.

Section ModelMenuFacts.
Import ChatView.

Lemma addModel_lookup (acc next : gmap string (list MenuEntry)) (m : ModelOption)
    (g : string) :
  addModel acc m = Some next ->
  next !! g
  = if decide (groupNameOf m = g)
    then Some (default [] (acc !! g) ++ [entryOf m])%list
    else acc !! g.
Proof.
  unfold addModel. intros H.
  destruct (acc !! groupNameOf m) as [group|] eqn:Hg.
  - injection H as <-. destruct (decide (groupNameOf m = g)) as [<-|Hne].
    + rewrite lookup_insert_eq, Hg. reflexivity.
    + rewrite lookup_insert_ne by exact Hne. reflexivity.
  - destruct (inherited (groupNameOf m)); [discriminate|].
    injection H as <-. destruct (decide (groupNameOf m = g)) as [<-|Hne].
    + rewrite lookup_insert_eq, Hg. reflexivity.
    + rewrite lookup_insert_ne by exact Hne. reflexivity.
Qed.

Lemma groupModels_lookup (models : list ModelOption)
    (acc byGroup : gmap string (list MenuEntry)) (g : string) :
  groupModels models acc = Some byGroup ->
  byGroup !! g
  = match acc !! g, entryOf <$> filter (λ m, groupNameOf m = g) models with
    | None, [] => None
    | None, l => Some l
    | Some group, l => Some (group ++ l)%list
    end.
Proof.
  revert acc. induction models as [|m models IH]; intros acc H; simpl in H.
  - injection H as <-. simpl. destruct (acc !! g); [rewrite app_nil_r|]; reflexivity.
  - destruct (addModel acc m) as [next|] eqn:Hadd; [|discriminate].
    rewrite (IH next H), (addModel_lookup acc next m g Hadd).
    rewrite filter_cons. destruct (decide (groupNameOf m = g)) as [Heq|Hne].
    + simpl. destruct (acc !! g); simpl; rewrite <- ?app_assoc; reflexivity.
    + reflexivity.
Qed.

Lemma groupModels_from_empty (models : list ModelOption)
    (modelsByGroup : gmap string (list MenuEntry)) (g : string) :
  groupModels models ∅ = Some modelsByGroup ->
  modelsByGroup !! g
  = match filter (λ m, groupNameOf m = g) models with
    | [] => None
    | l => Some (entryOf <$> l)
    end.
Proof.
  intros H. rewrite (groupModels_lookup models ∅ modelsByGroup g H), lookup_empty.
  destruct (filter _ models); reflexivity.
Qed.

(** X2: [getGroupedModels]: under each group name the grouping stores exactly
    the models whose [group] (or '其他' when they have none, or an empty
    one) is that name, in the order of [models]; a name no model has gets
    nothing, never an empty list. *)
Theorem grouping_collects_by_group (models : list ModelOption)
    (modelsByGroup : gmap string (list MenuEntry)) (g : string) :
  groupModels models ∅ = Some modelsByGroup ->
  modelsByGroup !! g
  = match filter (λ m, groupNameOf m = g) models with
    | [] => None
    | l => Some (entryOf <$> l)
    end.
Proof.
  intros H. rewrite (groupModels_lookup models ∅ modelsByGroup g H), lookup_empty.
  destruct (filter (λ m, groupNameOf m = g) models) as [|m l]; reflexivity.
Qed.

Lemma groupModels_own_keys (models : list ModelOption)
    (acc byGroup : gmap string (list MenuEntry)) :
  groupModels models acc = Some byGroup ->
  (forall k, is_Some (acc !! k) -> inherited k = false) ->
  Forall (λ m, inherited (groupNameOf m) = false) models.
Proof.
  revert acc. induction models as [|m models IH]; intros acc H Hacc; [constructor|].
  simpl in H. destruct (addModel acc m) as [next|] eqn:Hadd; [|discriminate].
  assert (Hm : inherited (groupNameOf m) = false).
  { unfold addModel in Hadd. destruct (acc !! groupNameOf m) eqn:Hg.
    - apply Hacc. rewrite Hg. eauto.
    - destruct (inherited (groupNameOf m)); [discriminate|reflexivity]. }
  constructor; [exact Hm|]. apply (IH next H).
  intros k [l Hk]. rewrite (addModel_lookup acc next m k Hadd) in Hk.
  destruct (decide (groupNameOf m = k)) as [<-|_]; [exact Hm|].
  apply Hacc. rewrite Hk. eauto.
Qed.

Lemma groupModels_none (models : list ModelOption)
    (acc : gmap string (list MenuEntry)) :
  groupModels models acc = None ->
  Exists (λ m, inherited (groupNameOf m) = true) models.
Proof.
  revert acc. induction models as [|m models IH]; intros acc H; simpl in H;
    [discriminate|].
  destruct (addModel acc m) as [next|] eqn:Hadd.
  - apply Exists_cons_tl. exact (IH next H).
  - apply Exists_cons_hd. unfold addModel in Hadd.
    destruct (acc !! groupNameOf m); [discriminate|].
    destruct (inherited (groupNameOf m)); [reflexivity|discriminate].
Qed.

(** X3: the grouping throws (a TypeError, so the layout does not render)
    exactly when some model's group is named like a property every object
    inherits, such as "constructor" or "toString". *)
Theorem grouping_throws_on_inherited_name
    (sort : gmap string (list MenuEntry) -> list (string * Z) -> list string)
    (models : list ModelOption) (modelGroups : list (string * Z)) :
  getGroupedModels sort models modelGroups = None
  <-> Exists (λ m, inherited (groupNameOf m) = true) models.
Proof.
  unfold getGroupedModels. split.
  - intros H. destruct (groupModels models ∅) as [byGroup|] eqn:Hg; [discriminate|].
    exact (groupModels_none models ∅ Hg).
  - intros Hex. destruct (groupModels models ∅) as [byGroup|] eqn:Hg; [|reflexivity].
    exfalso.
    pose proof (groupModels_own_keys models ∅ byGroup Hg) as Hown.
    assert (Hall : Forall (λ m, inherited (groupNameOf m) = false) models).
    { apply Hown. intros k [l Hk]. rewrite lookup_empty in Hk. discriminate. }
    apply Exists_exists in Hex. destruct Hex as (m & Hin & Hm).
    rewrite Forall_forall in Hall. rewrite (Hall m Hin) in Hm. discriminate.
Qed.

Lemma concat_filter_groups {A} (f : A -> string) (names : list string) (l : list A) :
  NoDup names ->
  Forall (λ x, f x ∈ names) l ->
  concat ((λ g, filter (λ x, f x = g) l) <$> names) ≡ₚ l.
Proof.
  intros Hnd. induction l as [|x l IH]; intros Hall.
  - clear Hnd Hall. induction names as [|g names IHn]; simpl; [reflexivity|exact IHn].
  - inversion Hall as [|? ? Hx Hrest]; subst. specialize (IH Hrest).
    transitivity (x :: concat ((λ g, filter (λ y, f y = g) l) <$> names));
      [|apply Permutation_skip; exact IH].
    clear IH Hall Hrest.
    induction names as [|g names IHn]; [inversion Hx|].
    inversion Hnd as [|? ? Hnotin Hnd']; subst.
    rewrite !fmap_cons. cbn [concat]. rewrite filter_cons.
    destruct (decide (f x = g)) as [Heq|Hne].
    + cbn [app]. apply Permutation_skip. apply Permutation_app_head.
      assert (Hsame : (λ g0, filter (λ y, f y = g0) (x :: l)) <$> names
                      = (λ g0, filter (λ y, f y = g0) l) <$> names).
      { apply map_ext_in. intros g0 Hin. rewrite filter_cons.
        destruct (decide (f x = g0)) as [Heq0|_]; [|reflexivity].
        exfalso. apply Hnotin. rewrite <- Heq, Heq0. apply list_elem_of_In. exact Hin. }
      rewrite Hsame. reflexivity.
    + assert (Hx' : f x ∈ names).
      { apply elem_of_cons in Hx. destruct Hx as [Hx|Hx]; [contradiction|exact Hx]. }
      rewrite (IHn Hnd' Hx').
      symmetry. apply Permutation_middle.
Qed.

Lemma fmap_concat_list {A B} (f : A -> B) (ls : list (list A)) :
  f <$> concat ls = concat ((λ l : list A, f <$> l) <$> ls).
Proof.
  induction ls as [|l ls IH]; [reflexivity|].
  cbn [concat]. rewrite fmap_app, IH. reflexivity.
Qed.

(** X4: when the sorter returns each group name once and no other name, the
    menu shows every model exactly once. *)
Theorem menu_shows_every_model_once
    (sort : gmap string (list MenuEntry) -> list (string * Z) -> list string)
    (models : list ModelOption) (modelGroups : list (string * Z))
    (modelsByGroup : gmap string (list MenuEntry))
    (menu : list (string * option (list MenuEntry))) :
  groupModels models ∅ = Some modelsByGroup ->
  NoDup (sort modelsByGroup modelGroups) ->
  (forall g, g ∈ sort modelsByGroup modelGroups <-> is_Some (modelsByGroup !! g)) ->
  getGroupedModels sort models modelGroups = Some menu ->
  concat ((λ item, default [] item.2) <$> menu) ≡ₚ entryOf <$> models.
Proof.
  intros Hg Hnd Hkeys Hmenu. unfold getGroupedModels in Hmenu.
  rewrite Hg in Hmenu. injection Hmenu as <-.
  rewrite <- list_fmap_compose.
  assert (Hall : Forall (λ m, groupNameOf m ∈ sort modelsByGroup modelGroups) models).
  { apply Forall_forall. intros m Hm. apply Hkeys.
    rewrite (groupModels_from_empty models modelsByGroup _ Hg).
    destruct (filter (λ m0, groupNameOf m0 = groupNameOf m) models) as [|y l] eqn:Hf;
      [|eauto].
    exfalso. assert (Hin : m ∈ filter (λ m0, groupNameOf m0 = groupNameOf m) models).
    { apply list_elem_of_filter. split; [reflexivity|exact Hm]. }
    rewrite Hf in Hin. inversion Hin. }
  transitivity (entryOf <$> concat ((λ g, filter (λ m, groupNameOf m = g) models)
                                     <$> sort modelsByGroup modelGroups));
    [|apply fmap_Permutation; exact (concat_filter_groups groupNameOf _ models Hnd Hall)].
  rewrite fmap_concat_list, <- list_fmap_compose.
  apply reflexive_eq. f_equal.
  apply list_fmap_ext. intros i g _. simpl.
  rewrite (groupModels_from_empty models modelsByGroup g Hg).
  destruct (filter _ models); reflexivity.
Qed.

(** X5: labels fall back to a fixed text: none of them is ever empty (the
    sender line of a user's own message is [userName] as given). *)
Theorem labels_never_empty (title : string) (modelName modelInfoName : option string)
    (userName : option string) (role : string) :
  historyLabel title <> ""
  /\ headerTitle title <> ""
  /\ modelButtonLabel modelName <> ""
  /\ (role <> "user" -> senderLabel userName modelName role modelInfoName <> "").
Proof.
  assert (Hor : forall s d, d <> "" -> orDefault s d <> "").
  { intros [t|] d Hd; simpl; [|exact Hd].
    destruct (String.eqb_spec t ""); [exact Hd|assumption]. }
  repeat split; try (apply Hor; discriminate).
  intros Hrole. unfold senderLabel.
  destruct (String.eqb_spec role "user"); [contradiction|].
  apply Hor. apply Hor. discriminate.
Qed.

Lemma trimStart_empty (s : ustring) :
  trimStart s = [] <-> Forall (λ c, isWhiteSpace c = true) s.
Proof.
  induction s as [|c s IH]; simpl.
  - split; [constructor|reflexivity].
  - destruct (isWhiteSpace c) eqn:Hc.
    + rewrite IH. split; [intros H; constructor; assumption|].
      intros H. inversion H; assumption.
    + split; [discriminate|]. intros H. inversion H; congruence.
Qed.

Lemma trimEnd_empty (s : ustring) :
  trimEnd s = [] <-> Forall (λ c, isWhiteSpace c = true) s.
Proof.
  induction s as [|c s IH]; simpl.
  - split; [constructor|reflexivity].
  - destruct (trimEnd s) eqn:Ht.
    + destruct (isWhiteSpace c) eqn:Hc.
      * split; [intros _; constructor; [exact Hc|apply IH; reflexivity]|reflexivity].
      * split; [discriminate|]. intros H. inversion H; congruence.
    + split; [discriminate|]. intros H. inversion H as [|? ? _ Hrest]; subst.
      apply IH in Hrest. discriminate.
Qed.

Lemma trimStart_suffix_blank (s : ustring) :
  Forall (λ c, isWhiteSpace c = true) (trimStart s) ->
  Forall (λ c, isWhiteSpace c = true) s.
Proof.
  induction s as [|c s IH]; simpl; [auto|].
  destruct (isWhiteSpace c) eqn:Hc; [|auto].
  intros H. constructor; [exact Hc|apply IH; exact H].
Qed.

Lemma trim_empty (s : ustring) :
  trim s = [] <-> Forall (λ c, isWhiteSpace c = true) s.
Proof.
  unfold trim. rewrite trimEnd_empty. split.
  - apply trimStart_suffix_blank.
  - intros H. apply trimStart_empty in H. rewrite H. constructor.
Qed.

(** X6: the send button is disabled exactly while a reply is loading or the
    input holds nothing but white space, any of the characters [trim]
    strips (or nothing at all). *)
Theorem send_disabled_iff_loading_or_blank (isLoading : bool) (input : ustring) :
  sendDisabled isLoading input = true
  <-> isLoading = true \/ Forall (λ c, isWhiteSpace c = true) input.
Proof.
  unfold sendDisabled. rewrite <- trim_empty.
  destruct isLoading; simpl; [split; auto|].
  destruct (trim input); simpl; split; auto; try discriminate.
  all: intros [H|H]; discriminate.
Qed.

(** An input of one ideographic space, or of a line break and a byte order
    mark, keeps the button disabled; one Chinese character enables it. *)
Example send_button_examples :
  sendDisabled false [0x3000]%N = true
  /\ sendDisabled false [0x2028; 0xFEFF; 0x20]%N = true
  /\ sendDisabled false [0x4F60]%N = false
  /\ sendDisabled true [0x4F60]%N = true.
Proof. repeat split. Qed.

End ModelMenuFacts.

(** ** More on the admin routes *)

Ltac unfold_routes :=
  unfold AdminApi.serve, UsersRoute.GET, UsersRoute.POST, UsersRoute.PATCH,
    UsersRoute.DELETE, CodesRoute.GET, CodesRoute.POST, CodesRoute.PATCH,
    CodesRoute.DELETE, DatabaseResetRoute.GET, DatabaseResetRoute.POST.

Ltac case_truthy :=
  repeat match goal with
         | |- context [truthy ?v] => destruct (truthy v) eqn:?; simpl
         end.

Section BeforeTheCheck.
Context (E : Env).
Import AdminApi.

Lemma parameters_of_body (ep : Endpoint) (request : Request) (p : string -> jsval) :
  parameters ep request = Some p ->
  match ep with
  | UsersGET | CodesGET | DatabaseResetGET => p = fun k => param (get k request)
  | _ => exists data, request_json request = ret data /\ p = fun k => prop k data
  end.
Proof.
  unfold parameters, request_json.
  destruct ep; try (intros [= <-]; reflexivity);
    (destruct (jsonBody request) as [data|]; [|discriminate]);
    destruct data; simpl; try discriminate;
    intros [= <-]; eexists; split; reflexivity.
Qed.

(** X7: a POST, PATCH or DELETE whose body is not JSON, or is the document
    [null], is answered 500 by the handler's catch-all; nothing is asked of
    the permission check, the database or the shell. *)
Theorem unreadable_body_is_500 (ep : Endpoint) (request : Request) (w : World) :
  parameters ep request = None ->
  status (fst (serve E ep request w)) = 500
  /\ snd (serve E ep request w) = w.
Proof.
  unfold parameters. intros H.
  destruct ep; try discriminate;
    unfold_routes; unfold request_json;
    (destruct (jsonBody request) as [[]|]; try discriminate);
    handler_step; auto.
Qed.

(** X8: validation comes first: a request that lacks a parameter the endpoint
    requires is answered 400 whoever sends it; the permission check is not
    consulted and nothing changes. *)
Theorem missing_parameter_is_400 (ep : Endpoint) (request : Request) (w : World) :
  is_Some (parameters ep request) ->
  wellFormed ep request = false ->
  status (fst (serve E ep request w)) = 400
  /\ snd (serve E ep request w) = w.
Proof.
  intros [p Hp] Hwf. unfold wellFormed in Hwf. rewrite Hp in Hwf.
  pose proof (parameters_of_body ep request p Hp) as Hbody.
  destruct ep; simpl in Hbody, Hwf;
    try (destruct Hbody as (data & Hjson & ->)); try subst p;
    unfold_routes; try rewrite Hjson; try rewrite bind_ret; cbv beta zeta;
    handler_step; revert Hwf; case_truthy; intros Hwf; try discriminate; auto.
Qed.

(** X9: when the permission check itself fails (its promise rejects), a request
    that passed validation is answered 500 and nothing changes. *)
Theorem failed_permission_check_is_500 (ep : Endpoint) (request : Request)
    (a : jsval) (w : World) :
  caller ep request = Some a ->
  wellFormed ep request = true ->
  checkUserPermission E (db w) a "admin_panel" = None ->
  status (fst (serve E ep request w)) = 500
  /\ snd (serve E ep request w) = w.
Proof.
  intros Hcaller Hwf Hperm. unfold caller in Hcaller.
  destruct (parameters ep request) as [p|] eqn:Hp; [|discriminate].
  injection Hcaller as <-.
  unfold wellFormed in Hwf. rewrite Hp in Hwf.
  pose proof (parameters_of_body ep request p Hp) as Hbody.
  destruct ep; simpl in Hbody, Hwf;
    try (destruct Hbody as (data & Hjson & ->)); try subst p;
    unfold_routes; try rewrite Hjson; try rewrite bind_ret; cbv beta zeta;
    handler_step; revert Hwf; case_truthy; intros Hwf; try discriminate;
    rewrite Hperm; simpl; auto.
Qed.

End BeforeTheCheck.

Lemma truthy_str (s : string) : s <> "" -> truthy (JStr s) = true.
Proof.
  intros H. simpl. destruct (String.eqb_spec s ""); [contradiction|reflexivity].
Qed.

Section CodesFacts.
Context (E : Env).
Import AdminApi.

(** X10: a [type] other than 'invite' and 'access' is answered 400 by the codes
    POST, DELETE and PATCH, and nothing changes. *)
Theorem unknown_code_type_is_400 (ep : Endpoint) (request : Request) (data : jsval)
    (w : World) :
  ep = CodesPOST \/ ep = CodesDELETE \/ ep = CodesPATCH ->
  jsonBody request = Some data ->
  wellFormed ep request = true ->
  checkUserPermission E (db w) (prop "adminUserId" data) "admin_panel" = Some true ->
  prop "type" data <> JStr "invite" ->
  prop "type" data <> JStr "access" ->
  fst (serve E ep request w) = json_status (BError "Invalid type parameter") 400
  /\ snd (serve E ep request w) = w.
Proof.
  intros Hep Hbody Hwf Hperm Hinv Hacc.
  unfold wellFormed, parameters in Hwf.
  assert (Hjson : request_json request = ret data /\
                  forallb (fun k => truthy (prop k data)) (requiredFirst ep) = true).
  { destruct Hep as [ -> | [ -> | -> ] ]; rewrite Hbody in Hwf;
      destruct data; try discriminate; unfold request_json; rewrite Hbody; auto. }
  destruct Hjson as [Hjson Hreq].
  destruct Hep as [ -> | [ -> | -> ] ]; simpl in Hreq;
    unfold_routes; rewrite Hjson, bind_ret; cbv beta zeta; handler_step;
    revert Hreq; case_truthy; intros Hreq; try discriminate;
    rewrite Hperm; simpl;
    rewrite (strict_eq_str_false _ _ Hinv), (strict_eq_str_false _ _ Hacc); simpl; auto.
Qed.

(** X11: an [action] the route does not know is answered 400 and nothing
    changes: for users anything but updateStatus, updateAccessCodePermission
    and updatePermissions, for codes anything but toggle. *)
Theorem unknown_action_is_400 (request : Request) (data : jsval) (w : World) :
  jsonBody request = Some data ->
  checkUserPermission E (db w) (prop "adminUserId" data) "admin_panel" = Some true ->
  (wellFormed UsersPATCH request = true ->
   prop "action" data <> JStr "updateStatus" ->
   prop "action" data <> JStr "updateAccessCodePermission" ->
   prop "action" data <> JStr "updatePermissions" ->
   fst (UsersRoute.PATCH E request w) = json_status (BError "Invalid action") 400
   /\ snd (UsersRoute.PATCH E request w) = w)
  /\ (wellFormed CodesPATCH request = true ->
      prop "type" data = JStr "invite" \/ prop "type" data = JStr "access" ->
      prop "action" data <> JStr "toggle" ->
      status (fst (CodesRoute.PATCH E request w)) = 400
      /\ snd (CodesRoute.PATCH E request w) = w).
Proof.
  intros Hbody Hperm. split.
  - intros Hwf H1 H2 H3. unfold wellFormed, parameters in Hwf. rewrite Hbody in Hwf.
    assert (Hjson : request_json request = ret data).
    { destruct data; try discriminate; unfold request_json; rewrite Hbody; auto. }
    assert (Hreq : forallb (fun k => truthy (prop k data)) (requiredFirst UsersPATCH) = true).
    { destruct data; try discriminate; exact Hwf. }
    simpl in Hreq. unfold UsersRoute.PATCH.
    rewrite Hjson, bind_ret; cbv beta zeta; handler_step.
    revert Hreq; case_truthy; intros Hreq; try discriminate.
    all: rewrite Hperm; simpl.
    all: rewrite (strict_eq_str_false _ _ H1), (strict_eq_str_false _ _ H2),
      (strict_eq_str_false _ _ H3); simpl; auto.
  - intros Hwf Htype Haction. unfold wellFormed, parameters in Hwf. rewrite Hbody in Hwf.
    assert (Hjson : request_json request = ret data).
    { destruct data; try discriminate; unfold request_json; rewrite Hbody; auto. }
    assert (Hreq : forallb (fun k => truthy (prop k data)) (requiredFirst CodesPATCH) = true).
    { destruct data; try discriminate; exact Hwf. }
    simpl in Hreq. unfold CodesRoute.PATCH.
    rewrite Hjson, bind_ret; cbv beta zeta; handler_step.
    revert Hreq; case_truthy; intros Hreq; try discriminate.
    all: rewrite Hperm; simpl.
    all: rewrite (strict_eq_str_false _ _ Haction).
    all: destruct Htype as [ -> | -> ]; simpl; auto.
Qed.

(** X12: a permitted DELETE of a code that exists removes that row and nothing
    else: the other codes and every other table are as before. *)
Theorem code_delete_removes_only_that_code (request : Request) (data : jsval)
    (codeId : string) (w : World) :
  jsonBody request = Some data ->
  truthy (prop "adminUserId" data) = true ->
  checkUserPermission E (db w) (prop "adminUserId" data) "admin_panel" = Some true ->
  prop "codeId" data = JStr codeId ->
  codeId <> "" ->
  dbFault E (tick w) = false ->
  let r := CodesRoute.DELETE E request w in
  (prop "type" data = JStr "invite" -> is_Some (inviteCodes (db w) !! codeId) ->
   fst r = json (BSuccess "Code deleted successfully")
   /\ db (snd r) = with_inviteCodes (delete codeId (inviteCodes (db w))) (db w)
   /\ inviteCodes (db (snd r)) !! codeId = None
   /\ forall k, k <> codeId -> inviteCodes (db (snd r)) !! k = inviteCodes (db w) !! k)
  /\ (prop "type" data = JStr "access" -> is_Some (accessCodes (db w) !! codeId) ->
      fst r = json (BSuccess "Code deleted successfully")
      /\ db (snd r) = with_accessCodes (delete codeId (accessCodes (db w))) (db w)
      /\ accessCodes (db (snd r)) !! codeId = None
      /\ forall k, k <> codeId -> accessCodes (db (snd r)) !! k = accessCodes (db w) !! k).
Proof.
  intros Hbody Hadmin Hperm Hcode Hne Hf r. subst r.
  unfold CodesRoute.DELETE.
  rewrite (request_json_object _ _ _ Hbody Hadmin), bind_ret. cbv beta zeta.
  handler_step. rewrite Hadmin, Hcode, (truthy_str _ Hne). simpl.
  split; intros Htype [row Hrow]; rewrite Htype; simpl; rewrite Hperm; simpl.
  - unfold inviteCode_delete, delete_row, lift_arg, round_trip; handler_step.
    rewrite Hf, Hrow. simpl. repeat split.
    + apply lookup_delete_eq.
    + intros k Hk. apply lookup_delete_ne. congruence.
  - unfold accessCode_delete, delete_row, lift_arg, round_trip; handler_step.
    rewrite Hf, Hrow. simpl. repeat split.
    + apply lookup_delete_eq.
    + intros k Hk. apply lookup_delete_ne. congruence.
Qed.

(** X13: the codes GET and the database-reset GET only read: whatever the
    request and whoever sends it, the database and the shell are untouched
    (the reset GET does not even query). *)
Theorem get_routes_only_read (request : Request) (w : World) :
  db (snd (CodesRoute.GET E request w)) = db w
  /\ shell (snd (CodesRoute.GET E request w)) = shell w
  /\ snd (DatabaseResetRoute.GET E request w) = w.
Proof.
  unfold CodesRoute.GET, DatabaseResetRoute.GET, round_trip. handler_step.
  case_truthy; auto.
  all: destruct (checkUserPermission E (db w) _ _) as [[]|]; simpl; auto.
  all: repeat match goal with
              | |- context [String.eqb ?a ?b] => destruct (String.eqb a b); simpl
              | |- context [dbFault E ?n] => destruct (dbFault E n); simpl
              | |- context [inviteCode_findMany E ?a ?b ?c] =>
                  destruct (inviteCode_findMany E a b c); simpl
              | |- context [accessCode_findMany E ?a ?b ?c] =>
                  destruct (accessCode_findMany E a b c); simpl
              end; auto.
Qed.

End CodesFacts.

Section AllOrNothing.
Context (E : Env).

Ltac split_all :=
  repeat (simpl;
          match goal with
          | |- context [match jsonBody ?r with _ => _ end] => destruct (jsonBody r) as [[]|]
          | |- context [truthy ?v] => destruct (truthy v) eqn:?
          | |- context [checkUserPermission E ?s ?a ?t] =>
              destruct (checkUserPermission E s a t) as [[]|]
          | |- context [strict_eq ?a ?b] => destruct (strict_eq a b) eqn:?
          | |- context [as_int ?v] => destruct (as_int v)
          | |- context [as_string ?v] => destruct (as_string v)
          | |- context [CodesRoute.expiry E ?v] => destruct (CodesRoute.expiry E v) as [[]|]
          | |- context [dbFault E ?n] => destruct (dbFault E n)
          | |- context [bool_decide ?P] => destruct (bool_decide P)
          | |- context [@lookup _ _ _ _ ?k ?m] => destruct (@lookup _ _ _ _ k m)
          end).

(** X14: the codes routes never leave a half-done change behind: unless the
    answer is 200 the database is exactly as it was, whatever the request. *)
Theorem codes_routes_change_only_on_success (request : Request) (w : World) :
  (status (fst (CodesRoute.POST E request w)) <> 200 ->
   db (snd (CodesRoute.POST E request w)) = db w)
  /\ (status (fst (CodesRoute.PATCH E request w)) <> 200 ->
      db (snd (CodesRoute.PATCH E request w)) = db w)
  /\ (status (fst (CodesRoute.DELETE E request w)) <> 200 ->
      db (snd (CodesRoute.DELETE E request w)) = db w).
Proof.
  repeat split.
  - unfold CodesRoute.POST, request_json, inviteCode_create, accessCode_create,
      lift_arg, round_trip, next_tick, or_else.
    handler_step. split_all; simpl; try reflexivity; intros H; try reflexivity;
      exfalso; apply H; reflexivity.
  - unfold CodesRoute.PATCH, request_json, inviteCode_findUnique, accessCode_findUnique,
      findUnique, inviteCode_update, accessCode_update, lift_arg, round_trip.
    handler_step. split_all; simpl; try reflexivity; intros H; try reflexivity;
      exfalso; apply H; reflexivity.
  - unfold CodesRoute.DELETE, request_json, inviteCode_delete, accessCode_delete,
      delete_row, lift_arg, round_trip.
    handler_step. split_all; simpl; try reflexivity; intros H; try reflexivity;
      exfalso; apply H; reflexivity.
Qed.

End AllOrNothing.

Section DeletionEffect.
Import AdminApi Integrity.

(** *** What each deletion does to the messages, conversations and usage rows *)

Lemma messages_deleteUserRow (uid : string) (s : Store) :
  messages (deleteUserRow uid s)
  = filter (λ kv, msg_userId kv.2 ≠ uid)
      (filter (λ kv, conversationOf s uid (msg_conversationId kv.2) = false) (messages s)).
Proof. reflexivity. Qed.

Lemma messages_deleteAccessCodesBy (uid : string) (s : Store) :
  messages (deleteAccessCodesBy uid s) = messages s.
Proof. reflexivity. Qed.

Lemma messages_deleteInviteCodesBy (uid : string) (s : Store) :
  messages (deleteInviteCodesBy uid s) = messages s.
Proof. reflexivity. Qed.

Lemma messages_deletePermissionsOf (uid : string) (s : Store) :
  messages (deletePermissionsOf uid s) = messages s.
Proof. reflexivity. Qed.

Lemma messages_deleteTokenUsageOf (uid : string) (s : Store) :
  messages (deleteTokenUsageOf uid s) = messages s.
Proof. reflexivity. Qed.

Lemma messages_deleteConversationsOf (uid : string) (s : Store) :
  messages (deleteConversationsOf uid s)
  = filter (λ kv, conversationOf s uid (msg_conversationId kv.2) = false) (messages s).
Proof. reflexivity. Qed.

Lemma messages_deleteMessagesOf (uid : string) (s : Store) :
  messages (deleteMessagesOf uid s) = filter (λ kv, msg_userId kv.2 ≠ uid) (messages s).
Proof. reflexivity. Qed.

Lemma tokenUsage_deleteUserRow (uid : string) (s : Store) :
  tokenUsage (deleteUserRow uid s)
  = filter (λ kv, usage_userId kv.2 ≠ uid) (detachUsage s uid <$> tokenUsage s).
Proof. reflexivity. Qed.

Lemma tokenUsage_deleteAccessCodesBy (uid : string) (s : Store) :
  tokenUsage (deleteAccessCodesBy uid s) = tokenUsage s.
Proof. reflexivity. Qed.

Lemma tokenUsage_deleteInviteCodesBy (uid : string) (s : Store) :
  tokenUsage (deleteInviteCodesBy uid s) = tokenUsage s.
Proof. reflexivity. Qed.

Lemma tokenUsage_deletePermissionsOf (uid : string) (s : Store) :
  tokenUsage (deletePermissionsOf uid s) = tokenUsage s.
Proof. reflexivity. Qed.

Lemma tokenUsage_deleteTokenUsageOf (uid : string) (s : Store) :
  tokenUsage (deleteTokenUsageOf uid s)
  = filter (λ kv, usage_userId kv.2 ≠ uid) (tokenUsage s).
Proof. reflexivity. Qed.

Lemma tokenUsage_deleteConversationsOf (uid : string) (s : Store) :
  tokenUsage (deleteConversationsOf uid s) = detachUsage s uid <$> tokenUsage s.
Proof. reflexivity. Qed.

Lemma tokenUsage_deleteMessagesOf (uid : string) (s : Store) :
  tokenUsage (deleteMessagesOf uid s) = tokenUsage s.
Proof. reflexivity. Qed.

Lemma conversations_before_last_delete (uid : string) (s : Store) :
  conversations (deleteAccessCodesBy uid
                   (deleteInviteCodesBy uid
                      (deletePermissionsOf uid
                         (deleteTokenUsageOf uid
                            (deleteConversationsOf uid (deleteMessagesOf uid s))))))
  = filter (λ kv, conv_userId kv.2 ≠ uid) (conversations s).
Proof. reflexivity. Qed.

Lemma conversationOf_filtered (s : Store) (uid cid : string)
    (convs : gmap string Conversation) :
  conversations s = filter (λ kv, conv_userId kv.2 ≠ uid) convs ->
  conversationOf s uid cid = false.
Proof.
  unfold conversationOf. intros ->.
  destruct (filter _ convs !! cid) as [c|] eqn:Hc; [|reflexivity].
  apply map_lookup_filter_Some in Hc. destruct Hc as [_ Hc]. cbn [snd] in Hc.
  apply bool_decide_eq_false. exact Hc.
Qed.

Lemma conversationOf_deleteMessagesOf (uid cid : string) (s : Store) :
  conversationOf (deleteMessagesOf uid s) uid cid = conversationOf s uid cid.
Proof. reflexivity. Qed.

Lemma detachUsage_deleteMessagesOf (uid : string) (s : Store) (u : TokenUsage) :
  detachUsage (deleteMessagesOf uid s) uid u = detachUsage s uid u.
Proof. reflexivity. Qed.

Lemma detachUsage_owner (s : Store) (uid : string) (u : TokenUsage) :
  usage_userId (detachUsage s uid u) = usage_userId u.
Proof.
  unfold detachUsage. destruct (usage_conversationId u) as [cid|]; [|reflexivity].
  destruct (conversationOf s uid cid); reflexivity.
Qed.

Lemma detachUsage_no_conversation (s : Store) (uid : string) (u : TokenUsage) :
  (forall cid, conversationOf s uid cid = false) -> detachUsage s uid u = u.
Proof.
  intros H. unfold detachUsage. destruct (usage_conversationId u) as [cid|]; [|reflexivity].
  rewrite H. reflexivity.
Qed.

(** Where a usage row still points after the deletion: at no conversation
    of the deleted user. *)
Lemma detachUsage_conversation (s : Store) (uid cid : string) (u : TokenUsage) :
  usage_conversationId (detachUsage s uid u) = Some cid ->
  usage_conversationId u = Some cid /\ conversationOf s uid cid = false.
Proof.
  unfold detachUsage. destruct (usage_conversationId u) as [c|] eqn:Hc; [|rewrite Hc; discriminate].
  destruct (conversationOf s uid c) eqn:Hof; simpl; [discriminate|].
  rewrite Hc. intros [= ->]. auto.
Qed.

Lemma messages_afterDeletion (uid k : string) (s : Store) (m : Message) :
  messages (afterDeletion uid s) !! k = Some m
  <-> messages s !! k = Some m /\ msg_userId m <> uid
      /\ conversationOf s uid (msg_conversationId m) = false.
Proof.
  unfold afterDeletion.
  rewrite messages_deleteUserRow, messages_deleteAccessCodesBy,
    messages_deleteInviteCodesBy, messages_deletePermissionsOf,
    messages_deleteTokenUsageOf, messages_deleteConversationsOf,
    messages_deleteMessagesOf.
  rewrite !map_lookup_filter_Some. cbn [snd].
  rewrite conversationOf_deleteMessagesOf.
  rewrite (conversationOf_filtered _ uid _ _ (conversations_before_last_delete uid s)).
  split.
  - intros ((((Hm & H1) & H2) & _) & _). auto.
  - intros (Hm & H1 & H2). auto.
Qed.

Lemma tokenUsage_afterDeletion (uid k : string) (s : Store) (u' : TokenUsage) :
  tokenUsage (afterDeletion uid s) !! k = Some u'
  <-> exists u, tokenUsage s !! k = Some u /\ usage_userId u <> uid
                /\ u' = detachUsage s uid u.
Proof.
  unfold afterDeletion.
  rewrite tokenUsage_deleteUserRow, tokenUsage_deleteAccessCodesBy,
    tokenUsage_deleteInviteCodesBy, tokenUsage_deletePermissionsOf,
    tokenUsage_deleteTokenUsageOf, tokenUsage_deleteConversationsOf,
    tokenUsage_deleteMessagesOf.
  rewrite map_lookup_filter_Some, lookup_fmap. cbn [snd].
  split.
  - intros [Hk Hown].
    destruct (filter _ (detachUsage (deleteMessagesOf uid s) uid <$> tokenUsage s) !! k)
      as [u1|] eqn:H1; [|discriminate].
    apply map_lookup_filter_Some in H1. destruct H1 as [H1 Hown1]. cbn [snd] in Hown1.
    rewrite lookup_fmap in H1.
    destruct (tokenUsage s !! k) as [u|] eqn:Hu; [|discriminate].
    cbn [fmap option_fmap option_map] in H1, Hk. injection H1 as <-. injection Hk as <-.
    rewrite detachUsage_deleteMessagesOf in *.
    rewrite detachUsage_no_conversation in *
      by (intros cid;
          exact (conversationOf_filtered _ uid cid _
                   (conversations_before_last_delete uid s))).
    rewrite detachUsage_owner in Hown1. eauto.
  - intros (u & Hu & Hown & ->).
    assert (H1 : filter (λ kv, usage_userId kv.2 ≠ uid)
                   (detachUsage (deleteMessagesOf uid s) uid <$> tokenUsage s) !! k
                 = Some (detachUsage s uid u)).
    { apply map_lookup_filter_Some. rewrite lookup_fmap, Hu.
      cbn [snd fmap option_fmap option_map].
      rewrite detachUsage_deleteMessagesOf, detachUsage_owner. auto. }
    rewrite H1. cbn [fmap option_fmap option_map].
    rewrite detachUsage_no_conversation
      by (intros cid;
          exact (conversationOf_filtered _ uid cid _
                   (conversations_before_last_delete uid s))).
    rewrite detachUsage_owner. auto.
Qed.

Lemma other_tables_afterDeletion (uid : string) (s : Store) :
  users (afterDeletion uid s) = delete uid (users s)
  /\ conversations (afterDeletion uid s)
     = filter (λ kv, conv_userId kv.2 ≠ uid)
         (filter (λ kv, conv_userId kv.2 ≠ uid) (conversations s))
  /\ userPermissions (afterDeletion uid s)
     = filter (λ kv, perm_userId kv.2 ≠ uid)
         (filter (λ kv, perm_userId kv.2 ≠ uid) (userPermissions s))
  /\ inviteCodes (afterDeletion uid s)
     = filter (λ kv, invite_createdBy kv.2 ≠ uid)
         (filter (λ kv, invite_createdBy kv.2 ≠ uid) (inviteCodes s))
  /\ accessCodes (afterDeletion uid s)
     = filter (λ kv, access_createdBy kv.2 ≠ uid)
         (filter (λ kv, access_createdBy kv.2 ≠ uid) (accessCodes s))
  /\ userSettings (afterDeletion uid s)
     = filter (λ kv, settings_userId kv.2 ≠ uid) (userSettings s)
  /\ modelGroupOrders (afterDeletion uid s)
     = filter (λ kv, mgo_userId kv.2 ≠ uid) (modelGroupOrders s).
Proof. repeat split. Qed.

Lemma lookup_filter_twice {R} (P : string * R -> Prop) `{!∀ x, Decision (P x)}
    (m : gmap string R) (k : string) (r : R) :
  filter P (filter P m) !! k = Some r <-> m !! k = Some r /\ P (k, r).
Proof. rewrite !map_lookup_filter_Some. tauto. Qed.

(** X15: what is left after a user is deleted: every other user; the
    conversations, permission rows, invite codes and access codes of other
    users, unchanged; the messages other users wrote outside the deleted
    user's conversations (a message in one of those goes with the
    conversation); the usage rows of other users, detached from the deleted
    conversations. *)
Theorem deletion_leaves_exactly_the_others (uid : string) (s : Store) :
  (forall k, users (afterDeletion uid s) !! k
             = if decide (k = uid) then None else users s !! k)
  /\ (forall k c, conversations (afterDeletion uid s) !! k = Some c
                  <-> conversations s !! k = Some c /\ conv_userId c <> uid)
  /\ (forall k m, messages (afterDeletion uid s) !! k = Some m
                  <-> messages s !! k = Some m /\ msg_userId m <> uid
                      /\ conversationOf s uid (msg_conversationId m) = false)
  /\ (forall k u', tokenUsage (afterDeletion uid s) !! k = Some u'
                   <-> exists u, tokenUsage s !! k = Some u /\ usage_userId u <> uid
                                 /\ u' = detachUsage s uid u)
  /\ (forall k p, userPermissions (afterDeletion uid s) !! k = Some p
                  <-> userPermissions s !! k = Some p /\ perm_userId p <> uid)
  /\ (forall k c, inviteCodes (afterDeletion uid s) !! k = Some c
                  <-> inviteCodes s !! k = Some c /\ invite_createdBy c <> uid)
  /\ (forall k c, accessCodes (afterDeletion uid s) !! k = Some c
                  <-> accessCodes s !! k = Some c /\ access_createdBy c <> uid).
Proof.
  destruct (other_tables_afterDeletion uid s) as (Hu & Hc & Hp & Hi & Ha & _ & _).
  split; [|split; [|split; [|split; [|split; [|split]]]]].
  - intros k. rewrite Hu. destruct (decide (k = uid)) as [->|Hne].
    + apply lookup_delete_eq.
    + apply lookup_delete_ne. congruence.
  - intros k c. rewrite Hc. apply lookup_filter_twice.
  - intros k m. apply messages_afterDeletion.
  - intros k u'. apply tokenUsage_afterDeletion.
  - intros k p. rewrite Hp. apply lookup_filter_twice.
  - intros k c. rewrite Hi. apply lookup_filter_twice.
  - intros k c. rewrite Ha. apply lookup_filter_twice.
Qed.

Lemma afterDeletion_consistent (uid : string) (s : Store) :
  consistent s -> consistent (afterDeletion uid s).
Proof.
  intros (Hs & Hc & Hm & Hi & Ha & Ht & Hp & Hg).
  destruct (other_tables_afterDeletion uid s) as (Eu & Ec & Ep & Ei & Ea & Es & Eg).
  assert (Huser : forall k, k <> uid -> is_Some (users s !! k) ->
                            is_Some (users (afterDeletion uid s) !! k)).
  { intros k Hne Hk. rewrite Eu, lookup_delete_ne by congruence. exact Hk. }
  assert (Hconv : forall cid, is_Some (conversations s !! cid) ->
                              conversationOf s uid cid = false ->
                              is_Some (conversations (afterDeletion uid s) !! cid)).
  { intros cid [c Hcid] Hof. exists c. rewrite Ec. apply lookup_filter_twice.
    split; [exact Hcid|]. cbn [snd].
    unfold conversationOf in Hof. rewrite Hcid in Hof.
    apply bool_decide_eq_false in Hof. exact Hof. }
  unfold consistent. repeat split.
  - intros k r Hk. rewrite Es in Hk. apply map_lookup_filter_Some in Hk.
    destruct Hk as [Hk Hne]. apply Huser; [exact Hne|exact (Hs k r Hk)].
  - intros k r Hk. rewrite Ec in Hk. apply lookup_filter_twice in Hk.
    destruct Hk as [Hk Hne]. apply Huser; [exact Hne|exact (Hc k r Hk)].
  - apply messages_afterDeletion in H. destruct H as (Hk & Hne & _).
    apply Huser; [exact Hne|exact (proj1 (Hm _ _ Hk))].
  - apply messages_afterDeletion in H. destruct H as (Hk & _ & Hof).
    apply Hconv; [exact (proj2 (Hm _ _ Hk))|exact Hof].
  - intros k r Hk. rewrite Ei in Hk. apply lookup_filter_twice in Hk.
    destruct Hk as [Hk Hne]. apply Huser; [exact Hne|exact (Hi k r Hk)].
  - intros k r Hk. rewrite Ea in Hk. apply lookup_filter_twice in Hk.
    destruct Hk as [Hk Hne]. apply Huser; [exact Hne|exact (Ha k r Hk)].
  - apply tokenUsage_afterDeletion in H. destruct H as (u & Hk & Hne & ->).
    rewrite detachUsage_owner. apply Huser; [exact Hne|exact (proj1 (Ht _ _ Hk))].
  - intros cid Hcid.
    apply tokenUsage_afterDeletion in H. destruct H as (u & Hk & Hne & ->).
    apply detachUsage_conversation in Hcid. destruct Hcid as [Hcid Hof].
    apply Hconv; [exact (proj2 (Ht _ _ Hk) cid Hcid)|exact Hof].
  - intros k r Hk. rewrite Ep in Hk. apply lookup_filter_twice in Hk.
    destruct Hk as [Hk Hne]. apply Huser; [exact Hne|exact (Hp k r Hk)].
  - intros k r Hk. rewrite Eg in Hk. apply map_lookup_filter_Some in Hk.
    destruct Hk as [Hk Hne]. apply Huser; [exact Hne|exact (Hg k r Hk)].
Qed.

End DeletionEffect.

Section RoutesKeepIntegrity.
Context (E : Env).
Import AdminApi Integrity.

Ltac split_request :=
  repeat (simpl;
          match goal with
          | |- context [match jsonBody ?r with _ => _ end] => destruct (jsonBody r) as [[]|]
          | |- context [truthy ?v] => destruct (truthy v) eqn:?
          | |- context [checkUserPermission E ?s ?a ?t] =>
              destruct (checkUserPermission E s a t) as [[]|]
          | |- context [strict_eq ?a ?b] => destruct (strict_eq a b) eqn:?
          | |- context [as_int ?v] => destruct (as_int v)
          | |- context [as_string ?v] => destruct (as_string v) eqn:?
          | |- context [CodesRoute.expiry E ?v] => destruct (CodesRoute.expiry E v) as [[]|]
          | |- context [dbFault E ?n] => destruct (dbFault E n)
          | |- context [bool_decide ?P] => destruct (bool_decide P) eqn:?
          | |- context [@lookup _ _ _ _ ?k ?m] => destruct (@lookup _ _ _ _ k m) eqn:?
          end).

Lemma as_string_Some (v : jsval) (s : string) : as_string v = Some s -> v = JStr s.
Proof. destruct v; simpl; congruence. Qed.

Ltac split_request_eq :=
  repeat (simpl;
          match goal with
          | |- context [truthy ?v] => destruct (truthy v) eqn:?
          | |- context [checkUserPermission E ?s ?a ?t] =>
              destruct (checkUserPermission E s a t) as [[]|] eqn:?
          | |- context [strict_eq ?a ?b] => destruct (strict_eq a b) eqn:?
          | |- context [as_string ?v] => destruct (as_string v) eqn:?
          | |- context [dbFault E ?n] => destruct (dbFault E n)
          | |- context [bool_decide ?P] => destruct (bool_decide P) eqn:?
          | |- context [@lookup _ _ _ _ ?k ?m] => destruct (@lookup _ _ _ _ k m) eqn:?
          end).

(** What a users DELETE does to the database, for any request: when it
    answers 200 the request named, as [userId], an existing user other than
    its permitted caller, and the database is the one after that user's
    deletion; otherwise the database is untouched. *)
Lemma users_DELETE_db (request : Request) (w : World) :
  (status (fst (UsersRoute.DELETE E request w)) = 200
   /\ exists data userId,
        jsonBody request = Some data
        /\ prop "userId" data = JStr userId
        /\ prop "adminUserId" data <> JStr userId
        /\ checkUserPermission E (db w) (prop "adminUserId" data) "admin_panel"
           = Some true
        /\ is_Some (users (db w) !! userId)
        /\ db (snd (UsersRoute.DELETE E request w)) = afterDeletion userId (db w))
  \/ (status (fst (UsersRoute.DELETE E request w)) <> 200
      /\ db (snd (UsersRoute.DELETE E request w)) = db w).
Proof.
  unfold UsersRoute.DELETE, request_json.
  destruct (jsonBody request) as [data|] eqn:Hbody;
    [|handler_step; right; split; [discriminate|reflexivity]].
  assert (Hnull : data = JNull
                  \/ match data with JNull => throw TypeError | _ => ret data end
                     = ret data)
    by (destruct data; auto).
  destruct Hnull as [->|Hret];
    [handler_step; right; split; [discriminate|reflexivity]|].
  rewrite Hret, bind_ret. cbv beta zeta. clear Hret.
  unfold user_findUnique, findUnique,
    message_deleteMany, conversation_deleteMany, tokenUsage_deleteMany,
    userPermission_deleteMany, inviteCode_deleteMany, accessCode_deleteMany,
    deleteMany, user_delete, delete_row, transaction, lift_arg, round_trip.
  handler_step.
  split_request_eq; simpl;
    first [ right; split; [discriminate|reflexivity]
          | left; split; [reflexivity|] ].
  match goal with
  | Hs : as_string (prop "userId" ?d) = Some ?u,
    Hne : strict_eq _ (prop "userId" ?d) = false,
    Hp : checkUserPermission E _ _ _ = Some true,
    Hu : users (db w) !! ?u = Some _ |- _ =>
      exists d, u; apply as_string_Some in Hs; rewrite Hs in Hne;
      split; [reflexivity|]; split; [exact Hs|]; split;
      [ intros Heq; apply strict_eq_str in Heq; congruence |];
      split; [exact Hp|]; split; [rewrite Hu; eauto | reflexivity]
  end.
Qed.

(** X16: the users DELETE never leaves a half-deleted user behind, whatever the
    request and whichever database request fails.  Either the answer is 200:
    then the user deleted is the one the request names as [userId], an
    existing user other than the permitted caller, every deletion for that
    user took effect and no row of that user is left.  Or the database is
    exactly as it was. *)
Theorem user_delete_never_partial (request : Request) (w : World) :
  let r := UsersRoute.DELETE E request w in
  (status (fst r) = 200
   /\ exists data userId,
        jsonBody request = Some data
        /\ prop "userId" data = JStr userId
        /\ prop "adminUserId" data <> JStr userId
        /\ checkUserPermission E (db w) (prop "adminUserId" data) "admin_panel"
           = Some true
        /\ is_Some (users (db w) !! userId)
        /\ db (snd r) = afterDeletion userId (db w)
        /\ purged userId (db (snd r)))
  \/ (status (fst r) <> 200 /\ db (snd r) = db w).
Proof.
  cbv zeta.
  destruct (users_DELETE_db request w)
    as [[H200 (data & uid & Hbody & Huid & Hself & Hperm & Huser & Hdb)]|Hno];
    [left|right; exact Hno].
  split; [exact H200|]. exists data, uid.
  repeat (split; [assumption|]).
  rewrite Hdb. unfold afterDeletion. apply deleteUserRow_purged.
Qed.

(** X17: the users DELETE keeps the relations of the schema: if every row named
    an existing user and conversation before, so does every row after. *)
Theorem user_delete_keeps_references_valid (request : Request) (w : World) :
  consistent (db w) ->
  consistent (db (snd (UsersRoute.DELETE E request w))).
Proof.
  intros H.
  destruct (users_DELETE_db request w)
    as [[_ (data & uid & _ & _ & _ & _ & _ & ->)]|[_ ->]].
  - apply afterDeletion_consistent. exact H.
  - exact H.
Qed.

Lemma consistent_set_invite (s : Store) (k : string) (r : InviteCode) :
  consistent s ->
  is_Some (users s !! invite_createdBy r) ->
  consistent (with_inviteCodes (<[k := r]> (inviteCodes s)) s).
Proof.
  intros (Hs & Hc & Hm & Hi & Ha & Ht & Hp & Hg) Hr.
  refine (conj Hs (conj Hc (conj Hm (conj _ (conj Ha (conj Ht (conj Hp Hg))))))).
  apply map_Forall_insert_2; assumption.
Qed.

Lemma consistent_set_access (s : Store) (k : string) (r : AccessCode) :
  consistent s ->
  is_Some (users s !! access_createdBy r) ->
  consistent (with_accessCodes (<[k := r]> (accessCodes s)) s).
Proof.
  intros (Hs & Hc & Hm & Hi & Ha & Ht & Hp & Hg) Hr.
  refine (conj Hs (conj Hc (conj Hm (conj Hi (conj _ (conj Ht (conj Hp Hg))))))).
  apply map_Forall_insert_2; assumption.
Qed.

Lemma consistent_delete_invite (s : Store) (k : string) :
  consistent s -> consistent (with_inviteCodes (delete k (inviteCodes s)) s).
Proof.
  intros (Hs & Hc & Hm & Hi & Ha & Ht & Hp & Hg).
  refine (conj Hs (conj Hc (conj Hm (conj _ (conj Ha (conj Ht (conj Hp Hg))))))).
  apply map_Forall_delete; assumption.
Qed.

Lemma consistent_delete_access (s : Store) (k : string) :
  consistent s -> consistent (with_accessCodes (delete k (accessCodes s)) s).
Proof.
  intros (Hs & Hc & Hm & Hi & Ha & Ht & Hp & Hg).
  refine (conj Hs (conj Hc (conj Hm (conj Hi (conj _ (conj Ht (conj Hp Hg))))))).
  apply map_Forall_delete; assumption.
Qed.

Lemma consistent_creator (s : Store) (k : string) :
  consistent s ->
  (forall r, inviteCodes s !! k = Some r -> is_Some (users s !! invite_createdBy r))
  /\ (forall r, accessCodes s !! k = Some r -> is_Some (users s !! access_createdBy r)).
Proof.
  intros (_ & _ & _ & Hi & Ha & _). split; intros r Hr.
  - exact (Hi k r Hr).
  - exact (Ha k r Hr).
Qed.

(** X18: the codes routes keep the relations of the schema too, whatever the
    request: a code is only ever created for an existing user, a toggle
    keeps the creator, a delete cannot orphan anything. *)
Theorem codes_routes_keep_references_valid (request : Request) (w : World) :
  consistent (db w) ->
  consistent (db (snd (CodesRoute.POST E request w)))
  /\ consistent (db (snd (CodesRoute.PATCH E request w)))
  /\ consistent (db (snd (CodesRoute.DELETE E request w))).
Proof.
  intros H. split; [|split].
  - unfold CodesRoute.POST, request_json, inviteCode_create, accessCode_create,
      lift_arg, round_trip, next_tick, or_else.
    handler_step. split_request; simpl; try exact H.
    all: first [ apply consistent_set_invite | apply consistent_set_access ];
      try exact H; cbn [invite_createdBy access_createdBy].
    all: match goal with
         | Hb : bool_decide (users ?s !! ?u = None) = false |- _ =>
             apply bool_decide_eq_false in Hb;
             destruct (users s !! u) eqn:?; [eauto|contradiction]
         end.
  - unfold CodesRoute.PATCH, request_json, inviteCode_findUnique, accessCode_findUnique,
      findUnique, inviteCode_update, accessCode_update, lift_arg, round_trip.
    handler_step. split_request; simpl; try exact H.
    all: first [ apply consistent_set_invite | apply consistent_set_access ];
      try exact H; cbn [invite_createdBy access_createdBy].
    all: first [ eapply (proj1 (consistent_creator _ _ H)); eassumption
               | eapply (proj2 (consistent_creator _ _ H)); eassumption ].
  - unfold CodesRoute.DELETE, request_json, inviteCode_delete, accessCode_delete,
      delete_row, lift_arg, round_trip.
    handler_step. split_request; simpl; try exact H.
    all: first [ apply consistent_delete_invite | apply consistent_delete_access ];
      exact H.
Qed.

End RoutesKeepIntegrity.

Section ToggleFacts.
Context (E : Env).
Import Effects.

Lemma toggle_invite_run (request : Request) (data : jsval) (codeId : string)
    (row : InviteCode) (w : World) :
  jsonBody request = Some data ->
  truthy (prop "adminUserId" data) = true ->
  checkUserPermission E (db w) (prop "adminUserId" data) "admin_panel" = Some true ->
  prop "codeId" data = JStr codeId ->
  codeId <> "" ->
  prop "type" data = JStr "invite" ->
  prop "action" data = JStr "toggle" ->
  dbFault E (tick w) = false ->
  dbFault E (S (tick w)) = false ->
  inviteCodes (db w) !! codeId = Some row ->
  CodesRoute.PATCH E request w
  = (json (BInviteCode codeId (toggledInvite (clock E (S (tick w))) row) None),
     {| db := with_inviteCodes
                (<[codeId := toggledInvite (clock E (S (tick w))) row]> (inviteCodes (db w)))
                (db w);
        tick := S (S (tick w));
        queries := (queries w ++ [FindUnique TInviteCode codeId])
                     ++ [Update TInviteCode codeId];
        shell := shell w |}).
Proof.
  intros Hbody Hadmin Hperm Hcode Hne Htype Haction Hf0 Hf1 Hrow.
  unfold CodesRoute.PATCH.
  rewrite (request_json_object _ _ _ Hbody Hadmin), bind_ret. cbv beta zeta.
  handler_step. rewrite Hadmin, Hcode, Htype, Haction, (truthy_str _ Hne). simpl.
  rewrite Hperm. simpl.
  unfold inviteCode_findUnique, findUnique, inviteCode_update, lift_arg, round_trip;
    handler_step.
  rewrite Hf0, Hrow. simpl. rewrite Hf1, Hrow. reflexivity.
Qed.

Lemma toggle_access_run (request : Request) (data : jsval) (codeId : string)
    (row : AccessCode) (w : World) :
  jsonBody request = Some data ->
  truthy (prop "adminUserId" data) = true ->
  checkUserPermission E (db w) (prop "adminUserId" data) "admin_panel" = Some true ->
  prop "codeId" data = JStr codeId ->
  codeId <> "" ->
  prop "type" data = JStr "access" ->
  prop "action" data = JStr "toggle" ->
  dbFault E (tick w) = false ->
  dbFault E (S (tick w)) = false ->
  accessCodes (db w) !! codeId = Some row ->
  CodesRoute.PATCH E request w
  = (json (BAccessCode codeId (toggledAccess (clock E (S (tick w))) row) None),
     {| db := with_accessCodes
                (<[codeId := toggledAccess (clock E (S (tick w))) row]> (accessCodes (db w)))
                (db w);
        tick := S (S (tick w));
        queries := (queries w ++ [FindUnique TAccessCode codeId])
                     ++ [Update TAccessCode codeId];
        shell := shell w |}).
Proof.
  intros Hbody Hadmin Hperm Hcode Hne Htype Haction Hf0 Hf1 Hrow.
  unfold CodesRoute.PATCH.
  rewrite (request_json_object _ _ _ Hbody Hadmin), bind_ret. cbv beta zeta.
  handler_step. rewrite Hadmin, Hcode, Htype, Haction, (truthy_str _ Hne). simpl.
  rewrite Hperm. simpl.
  unfold accessCode_findUnique, findUnique, accessCode_update, lift_arg, round_trip;
    handler_step.
  rewrite Hf0, Hrow. simpl. rewrite Hf1, Hrow. reflexivity.
Qed.

(** X19: toggling a code twice puts the flag back: after the second toggle the
    row is the original one but for [updatedAt], and the table holds nothing
    else new. *)
Theorem toggle_twice_restores_the_flag (request : Request) (data : jsval)
    (codeId : string) (w : World) :
  jsonBody request = Some data ->
  truthy (prop "adminUserId" data) = true ->
  checkUserPermission E (db w) (prop "adminUserId" data) "admin_panel" = Some true ->
  checkUserPermission E (db (snd (CodesRoute.PATCH E request w)))
    (prop "adminUserId" data) "admin_panel" = Some true ->
  prop "codeId" data = JStr codeId ->
  codeId <> "" ->
  prop "action" data = JStr "toggle" ->
  (forall n, (n < 4)%nat -> dbFault E (n + tick w) = false) ->
  let w2 := snd (CodesRoute.PATCH E request (snd (CodesRoute.PATCH E request w))) in
  (prop "type" data = JStr "invite" ->
   forall row, inviteCodes (db w) !! codeId = Some row ->
   db w2 = with_inviteCodes
             (<[codeId := touchedInvite (clock E (S (S (S (tick w))))) row]>
                (inviteCodes (db w)))
             (db w))
  /\ (prop "type" data = JStr "access" ->
      forall row, accessCodes (db w) !! codeId = Some row ->
      db w2 = with_accessCodes
                (<[codeId := touchedAccess (clock E (S (S (S (tick w))))) row]>
                   (accessCodes (db w)))
                (db w)).
Proof.
  intros Hbody Hadmin Hperm Hperm2 Hcode Hne Haction Hf w2. subst w2.
  pose proof (Hf 0%nat ltac:(lia)) as Hf0. pose proof (Hf 1%nat ltac:(lia)) as Hf1.
  pose proof (Hf 2%nat ltac:(lia)) as Hf2. pose proof (Hf 3%nat ltac:(lia)) as Hf3.
  simpl in Hf0, Hf1, Hf2, Hf3.
  split; intros Htype row Hrow.
  - rewrite (toggle_invite_run request data codeId row w) in Hperm2 |- * by assumption.
    cbn [snd db] in Hperm2.
    rewrite (toggle_invite_run request data codeId
               (toggledInvite (clock E (S (tick w))) row))
      by (cbn [db tick inviteCodes with_inviteCodes]; try assumption;
          apply lookup_insert_eq).
    cbn [snd db tick inviteCodes with_inviteCodes].
    rewrite insert_insert_eq. unfold toggledInvite, touchedInvite.
    cbn [invite_isUsed invite_code invite_createdBy invite_usedBy invite_usedAt
         invite_expiresAt invite_maxUses invite_currentUses invite_createdAt].
    rewrite negb_involutive. reflexivity.
  - rewrite (toggle_access_run request data codeId row w) in Hperm2 |- * by assumption.
    cbn [snd db] in Hperm2.
    rewrite (toggle_access_run request data codeId
               (toggledAccess (clock E (S (tick w))) row))
      by (cbn [db tick accessCodes with_accessCodes]; try assumption;
          apply lookup_insert_eq).
    cbn [snd db tick accessCodes with_accessCodes].
    rewrite insert_insert_eq. unfold toggledAccess, touchedAccess.
    cbn [access_isActive access_code access_createdBy access_expiresAt access_maxUses
         access_currentUses access_allowedModelIds access_createdAt].
    rewrite negb_involutive. reflexivity.
Qed.

End ToggleFacts.

Section CreationFacts.
Context (E : Env).
Import Effects.

(** X20: what the codes POST stores: the generated code, the caller as creator,
    creation and update time alike; an invite code starts unused with no
    uses, an access code starts active with no uses, no use cap (whatever
    [maxUses] the request carried) and no model list.  Nothing else in the
    database changes. *)
Theorem created_code_starts_fresh (request : Request) (data : jsval) (by_ : string)
    (creator : User) (w : World) :
  jsonBody request = Some data ->
  prop "adminUserId" data = JStr by_ ->
  by_ <> "" ->
  checkUserPermission E (db w) (JStr by_) "admin_panel" = Some true ->
  users (db w) !! by_ = Some creator ->
  CodesRoute.expiry E (prop "expiresAt" data) <> Some None ->
  dbFault E (S (tick w)) = false ->
  let id := cuid E (S (tick w)) in
  let code := generateInviteCode E (tick w) in
  let now := clock E (S (tick w)) in
  let expires := match CodesRoute.expiry E (prop "expiresAt" data) with
                 | Some (Some t) => Some t
                 | _ => None
                 end in
  let r := CodesRoute.POST E request w in
  (prop "type" data = JStr "invite" ->
   forall uses, as_int (or_else (prop "maxUses" data) (JNum 1)) = Some uses ->
   inviteCodes (db w) !! id = None ->
   taken (λ c, Some (invite_code c)) (Some code) (inviteCodes (db w)) = false ->
   let row := {| invite_code := code; invite_createdBy := by_; invite_isUsed := false;
                 invite_usedBy := None; invite_usedAt := None;
                 invite_expiresAt := expires; invite_maxUses := uses;
                 invite_currentUses := 0; invite_createdAt := now;
                 invite_updatedAt := now |} in
   fst r = json (BInviteCode id row (Some (by_, user_username creator)))
   /\ db (snd r) = with_inviteCodes (<[id := row]> (inviteCodes (db w))) (db w))
  /\ (prop "type" data = JStr "access" ->
      accessCodes (db w) !! id = None ->
      taken (λ c, Some (access_code c)) (Some code) (accessCodes (db w)) = false ->
      let row := {| access_code := code; access_createdBy := by_;
                    access_isActive := true; access_expiresAt := expires;
                    access_maxUses := None; access_currentUses := 0;
                    access_allowedModelIds := None; access_createdAt := now;
                    access_updatedAt := now |} in
      fst r = json (BAccessCode id row (Some (by_, user_username creator)))
      /\ db (snd r) = with_accessCodes (<[id := row]> (accessCodes (db w))) (db w)).
Proof.
  intros Hbody Hby Hne Hperm Hu Hexp Hfault. cbv zeta.
  assert (Hadmin : truthy (prop "adminUserId" data) = true).
  { rewrite Hby. apply truthy_str. exact Hne. }
  assert (Hno : bool_decide (users (db w) !! by_ = None) = false).
  { apply bool_decide_eq_false. rewrite Hu. discriminate. }
  unfold CodesRoute.POST.
  rewrite (request_json_object _ _ _ Hbody Hadmin), bind_ret. cbv beta zeta.
  split.
  - intros Htype uses Huses Hfresh Hcode.
    assert (Hid : bool_decide (is_Some (inviteCodes (db w) !! cuid E (S (tick w)))) = false).
    { apply bool_decide_eq_false. rewrite Hfresh. intros [? ?]. discriminate. }
    handler_step. rewrite Hadmin, Htype. simpl. rewrite Hby, Hperm. simpl.
    unfold inviteCode_create, lift_arg, round_trip, next_tick, creatorOf; handler_step.
    rewrite Huses. simpl.
    destruct (CodesRoute.expiry E (prop "expiresAt" data)) as [[t|]|]; simpl;
      try contradiction.
    all: simpl in Hcode; rewrite Hfault, Hid, Hcode, Hno, Hu; simpl; auto.
  - intros Htype Hfresh Hcode.
    assert (Hid : bool_decide (is_Some (accessCodes (db w) !! cuid E (S (tick w)))) = false).
    { apply bool_decide_eq_false. rewrite Hfresh. intros [? ?]. discriminate. }
    handler_step. rewrite Hadmin, Htype. simpl. rewrite Hby, Hperm. simpl.
    unfold accessCode_create, lift_arg, round_trip, next_tick, creatorOf; handler_step.
    destruct (CodesRoute.expiry E (prop "expiresAt" data)) as [[t|]|]; simpl;
      try contradiction.
    all: simpl in Hcode; rewrite Hfault, Hid, Hcode, Hno, Hu; simpl; auto.
Qed.

End CreationFacts.

Section UserCreation.
Context (E : Env).
Import Effects.

Lemma users_POST_run (request : Request) (data : jsval) (name pw : string)
    (mail : option string) (role : UserRole) (w : World) :
  jsonBody request = Some data ->
  truthy (prop "adminUserId" data) = true ->
  checkUserPermission E (db w) (prop "adminUserId" data) "admin_panel" = Some true ->
  creatable E data name pw mail role w ->
  let uid := cuid E (S (S (tick w))) in
  let r := UsersRoute.POST E request w in
  fst r = match role with
          | ADMIN => json_status (BUser uid (Some name) mail ADMIN true) 201
          | _ => json_status (BError "Failed to create user") 500
          end
  /\ db (snd r) = afterCreation E name pw mail role w.
Proof.
  intros Hbody Hadmin Hperm
    (Hname & Hne & Hpw & Hpwne & Hmail & Hrole & Hf0 & Hf2 & Hf3
     & Hnone & Huid & Hemail & Huname & Hsid & Hsuser).
  cbv zeta. unfold afterCreation.
  assert (Hfind : bool_decide
                    (map_Exists
                       (λ _ u, user_matches E name
                                 (if truthy (prop "email" data) then mail else None) u
                               = true)
                       (users (db w))) = false).
  { apply bool_decide_eq_false. intros (k & u & Hk & Hm).
    rewrite (Hnone k u Hk) in Hm. discriminate. }
  assert (Hid : bool_decide (is_Some (users (db w) !! cuid E (S (S (tick w))))) = false).
  { apply bool_decide_eq_false. rewrite Huid. intros [? ?]. discriminate. }
  assert (Hsid2 : bool_decide
                    (is_Some (userSettings (db w) !! cuid E (S (S (S (tick w)))))) = false).
  { apply bool_decide_eq_false. rewrite Hsid. intros [? ?]. discriminate. }
  assert (Hfk : bool_decide
                  (<[cuid E (S (S (tick w))) :=
                       newUser name mail (bcryptHash E pw 12 (S (tick w))) role
                         (clock E (S (S (tick w))))]> (users (db w))
                     !! cuid E (S (S (tick w))) = None) = false).
  { apply bool_decide_eq_false. rewrite lookup_insert_eq. discriminate. }
  pose proof (truthy_str _ Hne) as Htn. pose proof (truthy_str _ Hpwne) as Htp.
  unfold UsersRoute.POST.
  rewrite (request_json_object _ _ _ Hbody Hadmin), bind_ret. cbv beta zeta.
  unfold user_findFirst, bcrypt_hash, user_create, userSettings_create,
    userPermission_create, lift_arg, round_trip, next_tick.
  rewrite Hname, Hpw, Hrole, Hmail.
  unfold handler, bind, return_if, return_, ret, throw, checkPermission.
  rewrite Hadmin, Htn, Htp.
  cbn [negb orb]. rewrite Hperm. cbn [negb as_string].
  destruct (truthy (prop "email" data)) eqn:Hte.
  all: cbn -[taken bool_decide user_matches]; rewrite Hf0.
  all: cbn -[taken bool_decide user_matches]; rewrite Hfind.
  all: cbn -[taken bool_decide user_matches]; rewrite Hf2.
  all: cbn -[taken bool_decide user_matches]; rewrite Hid, Hemail, Huname.
  all: cbn -[taken bool_decide user_matches]; rewrite Hf3.
  all: cbn -[taken bool_decide user_matches]; rewrite Hsid2, Hsuser.
  all: cbn -[taken bool_decide user_matches].
  all: unfold newUser in Hfk; rewrite Hfk.
  all: cbn -[taken bool_decide user_matches].
  all: assert (Hadm : strict_eq (match prop "role" data with
                                 | JUndefined => JStr "USER"
                                 | v => v
                                 end) (JStr "ADMIN")
                      = match role with ADMIN => true | _ => false end)
    by (revert Hrole; clear; unfold as_role;
        destruct (match prop "role" data with JUndefined => JStr "USER" | v => v end);
        try discriminate; simpl;
        repeat match goal with
               | |- context [String.eqb ?a ?b] => destruct (String.eqb_spec a b)
               end; try discriminate; intros [= <-]; subst; try reflexivity;
        try congruence).
  all: rewrite Hadm; destruct role; cbn -[taken bool_decide user_matches]; auto.
Qed.

Lemma user_matches_name (name : string) (mail : option string) (u : User) (n : string) :
  user_username u = Some n ->
  equalsInsensitive E n name = true ->
  user_matches E name mail u = true.
Proof.
  intros Hn Heq. unfold user_matches. rewrite Hn, Heq. reflexivity.
Qed.

(** X21: creating a user whose name matches an existing one, letter case
    ignored, or whose email is already taken, is refused with 400 and
    creates nothing. *)
Theorem user_create_refuses_duplicate (request : Request) (data : jsval)
    (name : string) (k : string) (u : User) (w : World) :
  jsonBody request = Some data ->
  truthy (prop "adminUserId" data) = true ->
  checkUserPermission E (db w) (prop "adminUserId" data) "admin_panel" = Some true ->
  prop "username" data = JStr name -> name <> "" ->
  truthy (prop "password" data) = true ->
  dbFault E (tick w) = false ->
  users (db w) !! k = Some u ->
  let r := UsersRoute.POST E request w in
  (truthy (prop "email" data) = false ->
   (exists n, user_username u = Some n /\ equalsInsensitive E n name = true) ->
   fst r = json_status (BError "用户名或邮箱已存在") 400 /\ db (snd r) = db w)
  /\ (forall mail, prop "email" data = JStr mail -> mail <> "" ->
      (exists n, user_username u = Some n /\ equalsInsensitive E n name = true)
      \/ user_email u = Some mail ->
      fst r = json_status (BError "用户名或邮箱已存在") 400 /\ db (snd r) = db w).
Proof.
  intros Hbody Hadmin Hperm Hname Hne Hpw Hf0 Hk. cbv zeta.
  pose proof (truthy_str _ Hne) as Htn.
  unfold UsersRoute.POST.
  rewrite (request_json_object _ _ _ Hbody Hadmin), bind_ret. cbv beta zeta.
  unfold user_findFirst, lift_arg, round_trip.
  rewrite Hname.
  unfold handler, bind, return_if, return_, ret, throw, checkPermission.
  rewrite Hadmin, Htn, Hpw.
  cbn [negb orb]. rewrite Hperm. cbn [negb as_string].
  split.
  - intros Hte (n & Hn & Heq). rewrite Hte.
    assert (Hfind : bool_decide
                      (map_Exists (λ _ u0, user_matches E name None u0 = true)
                         (users (db w))) = true).
    { apply bool_decide_eq_true. exists k, u. split; [exact Hk|].
      exact (user_matches_name name None u n Hn Heq). }
    cbn -[bool_decide user_matches]. rewrite Hf0.
    cbn -[bool_decide user_matches]. rewrite Hfind. auto.
  - intros mail Hmail Hmne Hdup. rewrite Hmail, (truthy_str _ Hmne).
    assert (Hfind : bool_decide
                      (map_Exists (λ _ u0, user_matches E name (Some mail) u0 = true)
                         (users (db w))) = true).
    { apply bool_decide_eq_true. exists k, u. split; [exact Hk|].
      destruct Hdup as [(n & Hn & Heq)|Hm].
      - exact (user_matches_name name (Some mail) u n Hn Heq).
      - unfold user_matches. rewrite Hm, bool_decide_eq_true_2 by reflexivity.
        apply orb_true_r. }
    cbn -[bool_decide user_matches]. rewrite Hf0.
    cbn -[bool_decide user_matches]. rewrite Hfind. auto.
Qed.

(** X22: with role ADMIN the users POST stores the user, active, with the
    bcrypt hash (12 rounds) in place of the password, and the default
    settings, and answers 201 with the new user's id, name, email and
    role. *)
Theorem admin_user_is_created (request : Request) (data : jsval) (name pw : string)
    (mail : option string) (w : World) :
  jsonBody request = Some data ->
  truthy (prop "adminUserId" data) = true ->
  checkUserPermission E (db w) (prop "adminUserId" data) "admin_panel" = Some true ->
  creatable E data name pw mail ADMIN w ->
  let uid := cuid E (S (S (tick w))) in
  let r := UsersRoute.POST E request w in
  fst r = json_status (BUser uid (Some name) mail ADMIN true) 201
  /\ db (snd r) = afterCreation E name pw mail ADMIN w
  /\ users (db (snd r)) !! uid
     = Some (newUser name mail (bcryptHash E pw 12 (S (tick w))) ADMIN
               (clock E (S (S (tick w)))))
  /\ userSettings (db (snd r)) !! cuid E (S (S (S (tick w))))
     = Some (newSettings uid (clock E (S (S (S (tick w)))))).
Proof.
  intros Hbody Hadmin Hperm Hc. cbv zeta.
  destruct (users_POST_run request data name pw mail ADMIN w Hbody Hadmin Hperm Hc)
    as [Hr Hdb].
  split; [exact Hr|]. split; [exact Hdb|]. rewrite Hdb. unfold afterCreation.
  cbn [users userSettings with_users with_userSettings].
  split; apply lookup_insert_eq.
Qed.

(** X23: with any other role the same user and settings rows are stored, but the
    [userPermission.create] that follows names columns the schema's
    UserPermission does not have ([allowedModelIds], [canShareAccess],
    [isActive]); the client rejects it, the answer is 500, and the user and
    settings stay, as nothing ties the three writes together. *)
Theorem other_roles_answer_500_yet_keep_the_user (request : Request) (data : jsval)
    (name pw : string) (mail : option string) (role : UserRole) (w : World) :
  jsonBody request = Some data ->
  truthy (prop "adminUserId" data) = true ->
  checkUserPermission E (db w) (prop "adminUserId" data) "admin_panel" = Some true ->
  creatable E data name pw mail role w ->
  role <> ADMIN ->
  let uid := cuid E (S (S (tick w))) in
  let r := UsersRoute.POST E request w in
  fst r = json_status (BError "Failed to create user") 500
  /\ db (snd r) = afterCreation E name pw mail role w
  /\ users (db (snd r)) !! uid
     = Some (newUser name mail (bcryptHash E pw 12 (S (tick w))) role
               (clock E (S (S (tick w)))))
  /\ userPermissions (db (snd r)) = userPermissions (db w).
Proof.
  intros Hbody Hadmin Hperm Hc Hrole. cbv zeta.
  destruct (users_POST_run request data name pw mail role w Hbody Hadmin Hperm Hc)
    as [Hr Hdb].
  split; [destruct role; [contradiction|exact Hr|exact Hr]|].
  split; [exact Hdb|]. rewrite Hdb. unfold afterCreation.
  cbn [users userPermissions with_users with_userSettings].
  split; [apply lookup_insert_eq|reflexivity].
Qed.

End UserCreation.

Section PatchFacts.
Context (E : Env).

Lemma assoc_filter_drop {A} (keep : string -> bool) (k : string) (l : list (string * A)) :
  keep k = false ->
  assoc k (List.filter (fun kv => keep (fst kv)) l) = None.
Proof.
  intros Hk. induction l as [|[k' v] l IH]; simpl; [reflexivity|].
  destruct (keep k') eqn:Hk'; simpl; [|exact IH].
  destruct (String.eqb_spec k k') as [->|_]; [congruence|exact IH].
Qed.

(** X24: [const { adminUserId, userId, action, ...updateData } = data]: the
    update data has none of the three names taken out, and every other
    property exactly as the request has it. *)
Theorem update_data_is_the_rest (taken : list string) (data : jsval) (k : string) :
  prop k (rest taken data)
  = if existsb (String.eqb k) taken then JUndefined else prop k data.
Proof.
  destruct (existsb (String.eqb k) taken) eqn:Hk; [|apply prop_rest; exact Hk].
  destruct data; try reflexivity. simpl.
  rewrite (assoc_filter_drop (fun x => negb (existsb (String.eqb x) taken))); [reflexivity|].
  rewrite Hk. reflexivity.
Qed.


(** X26: the confirmation text the database-reset GET announces is the one the
    POST accepts: sent back as [confirmText] it gets past the check and the
    reset command is started. *)
Theorem announced_confirmation_is_accepted (request request' : Request) (data : jsval)
    (text : string) (w w' : World) :
  fst (DatabaseResetRoute.GET E request w) = json (BResetInfo text) ->
  jsonBody request' = Some data ->
  truthy (prop "adminUserId" data) = true ->
  checkUserPermission E (db w') (prop "adminUserId" data) "admin_panel" = Some true ->
  prop "confirmText" data = JStr text ->
  exists later,
    shell (snd (DatabaseResetRoute.POST E request' w'))
    = (shell w' ++ ("npm run db:reset", 30000) :: later)%list.
Proof.
  intros Hget Hbody Hadmin Hperm Hconfirm.
  assert (Htext : text = "RESET DATABASE").
  { revert Hget. unfold DatabaseResetRoute.GET. handler_step.
    destruct (truthy (param (get "adminUserId" request))); simpl; [|discriminate].
    destruct (checkUserPermission E (db w) _ _) as [[]|]; simpl; try discriminate.
    intros [= <-]. reflexivity. }
  subst text.
  unfold DatabaseResetRoute.POST.
  rewrite (request_json_object _ _ _ Hbody Hadmin), bind_ret. cbv beta zeta.
  handler_step. rewrite Hadmin. simpl. rewrite Hperm. simpl.
  rewrite Hconfirm. simpl.
  unfold try_catch, execAsync; simpl.
  destruct (exec E "npm run db:reset" 30000 (tick w') (db w')) as [[o1 e1|m1 o1 e1] s1];
    simpl; [|exists []; reflexivity].
  destruct (exec E "npm run db:seed" 30000 (S (tick w')) s1) as [[o2 e2|m2 o2 e2] s2];
    simpl; exists [("npm run db:seed", 30000)]; rewrite <- app_assoc; reflexivity.
Qed.

End PatchFacts.

Section QueryFacts.
Context (E : Env).

Lemma param_or_nonempty (o : option string) (d : string) :
  param_or o d = default d (param_nonempty o).
Proof.
  destruct o as [s|]; simpl; [|reflexivity]. destruct (String.eqb s ""); reflexivity.
Qed.

(** X27: in the query string of the two listing GETs an empty [role], [type],
    [limit] or [offset] counts as an absent one: two requests that differ
    only in that are answered alike and leave the same state.  ([isActive]
    is different: it is compared with [null], so an empty one filters.) *)
Theorem blank_query_parameter_is_absent (r1 r2 : Request) (w : World) :
  get "adminUserId" r1 = get "adminUserId" r2 ->
  get "includeStats" r1 = get "includeStats" r2 ->
  get "isActive" r1 = get "isActive" r2 ->
  (forall k, In k ["role"; "type"; "limit"; "offset"] ->
             param_nonempty (get k r1) = param_nonempty (get k r2)) ->
  UsersRoute.GET E r1 w = UsersRoute.GET E r2 w
  /\ CodesRoute.GET E r1 w = CodesRoute.GET E r2 w.
Proof.
  intros Hadmin Hstats Hactive Hblank.
  pose proof (Hblank "role" ltac:(simpl; auto)) as Hrole.
  pose proof (Hblank "type" ltac:(simpl; auto)) as Htype.
  pose proof (Hblank "limit" ltac:(simpl; auto)) as Hlimit.
  pose proof (Hblank "offset" ltac:(simpl; auto 6)) as Hoffset.
  unfold UsersRoute.GET, CodesRoute.GET.
  rewrite !param_or_nonempty, Hadmin, Hstats, Hactive, Hrole, Htype, Hlimit, Hoffset.
  split; reflexivity.
Qed.


End QueryFacts.

(** ** More runs on concrete requests *)

Section MoreRuns.
Import Sample Cases AdminApi Integrity Effects ChatView.

Lemma store0_consistent : consistent store0.
Proof.
  unfold consistent, store0;
    cbn [users userSettings conversations messages inviteCodes accessCodes tokenUsage
         userPermissions modelGroupOrders].
  repeat match goal with |- _ /\ _ => split end.
  all: repeat (apply map_Forall_insert_2; [|]); try apply map_Forall_empty.
  all: try (vm_compute; eexists; reflexivity).
  all: split; [vm_compute; eexists; reflexivity|].
  all: try (vm_compute; eexists; reflexivity).
  all: intros cid [= <-]; vm_compute; eexists; reflexivity.
Qed.

Lemma byName_keys (m : gmap string (list MenuEntry)) (groups : list (string * Z)) :
  NoDup (byName m groups)
  /\ forall g, g ∈ byName m groups <-> is_Some (m !! g).
Proof.
  unfold byName. split; [apply NoDup_fst_map_to_list|].
  intros g. rewrite list_elem_of_fmap. split.
  - intros ([k v] & -> & Hin). apply elem_of_map_to_list in Hin. eauto.
  - intros [v Hv]. exists (g, v). split; [reflexivity|].
    apply elem_of_map_to_list. exact Hv.
Qed.

Lemma nobody_matches_amy :
  forall k u, users (db world0) !! k = Some u ->
              user_matches E0 "amy" None u = false.
Proof.
  change (map_Forall (λ _ u, user_matches E0 "amy" None u = false) (users (db world0))).
  apply (bool_decide_unpack _). vm_compute. exact I.
Qed.

Lemma amy_is_creatable (role : UserRole) (fields : list (string * jsval)) :
  prop "username" (JObject fields) = JStr "amy" ->
  prop "password" (JObject fields) = JStr "pw" ->
  prop "email" (JObject fields) = JUndefined ->
  as_role (match prop "role" (JObject fields) with JUndefined => JStr "USER" | v => v end)
  = Some role ->
  creatable E0 (JObject fields) "amy" "pw" None role world0.
Proof.
  intros Hn Hp Hm Hr. unfold creatable. rewrite Hn, Hp, Hm, Hr.
  repeat split; try reflexivity; try discriminate.
  apply nobody_matches_amy.
Qed.

Lemma grouping_collects_by_group_witness :
  default ∅ (groupModels menuModels ∅) !! "OpenAI"
  = Some [entryOf (mkModel "m1" "gpt-4o" (Some "OpenAI"));
          entryOf (mkModel "m3" "gpt-4o-mini" (Some "OpenAI"))]
  /\ default ∅ (groupModels menuModels ∅) !! "其他"
     = Some [entryOf (mkModel "m4" "llama" None); entryOf (mkModel "m5" "qwen" (Some ""))]
  /\ default ∅ (groupModels menuModels ∅) !! "Google" = None.
Proof.
  split; [|split].
  - exact (grouping_collects_by_group menuModels _ "OpenAI" eq_refl).
  - exact (grouping_collects_by_group menuModels _ "其他" eq_refl).
  - exact (grouping_collects_by_group menuModels _ "Google" eq_refl).
Defined.

Lemma menu_shows_every_model_once_witness :
  concat ((λ item, default [] item.2)
            <$> default [] (getGroupedModels byName menuModels []))
  ≡ₚ entryOf <$> menuModels.
Proof.
  apply (menu_shows_every_model_once byName menuModels []
           (default ∅ (groupModels menuModels ∅))
           (default [] (getGroupedModels byName menuModels []))).
  - reflexivity.
  - apply byName_keys.
  - apply byName_keys.
  - reflexivity.
Defined.

Lemma unreadable_body_is_500_witness :
  status (fst (serve E0 UsersPOST noBody world0)) = 500
  /\ snd (serve E0 UsersPOST noBody world0) = world0.
Proof.
  apply (unreadable_body_is_500 E0 UsersPOST noBody world0). reflexivity.
Defined.

Lemma missing_parameter_is_400_witness :
  status (fst (serve E0 CodesPATCH (jsonRequest toggleWithoutAction) world0)) = 400
  /\ snd (serve E0 CodesPATCH (jsonRequest toggleWithoutAction) world0) = world0.
Proof.
  apply (missing_parameter_is_400 E0 CodesPATCH (jsonRequest toggleWithoutAction) world0);
    [eexists; reflexivity | reflexivity].
Defined.

Lemma failed_permission_check_is_500_witness :
  status (fst (serve (checkRejects E0) UsersDELETE (jsonRequest deleteBob) world0)) = 500
  /\ snd (serve (checkRejects E0) UsersDELETE (jsonRequest deleteBob) world0) = world0.
Proof.
  apply (failed_permission_check_is_500 (checkRejects E0) UsersDELETE
           (jsonRequest deleteBob) (JStr "root") world0); reflexivity.
Defined.

Lemma unknown_code_type_is_400_witness :
  fst (serve E0 CodesDELETE (jsonRequest deleteGiftCode) world0)
  = json_status (BError "Invalid type parameter") 400
  /\ snd (serve E0 CodesDELETE (jsonRequest deleteGiftCode) world0) = world0.
Proof.
  apply (unknown_code_type_is_400 E0 CodesDELETE (jsonRequest deleteGiftCode)
           (JObject deleteGiftCode) world0);
    [right; left; reflexivity | reflexivity | reflexivity | reflexivity
    | discriminate | discriminate].
Defined.

Lemma unknown_action_is_400_witness :
  fst (UsersRoute.PATCH E0 (jsonRequest promoteBob) world0)
  = json_status (BError "Invalid action") 400
  /\ snd (UsersRoute.PATCH E0 (jsonRequest promoteBob) world0) = world0.
Proof.
  apply (proj1 (unknown_action_is_400 E0 (jsonRequest promoteBob) (JObject promoteBob)
                  world0 eq_refl eq_refl));
    [reflexivity | discriminate | discriminate | discriminate].
Defined.

Lemma code_delete_removes_only_that_code_witness :
  let r := CodesRoute.DELETE E0 (jsonRequest deleteInvite2) world0 in
  fst r = json (BSuccess "Code deleted successfully")
  /\ db (snd r) = with_inviteCodes (delete "inv2" (inviteCodes (db world0))) (db world0)
  /\ inviteCodes (db (snd r)) !! "inv2" = None
  /\ forall k, k <> "inv2" -> inviteCodes (db (snd r)) !! k = inviteCodes (db world0) !! k.
Proof.
  apply (proj1 (code_delete_removes_only_that_code E0 (jsonRequest deleteInvite2)
                  (JObject deleteInvite2) "inv2" world0
                  eq_refl eq_refl eq_refl eq_refl ltac:(discriminate) eq_refl));
    [reflexivity | eexists; reflexivity].
Defined.

Lemma user_delete_keeps_references_valid_witness :
  consistent (db (snd (UsersRoute.DELETE E0 (jsonRequest deleteBob) world0))).
Proof.
  apply (user_delete_keeps_references_valid E0 (jsonRequest deleteBob) world0).
  exact store0_consistent.
Defined.

Lemma codes_routes_keep_references_valid_witness :
  consistent (db (snd (CodesRoute.POST E0 (jsonRequest accessNineUses) world0)))
  /\ consistent (db (snd (CodesRoute.PATCH E0 (jsonRequest accessNineUses) world0)))
  /\ consistent (db (snd (CodesRoute.DELETE E0 (jsonRequest accessNineUses) world0))).
Proof.
  apply (codes_routes_keep_references_valid E0 (jsonRequest accessNineUses) world0).
  exact store0_consistent.
Defined.

Lemma toggle_twice_restores_the_flag_witness :
  db (snd (CodesRoute.PATCH E0 (jsonRequest toggleInvite)
             (snd (CodesRoute.PATCH E0 (jsonRequest toggleInvite) world0))))
  = with_inviteCodes
      (<["inv1" := touchedInvite (clock E0 3) (mkInvite "fimai-aaaa" "root")]>
         (inviteCodes (db world0)))
      (db world0).
Proof.
  apply (proj1 (toggle_twice_restores_the_flag E0 (jsonRequest toggleInvite)
                  (JObject toggleInvite) "inv1" world0
                  eq_refl eq_refl eq_refl eq_refl eq_refl ltac:(discriminate) eq_refl
                  (fun n _ => eq_refl)));
    reflexivity.
Defined.

Lemma created_code_starts_fresh_witness :
  let r := CodesRoute.POST E0 (jsonRequest accessNineUses) world0 in
  let row := {| access_code := generateInviteCode E0 0; access_createdBy := "root";
                access_isActive := true; access_expiresAt := None;
                access_maxUses := None; access_currentUses := 0;
                access_allowedModelIds := None; access_createdAt := clock E0 1;
                access_updatedAt := clock E0 1 |} in
  fst r = json (BAccessCode (cuid E0 1) row (Some ("root", Some "root")))
  /\ db (snd r)
     = with_accessCodes (<[cuid E0 1 := row]> (accessCodes (db world0))) (db world0).
Proof.
  apply (proj2 (created_code_starts_fresh E0 (jsonRequest accessNineUses)
                  (JObject accessNineUses) "root" (mkUser "root" ADMIN) world0
                  eq_refl eq_refl ltac:(discriminate) eq_refl eq_refl
                  ltac:(discriminate) eq_refl));
    reflexivity.
Defined.

Lemma user_create_refuses_duplicate_witness :
  let r := UsersRoute.POST E0 (jsonRequest createBobAgain) world0 in
  fst r = json_status (BError "用户名或邮箱已存在") 400 /\ db (snd r) = db world0.
Proof.
  apply (proj1 (user_create_refuses_duplicate E0 (jsonRequest createBobAgain)
                  (JObject createBobAgain) "bob" "bob" (mkUser "bob" USER) world0
                  eq_refl eq_refl eq_refl eq_refl ltac:(discriminate) eq_refl eq_refl
                  eq_refl));
    [reflexivity | exists "bob"; split; reflexivity].
Defined.

Lemma admin_user_is_created_witness :
  let uid := cuid E0 2 in
  let r := UsersRoute.POST E0 (jsonRequest createAdminAmy) world0 in
  fst r = json_status (BUser uid (Some "amy") None ADMIN true) 201
  /\ db (snd r) = afterCreation E0 "amy" "pw" None ADMIN world0
  /\ users (db (snd r)) !! uid
     = Some (newUser "amy" None (bcryptHash E0 "pw" 12 1) ADMIN (clock E0 2))
  /\ userSettings (db (snd r)) !! cuid E0 3 = Some (newSettings uid (clock E0 3)).
Proof.
  apply (admin_user_is_created E0 (jsonRequest createAdminAmy) (JObject createAdminAmy)
           "amy" "pw" None world0 eq_refl eq_refl eq_refl).
  apply amy_is_creatable; reflexivity.
Defined.

Lemma other_roles_answer_500_yet_keep_the_user_witness :
  let uid := cuid E0 2 in
  let r := UsersRoute.POST E0 (jsonRequest createAmy) world0 in
  fst r = json_status (BError "Failed to create user") 500
  /\ db (snd r) = afterCreation E0 "amy" "pw" None USER world0
  /\ users (db (snd r)) !! uid
     = Some (newUser "amy" None (bcryptHash E0 "pw" 12 1) USER (clock E0 2))
  /\ userPermissions (db (snd r)) = userPermissions (db world0).
Proof.
  apply (other_roles_answer_500_yet_keep_the_user E0 (jsonRequest createAmy)
           (JObject createAmy) "amy" "pw" None USER world0 eq_refl eq_refl eq_refl).
  - apply amy_is_creatable; reflexivity.
  - discriminate.
Defined.


Lemma announced_confirmation_is_accepted_witness :
  exists later,
    shell (snd (DatabaseResetRoute.POST E0 (jsonRequest resetConfirmed) world0))
    = (shell world0 ++ ("npm run db:reset", 30000) :: later)%list.
Proof.
  apply (announced_confirmation_is_accepted E0 asRoot (jsonRequest resetConfirmed)
           (JObject resetConfirmed) "RESET DATABASE" world0 world0);
    reflexivity.
Defined.

Lemma blank_query_parameter_is_absent_witness :
  UsersRoute.GET E0 asRoot world0 = UsersRoute.GET E0 asRootBlanks world0
  /\ CodesRoute.GET E0 asRoot world0 = CodesRoute.GET E0 asRootBlanks world0.
Proof.
  apply (blank_query_parameter_is_absent E0 asRoot asRootBlanks world0);
    try reflexivity.
  intros k [ <- | [ <- | [ <- | [ <- | [] ] ] ] ]; reflexivity.
Defined.


End MoreRuns.
